(** * Steady Vitality backend: authentication and session lifecycle

    A shallow embedding of the credential service (src/utils/password.ts),
    the token service (src/utils/jwt.ts), the Session and
    CoachTraineeAssignment entities, the User entity with its persistence
    hooks, and the AuthService orchestrator, followed by the properties of
    the specification that concern them.

    Conventions of the embedding.
    - A JavaScript string is its sequence of UTF-16 code units; the model
      covers the code units below 256 (Latin-1), one [ascii] each.
    - [new Date()] and [Date.now()] are an explicit argument [now], in
      milliseconds since the epoch; a Date is the integer it wraps.
    - [Math.random()], [crypto.randomBytes], generated UUIDs and bcrypt
      salts are explicit arguments.
    - A JavaScript number that the code only uses as an integer is a [Z];
      where [parseInt] produces it, [NaN], the infinities and the rounding
      to a double above [2^53] are explicit.
    - [throw] is the [Throw] constructor of [outcome]; [try/catch] is a
      match on it.
    - [undefined] and [null] are both [None].  The two differ for a save:
      a property that is [undefined] is not written, and the only
      properties that the sources set to [undefined] are those that
      [resetPassword] and [verifyEmail] mean to clear. *)

From Stdlib Require Import ZArith List String Ascii Bool Lia Permutation.
From Stdlib Require Import DecimalString DecimalNat.
Import ListNotations.
Open Scope string_scope.
Open Scope Z_scope.

(* ================================================================== *)
(** * JavaScript primitives used by the sources *)
(* ================================================================== *)

Module JS.

(** Truthiness of a string: every string but the empty one. *)
Definition truthy (s : string) : bool :=
  match s with EmptyString => false | _ => true end.

(** Truthiness of an optional string ([undefined]/[null] are falsy). *)
Definition truthy_opt (o : option string) : bool :=
  match o with Some s => truthy s | None => false end.

Definition code (c : ascii) : nat := nat_of_ascii c.

Definition in_range (lo hi : nat) (c : ascii) : bool :=
  (Nat.leb lo (code c) && Nat.leb (code c) hi)%bool.

(** [/[A-Z]/], [/[a-z]/] and [/\d/] on one code unit. *)
Definition isUpperAZ (c : ascii) : bool := in_range 65 90 c.
Definition isLowerAZ (c : ascii) : bool := in_range 97 122 c.
Definition isDigit (c : ascii) : bool := in_range 48 57 c.

(** [String.prototype.toLowerCase] on a Latin-1 code unit: A-Z, and the
    accented capitals U+00C0..U+00DE except the multiplication sign. *)
Definition lowerChar (c : ascii) : ascii :=
  if (isUpperAZ c || in_range 192 214 c || in_range 216 222 c)%bool
  then ascii_of_nat (code c + 32) else c.

Fixpoint toLowerCase (s : string) : string :=
  match s with
  | EmptyString => EmptyString
  | String c r => String (lowerChar c) (toLowerCase r)
  end.

(** White space removed by [trim] and skipped by [parseInt]:
    TAB, LF, VT, FF, CR, SPACE and NBSP. *)
Definition isWhite (c : ascii) : bool :=
  (in_range 9 13 c || Nat.eqb (code c) 32 || Nat.eqb (code c) 160)%bool.

Fixpoint trimStart (s : string) : string :=
  match s with
  | String c r => if isWhite c then trimStart r else s
  | EmptyString => EmptyString
  end.

(** [trimEnd]: a character is dropped when it is white space and
    everything after it has been dropped. *)
Fixpoint trimEnd (s : string) : string :=
  match s with
  | EmptyString => EmptyString
  | String c r =>
      match trimEnd r with
      | EmptyString => if isWhite c then EmptyString else String c EmptyString
      | r' => String c r'
      end
  end.

Definition trim (s : string) : string := trimEnd (trimStart s).

Fixpoint existsChar (p : ascii -> bool) (s : string) : bool :=
  match s with
  | EmptyString => false
  | String c r => (p c || existsChar p r)%bool
  end.

Fixpoint everyChar (p : ascii -> bool) (s : string) : bool :=
  match s with
  | EmptyString => true
  | String c r => (p c && everyChar p r)%bool
  end.

(** [hay.startsWith(needle)]. *)
Fixpoint startsWith (needle hay : string) : bool :=
  match needle, hay with
  | EmptyString, _ => true
  | String a n', String b h' => (Ascii.eqb a b && startsWith n' h')%bool
  | String _ _, EmptyString => false
  end.

(** [hay.includes(needle)], also the test of a literal regular
    expression without anchors. *)
Fixpoint includes (needle hay : string) : bool :=
  (startsWith needle hay ||
   match hay with
   | EmptyString => false
   | String _ h' => includes needle h'
   end)%bool.

(** [arr.includes(x)] on an array of strings. *)
Definition arrayIncludes (arr : list string) (x : string) : bool :=
  existsb (String.eqb x) arr.

(** [arr.join(sep)]. *)
Fixpoint join (sep : string) (arr : list string) : string :=
  match arr with
  | [] => EmptyString
  | [x] => x
  | x :: rest => x ++ sep ++ join sep rest
  end.

(** [s.endsWith(c)] for a one-character suffix. *)
Fixpoint endsWithChar (c : ascii) (s : string) : bool :=
  match s with
  | EmptyString => false
  | String a EmptyString => Ascii.eqb a c
  | String _ r => endsWithChar c r
  end.

(** [s.slice(0, -1)]: all but the last code unit. *)
Fixpoint sliceInit (s : string) : string :=
  match s with
  | EmptyString => EmptyString
  | String _ EmptyString => EmptyString
  | String a r => String a (sliceInit r)
  end.

(** A number as [parseInt] returns it: NaN, an integer that a double
    represents, or an infinity ([true] for the negative one).  [Num 0]
    stands for both zeros. *)
Inductive number : Type :=
| NaN : number
| Num : Z -> number
| Infinity : bool -> number.

(** The Number value of an integer: the nearest double, a tie going to
    the even significand, and an infinity from [2^1024 - 2^970] on.  Up to
    [2^53] in absolute value every integer is a double. *)
Definition toNumber (z : Z) : number :=
  let a := Z.abs z in
  if a <=? 2 ^ 53 then Num z
  else
    let e := Z.log2 a - 52 in
    let q := a / 2 ^ e in
    let r := a mod 2 ^ e in
    let half := 2 ^ (e - 1) in
    let q' := if r <? half then q
              else if half <? r then q + 1
              else if Z.even q then q else q + 1 in
    if 2 ^ 1024 <=? q' * 2 ^ e then Infinity (z <? 0)
    else Num (Z.sgn z * (q' * 2 ^ e)).

(** [a * k] for a positive integer constant [k]. *)
Definition mul (a : number) (k : Z) : number :=
  match a with
  | NaN => NaN
  | Num z => toNumber (z * k)
  | Infinity negative => Infinity negative
  end.

(** Value of a digit in the given radix, if it is one. *)
Definition digitValue (radix : Z) (c : ascii) : option Z :=
  let v :=
    if isDigit c then Some (Z.of_nat (code c) - 48)
    else if in_range 97 122 c then Some (Z.of_nat (code c) - 87)
    else if in_range 65 90 c then Some (Z.of_nat (code c) - 55)
    else None in
  match v with
  | Some d => if d <? radix then Some d else None
  | None => None
  end.

(** The longest prefix of digits, accumulated; [None] when the first
    character is not a digit. *)
Fixpoint parseDigits (radix : Z) (acc : option Z) (s : string) : option Z :=
  match s with
  | EmptyString => acc
  | String c r =>
      match digitValue radix c with
      | Some d =>
          parseDigits radix
            (Some (match acc with Some a => a * radix + d | None => d end)) r
      | None => acc
      end
  end.

(** [parseInt(s)] without a radix argument: leading white space, an
    optional sign, an optional [0x]/[0X] prefix selecting radix 16, then
    the longest run of digits; [NaN] when that run is empty, and otherwise
    the Number value of the integer that the digits denote. *)
Definition parseInt (s : string) : number :=
  let s := trimStart s in
  let '(sign, s) :=
    match s with
    | String c r =>
        if Ascii.eqb c "-" then (-1, r)
        else if Ascii.eqb c "+" then (1, r)
        else (1, s)
    | EmptyString => (1, s)
    end in
  let '(radix, s) :=
    match s with
    | String c (String x r) =>
        if (Ascii.eqb c "0" && (Ascii.eqb x "x" || Ascii.eqb x "X"))%bool
        then (16, r) else (10, s)
    | _ => (10, s)
    end in
  match parseDigits radix None s with
  | Some z => toNumber (sign * z)
  | None => NaN
  end.

(** [String(n)] for a natural number: its decimal digits. *)
Definition decimal (n : nat) : string :=
  NilEmpty.string_of_uint (Nat.to_uint n).

(** [Math.floor(Math.random() * n)]: a draw of [Math.random()] is
    [k / 2^53] for an integer [0 <= k < 2^53]. *)
Definition randomIndex (k : Z) (n : nat) : nat :=
  Z.to_nat (((k mod 2 ^ 53) * Z.of_nat n) / 2 ^ 53).

(** Sign of [Math.random() - 0.5] for the same draw. *)
Definition randomSign (k : Z) : comparison :=
  (k mod 2 ^ 53) ?= 2 ^ 52.

(** A text that is empty or starts with a character that is not white
    space. *)
Definition headClean (s : string) : Prop :=
  match s with
  | EmptyString => True
  | String c _ => isWhite c = false
  end.

End JS.

(* ================================================================== *)
(** * Credential service: src/utils/password.ts *)
(* ================================================================== *)

Module PasswordService.
Import JS.

Record PasswordValidation := {
  isValid : bool;
  errors : list string
}.

Definition dquote : ascii := ascii_of_nat 34.

(** The class of special characters that [validatePassword] tests for:
    the ASCII punctuation listed in its regular expression, among
    them the quotation mark (code 34), the backslash and the slash. *)
Definition specialChars : list ascii :=
  list_ascii_of_string "!@#$%^&*()_+-=[]{};':" ++ [dquote] ++
  list_ascii_of_string "\|,.<>/?".

Definition isSpecial (c : ascii) : bool :=
  existsb (Ascii.eqb c) specialChars.

Definition commonPasswords : list string :=
  [ "password"; "password123"; "123456"; "123456789"; "qwerty";
    "abc123"; "password1"; "admin"; "letmein"; "welcome" ].

(** [/123456|abcdef|qwerty/.test(s)]. *)
Definition sequentialPattern (s : string) : bool :=
  (includes "123456" s || includes "abcdef" s || includes "qwerty" s)%bool.

Definition msg_required := "Password is required".
Definition msg_short := "Password must be at least 8 characters long".
Definition msg_long := "Password must be no more than 128 characters long".
Definition msg_upper := "Password must contain at least one uppercase letter".
Definition msg_lower := "Password must contain at least one lowercase letter".
Definition msg_digit := "Password must contain at least one number".
Definition msg_special := "Password must contain at least one special character".
Definition msg_common := "Password is too common. Please choose a stronger password".
Definition msg_sequential := "Password should not contain sequential characters".

(** [if (cond) errors.push(msg)]. *)
Definition pushIf (cond : bool) (msg : string) (errors : list string) :
  list string :=
  if cond then errors ++ [msg] else errors.

Definition validatePassword (password : string) : PasswordValidation :=
  let errors : list string := [] in
  if negb (truthy password) then
    {| isValid := false; errors := errors ++ [msg_required] |}
  else
    let errors := pushIf (Nat.ltb (String.length password) 8) msg_short errors in
    let errors := pushIf (Nat.ltb 128 (String.length password)) msg_long errors in
    let errors := pushIf (negb (existsChar isUpperAZ password)) msg_upper errors in
    let errors := pushIf (negb (existsChar isLowerAZ password)) msg_lower errors in
    let errors := pushIf (negb (existsChar isDigit password)) msg_digit errors in
    let errors := pushIf (negb (existsChar isSpecial password)) msg_special errors in
    let errors :=
      pushIf (arrayIncludes commonPasswords (toLowerCase password))
        msg_common errors in
    let errors :=
      pushIf (sequentialPattern (toLowerCase password)) msg_sequential errors in
    {| isValid := Nat.eqb (List.length errors) 0; errors := errors |}.

Definition lowercase : string := "abcdefghijklmnopqrstuvwxyz".
Definition uppercase : string := "ABCDEFGHIJKLMNOPQRSTUVWXYZ".
Definition numbers : string := "0123456789".
Definition symbols : string := "!@#$%^&*()_+-=[]{}|;:,.<>?".
Definition allChars : string := lowercase ++ uppercase ++ numbers ++ symbols.

(** [chars[i]] as it is appended to a string: an index out of range
    reads [undefined], which [+=] appends as text. *)
Definition charAt (chars : string) (i : nat) : string :=
  match String.get i chars with
  | Some c => String c EmptyString
  | None => "undefined"
  end.

(** [chars[Math.floor(Math.random() * chars.length)]] for the draw [k]. *)
Definition pick (chars : string) (k : Z) : string :=
  charAt chars (randomIndex k (String.length chars)).

(** The loop [for (let i = 4; i < length; i++)], [n] iterations left;
    [rand i] is the [i]-th draw of [Math.random()]. *)
Fixpoint fillRest (n : nat) (rand : nat -> Z) (i : nat) (password : string) :
  string :=
  match n with
  | O => password
  | S n' => fillRest n' rand (S i) (password ++ pick allChars (rand i))
  end.

(** [arr.sort(() => Math.random() - 0.5)]: an insertion sort whose every
    comparison is a new draw.  [x] comes before the elements of [l] in the
    array; it stays in front of [y] unless the comparator is positive, so
    that the sort is stable, as the language requires.  The engine's
    sorting algorithm is its own choice; the properties below only use
    that it permutes the array, and the concrete runs only use draws for
    which the comparator is 0 throughout. *)
Fixpoint insertRandom (rand : nat -> Z) (i : nat) (x : ascii) (l : list ascii) :
  list ascii * nat :=
  match l with
  | [] => ([x], i)
  | y :: r =>
      match randomSign (rand i) with
      | Gt => let '(r', j) := insertRandom rand (S i) x r in (y :: r', j)
      | _ => (x :: y :: r, S i)
      end
  end.

Fixpoint sortRandom (rand : nat -> Z) (i : nat) (l : list ascii) :
  list ascii * nat :=
  match l with
  | [] => ([], i)
  | x :: r => let '(s, j) := sortRandom rand i r in insertRandom rand j x s
  end.

Definition generateRandomPassword (length : Z) (rand : nat -> Z) : string :=
  let password := EmptyString in
  let password := password ++ pick lowercase (rand 0%nat) in
  let password := password ++ pick uppercase (rand 1%nat) in
  let password := password ++ pick numbers (rand 2%nat) in
  let password := password ++ pick symbols (rand 3%nat) in
  let password := fillRest (Z.to_nat (length - 4)) rand 4%nat password in
  string_of_list_ascii
    (fst (sortRandom rand (4 + Z.to_nat (length - 4))%nat
            (list_ascii_of_string password))).

End PasswordService.

(* ================================================================== *)
(** * Exceptions and results *)
(* ================================================================== *)

(** What the modelled code throws: the two error classes of the
    jsonwebtoken library that the service tells apart, the [AuthError]
    objects of src/types/auth.ts, plain [Error]s, and a failed query of
    the storage engine. *)
Inductive Exn : Type :=
| TokenExpiredError
| JsonWebTokenError
| AuthError (message : string) (statusCode : Z) (code : string)
| Error (message : string)
| QueryFailedError.

Inductive outcome (A : Type) : Type :=
| Ok (a : A)
| Throw (e : Exn).
Arguments Ok {A} a.
Arguments Throw {A} e.

Definition bind {A B : Type} (m : outcome A) (k : A -> outcome B) : outcome B :=
  match m with
  | Ok a => k a
  | Throw e => Throw e
  end.

Definition isSome {A : Type} (o : option A) : bool :=
  match o with Some _ => true | None => false end.

Definition eqb_opt (o : option string) (s : string) : bool :=
  match o with Some x => String.eqb x s | None => false end.

(* ================================================================== *)
(** * Session entity: src/database/entities/Session.ts *)
(* ================================================================== *)

Module Session.
Import JS.

(** A stored session row. *)
Record Session := {
  id : string;
  userId : string;
  token : string;
  refreshToken : option string;
  expiresAt : Z;
  refreshTokenExpiresAt : option Z;
  ipAddress : option string;
  userAgent : option string;
  deviceType : option string;
  browser : option string;
  os : option string;
  isActive : bool;
  lastAccessedAt : option Z;
  revokedAt : option Z;
  revokedBy : option string;
  revokedReason : option string
}.

(** [new Date() > this.expiresAt]. *)
Definition isExpired (now : Z) (s : Session) : bool :=
  now >? expiresAt s.

Definition isRefreshTokenExpired (now : Z) (s : Session) : bool :=
  match refreshTokenExpiresAt s with
  | Some t => now >? t
  | None => true
  end.

(** A Date object is truthy, so [!this.revokedAt] is "no revocation
    time is stored". *)
Definition isValid (now : Z) (s : Session) : bool :=
  (isActive s && negb (isExpired now s) && negb (isSome (revokedAt s)))%bool.

Definition canRefresh (now : Z) (s : Session) : bool :=
  (isActive s && negb (isRefreshTokenExpired now s)
   && negb (isSome (revokedAt s)))%bool.

Definition orDefault (o : option string) (d : string) : string :=
  match o with
  | Some s => if truthy s then s else d
  | None => d
  end.

Definition revoke (now : Z) (reason revokedBy' : option string) (s : Session) :
  Session :=
  {| id := id s; userId := userId s; token := token s;
     refreshToken := refreshToken s; expiresAt := expiresAt s;
     refreshTokenExpiresAt := refreshTokenExpiresAt s;
     ipAddress := ipAddress s; userAgent := userAgent s;
     deviceType := deviceType s; browser := browser s; os := os s;
     isActive := false;
     lastAccessedAt := lastAccessedAt s;
     revokedAt := Some now;
     revokedBy := Some (orDefault revokedBy' "system");
     revokedReason := Some (orDefault reason "Session revoked") |}.

(** The partial update of [sessionRepository.update(criteria, {...})]
    used by logout-all, change-password and reset-password. *)
Definition bulkRevoke (now : Z) (reason by' : string) (s : Session) : Session :=
  {| id := id s; userId := userId s; token := token s;
     refreshToken := refreshToken s; expiresAt := expiresAt s;
     refreshTokenExpiresAt := refreshTokenExpiresAt s;
     ipAddress := ipAddress s; userAgent := userAgent s;
     deviceType := deviceType s; browser := browser s; os := os s;
     isActive := false;
     lastAccessedAt := lastAccessedAt s;
     revokedAt := Some now;
     revokedBy := Some by';
     revokedReason := Some reason |}.

(** The three classifications of [parseUserAgent]. *)
Definition deviceOf (ua : string) : string :=
  if includes "Mobile" ua then "mobile"
  else if includes "Tablet" ua then "tablet"
  else "desktop".

Definition browserOf (ua : string) : string :=
  if includes "Chrome" ua then "Chrome"
  else if includes "Firefox" ua then "Firefox"
  else if includes "Safari" ua then "Safari"
  else if includes "Edge" ua then "Edge"
  else "Other".

Definition osOf (ua : string) : string :=
  if includes "Windows" ua then "Windows"
  else if includes "Mac" ua then "macOS"
  else if includes "Linux" ua then "Linux"
  else if includes "Android" ua then "Android"
  else if includes "iOS" ua then "iOS"
  else "Other".

End Session.

(* ================================================================== *)
(** * Assignment state machine:
      src/database/entities/CoachTraineeAssignment.ts *)
(* ================================================================== *)

Module CoachTraineeAssignment.
Import JS.

Inductive AssignmentStatus : Type := ACTIVE | PAUSED | COMPLETED | TERMINATED.

Definition status_eqb (a b : AssignmentStatus) : bool :=
  match a, b with
  | ACTIVE, ACTIVE | PAUSED, PAUSED
  | COMPLETED, COMPLETED | TERMINATED, TERMINATED => true
  | _, _ => false
  end.

Record Assignment := {
  id : string;
  coachId : string;
  traineeId : string;
  status : AssignmentStatus;
  assignedAt : Z;
  endedAt : option Z;
  pausedAt : option Z;
  resumedAt : option Z;
  isActive : bool;
  notes : option string;
  terminationReason : option string;
  terminatedBy : option string;
  totalSessions : Z;
  completedSessions : Z
}.

Definition isCompleted (a : Assignment) : bool := status_eqb (status a) COMPLETED.
Definition isPaused (a : Assignment) : bool := status_eqb (status a) PAUSED.
Definition isTerminated (a : Assignment) : bool := status_eqb (status a) TERMINATED.

Definition newline : string := String (ascii_of_nat 10) EmptyString.

(** [this.notes ? `${this.notes}\n${entry}` : entry]. *)
Definition appendNote (notes : option string) (entry : string) : option string :=
  if truthy_opt notes
  then Some (match notes with Some n => n | None => EmptyString end
             ++ newline ++ entry)
  else Some entry.

(** [if (reason) this.notes = ...] for an optional reason. *)
Definition noteIfReason (notes : option string) (tag : string)
           (reason : option string) : option string :=
  match reason with
  | Some r => if truthy r then appendNote notes (tag ++ " " ++ r) else notes
  | None => notes
  end.

Definition msg_pause := "Can only pause active assignments".
Definition msg_resume := "Can only resume paused assignments".
Definition msg_complete := "Can only complete active or paused assignments".
Definition msg_terminate := "Assignment is already terminated".

Definition pause (now : Z) (reason pausedBy : option string) (a : Assignment) :
  outcome Assignment :=
  if negb (status_eqb (status a) ACTIVE) then Throw (Error msg_pause)
  else Ok {| id := id a; coachId := coachId a; traineeId := traineeId a;
             status := PAUSED;
             assignedAt := assignedAt a; endedAt := endedAt a;
             pausedAt := Some now;
             resumedAt := resumedAt a;
             isActive := false;
             notes := noteIfReason (notes a) "[PAUSED]" reason;
             terminationReason := terminationReason a;
             terminatedBy := terminatedBy a;
             totalSessions := totalSessions a;
             completedSessions := completedSessions a |}.

Definition resume (now : Z) (reason : option string) (a : Assignment) :
  outcome Assignment :=
  if negb (status_eqb (status a) PAUSED) then Throw (Error msg_resume)
  else Ok {| id := id a; coachId := coachId a; traineeId := traineeId a;
             status := ACTIVE;
             assignedAt := assignedAt a; endedAt := endedAt a;
             pausedAt := pausedAt a;
             resumedAt := Some now;
             isActive := true;
             notes := noteIfReason (notes a) "[RESUMED]" reason;
             terminationReason := terminationReason a;
             terminatedBy := terminatedBy a;
             totalSessions := totalSessions a;
             completedSessions := completedSessions a |}.

Definition complete (now : Z) (reason completedBy : option string)
           (a : Assignment) : outcome Assignment :=
  if negb (existsb (status_eqb (status a)) [ACTIVE; PAUSED])
  then Throw (Error msg_complete)
  else Ok {| id := id a; coachId := coachId a; traineeId := traineeId a;
             status := COMPLETED;
             assignedAt := assignedAt a;
             endedAt := Some now;
             pausedAt := pausedAt a; resumedAt := resumedAt a;
             isActive := false;
             notes := noteIfReason (notes a) "[COMPLETED]" reason;
             terminationReason :=
               (if truthy_opt reason then reason else terminationReason a);
             terminatedBy := completedBy;
             totalSessions := totalSessions a;
             completedSessions := completedSessions a |}.

Definition terminate (now : Z) (reason : string) (terminatedBy' : option string)
           (a : Assignment) : outcome Assignment :=
  if status_eqb (status a) TERMINATED then Throw (Error msg_terminate)
  else Ok {| id := id a; coachId := coachId a; traineeId := traineeId a;
             status := TERMINATED;
             assignedAt := assignedAt a;
             endedAt := Some now;
             pausedAt := pausedAt a; resumedAt := resumedAt a;
             isActive := false;
             notes := appendNote (notes a) ("[TERMINATED] " ++ reason);
             terminationReason := Some reason;
             terminatedBy := terminatedBy';
             totalSessions := totalSessions a;
             completedSessions := completedSessions a |}.

End CoachTraineeAssignment.

(* ================================================================== *)
(** * External libraries and configuration *)
(* ================================================================== *)

(** Claims of a token as the services read them; a claim that is absent
    is [None]. *)
Record JWTPayload := {
  p_userId : option string;
  p_email : option string;
  p_role : option string;
  p_sessionId : option string;
  p_type : option string
}.

(** What [jwt.verify] returns: the payload object, or a bare string when
    the token was signed over a string. *)
Inductive Decoded : Type :=
| DecodedObject (payload : JWTPayload)
| DecodedString (s : string).

(** The bcryptjs and jsonwebtoken functions the sources call.
    [bcrypt_hash data rounds salt] is [bcrypt.hash(data, rounds)] when the
    library draws [salt]; [jwt_sign payload secret expiresIn now] and
    [jwt_verify token secret now] throw the library's own errors. *)
Record Libraries := {
  bcrypt_hash : string -> Z -> string -> string;
  bcrypt_compare : string -> string -> bool;
  jwt_sign : JWTPayload -> string -> string -> Z -> outcome string;
  jwt_verify : string -> string -> Z -> outcome Decoded
}.

(** [config.jwt] of src/config/env.ts. *)
Record JwtConfig := {
  JWT_SECRET : string;
  JWT_EXPIRES_IN : string;
  JWT_REFRESH_EXPIRES_IN : string
}.

(* ================================================================== *)
(** * Token service: src/utils/jwt.ts *)
(* ================================================================== *)

Module JWTService.
Import JS.

Definition generateAccessToken (L : Libraries) (cfg : JwtConfig) (now : Z)
           (userId email role sessionId : string) : outcome string :=
  jwt_sign L
    {| p_userId := Some userId; p_email := Some email; p_role := Some role;
       p_sessionId := Some sessionId; p_type := None |}
    (JWT_SECRET cfg) (JWT_EXPIRES_IN cfg) now.

Definition generateRefreshToken (L : Libraries) (cfg : JwtConfig) (now : Z)
           (userId sessionId : string) : outcome string :=
  jwt_sign L
    {| p_userId := Some userId; p_email := None; p_role := None;
       p_sessionId := Some sessionId; p_type := Some "refresh" |}
    (JWT_SECRET cfg) (JWT_REFRESH_EXPIRES_IN cfg) now.

Definition invalidRefresh : Exn :=
  AuthError "Invalid refresh token" 401 "INVALID_REFRESH_TOKEN".

(** The [try] block of [verifyRefreshToken]. *)
Definition verifyRefreshToken_try (L : Libraries) (cfg : JwtConfig) (now : Z)
           (token : string) : outcome (string * string) :=
  bind (jwt_verify L token (JWT_SECRET cfg) now) (fun decoded =>
    match decoded with
    | DecodedObject payload =>
        if negb (eqb_opt (p_type payload) "refresh") then Throw invalidRefresh
        else
          match p_userId payload, p_sessionId payload with
          | Some u, Some s =>
              if (negb (truthy u) || negb (truthy s))%bool
              then Throw (AuthError "Invalid refresh token payload" 401
                            "INVALID_REFRESH_TOKEN")
              else Ok (u, s)
          | _, _ =>
              Throw (AuthError "Invalid refresh token payload" 401
                       "INVALID_REFRESH_TOKEN")
          end
    | DecodedString _ => Throw (Error "Invalid token payload")
    end).

(** With its [catch]: the library's errors are translated, anything else
    is rethrown. *)
Definition verifyRefreshToken (L : Libraries) (cfg : JwtConfig) (now : Z)
           (token : string) : outcome (string * string) :=
  match verifyRefreshToken_try L cfg now token with
  | Ok r => Ok r
  | Throw TokenExpiredError =>
      Throw (AuthError "Refresh token expired" 401 "REFRESH_TOKEN_EXPIRED")
  | Throw JsonWebTokenError => Throw invalidRefresh
  | Throw e => Throw e
  end.

(** [getAccessTokenExpirationTime], as a function of the value of
    [JWT_EXPIRES_IN]; [None] is a value that is not a string. *)
Definition getAccessTokenExpirationTime (expiresIn : option string) : number :=
  match expiresIn with
  | Some expiresIn =>
      if endsWithChar "h" expiresIn then mul (parseInt (sliceInit expiresIn)) 3600
      else if endsWithChar "m" expiresIn then mul (parseInt (sliceInit expiresIn)) 60
      else if endsWithChar "d" expiresIn then mul (parseInt (sliceInit expiresIn)) 86400
      else if endsWithChar "s" expiresIn then parseInt (sliceInit expiresIn)
      else parseInt expiresIn
  | None => Num 3600
  end.

End JWTService.

(* ================================================================== *)
(** * User entity: src/database/entities/User.ts *)
(* ================================================================== *)

Module User.
Import JS.

Inductive UserRole : Type := ADMIN | COACH | CLIENT.

Definition roleName (r : UserRole) : string :=
  match r with ADMIN => "admin" | COACH => "coach" | CLIENT => "client" end.

Record User := {
  id : string;
  email : string;
  username : string;
  password : string;
  firstName : string;
  lastName : string;
  role : UserRole;
  isActive : bool;
  isEmailVerified : bool;
  emailVerificationToken : option string;
  emailVerificationExpires : option Z;
  passwordResetToken : option string;
  passwordResetExpires : option Z;
  lastLoginAt : option Z
}.

Definition set_password (v : string) (u : User) : User :=
  {| id := id u; email := email u; username := username u; password := v;
     firstName := firstName u; lastName := lastName u; role := role u;
     isActive := isActive u; isEmailVerified := isEmailVerified u;
     emailVerificationToken := emailVerificationToken u;
     emailVerificationExpires := emailVerificationExpires u;
     passwordResetToken := passwordResetToken u;
     passwordResetExpires := passwordResetExpires u;
     lastLoginAt := lastLoginAt u |}.

Definition set_email (v : string) (u : User) : User :=
  {| id := id u; email := v; username := username u; password := password u;
     firstName := firstName u; lastName := lastName u; role := role u;
     isActive := isActive u; isEmailVerified := isEmailVerified u;
     emailVerificationToken := emailVerificationToken u;
     emailVerificationExpires := emailVerificationExpires u;
     passwordResetToken := passwordResetToken u;
     passwordResetExpires := passwordResetExpires u;
     lastLoginAt := lastLoginAt u |}.

Definition set_id (v : string) (u : User) : User :=
  {| id := v; email := email u; username := username u; password := password u;
     firstName := firstName u; lastName := lastName u; role := role u;
     isActive := isActive u; isEmailVerified := isEmailVerified u;
     emailVerificationToken := emailVerificationToken u;
     emailVerificationExpires := emailVerificationExpires u;
     passwordResetToken := passwordResetToken u;
     passwordResetExpires := passwordResetExpires u;
     lastLoginAt := lastLoginAt u |}.

Definition set_lastLoginAt (v : option Z) (u : User) : User :=
  {| id := id u; email := email u; username := username u; password := password u;
     firstName := firstName u; lastName := lastName u; role := role u;
     isActive := isActive u; isEmailVerified := isEmailVerified u;
     emailVerificationToken := emailVerificationToken u;
     emailVerificationExpires := emailVerificationExpires u;
     passwordResetToken := passwordResetToken u;
     passwordResetExpires := passwordResetExpires u;
     lastLoginAt := v |}.

Definition set_emailVerification (tok : option string) (exp : option Z)
           (u : User) : User :=
  {| id := id u; email := email u; username := username u; password := password u;
     firstName := firstName u; lastName := lastName u; role := role u;
     isActive := isActive u; isEmailVerified := isEmailVerified u;
     emailVerificationToken := tok;
     emailVerificationExpires := exp;
     passwordResetToken := passwordResetToken u;
     passwordResetExpires := passwordResetExpires u;
     lastLoginAt := lastLoginAt u |}.

Definition set_passwordReset (tok : option string) (exp : option Z)
           (u : User) : User :=
  {| id := id u; email := email u; username := username u; password := password u;
     firstName := firstName u; lastName := lastName u; role := role u;
     isActive := isActive u; isEmailVerified := isEmailVerified u;
     emailVerificationToken := emailVerificationToken u;
     emailVerificationExpires := emailVerificationExpires u;
     passwordResetToken := tok;
     passwordResetExpires := exp;
     lastLoginAt := lastLoginAt u |}.

(** What a save of a loaded entity leaves in a nullable column: a
    property that is [undefined] is left out of the UPDATE, and the
    column keeps the value of the stored row. *)
Definition kept {A : Type} (property column : option A) : option A :=
  match property with
  | Some _ => property
  | None => column
  end.

(** The row that the UPDATE of a save writes for the entity [u] over the
    stored row [row]. *)
Definition written (row u : User) : User :=
  {| id := id u; email := email u; username := username u; password := password u;
     firstName := firstName u; lastName := lastName u; role := role u;
     isActive := isActive u; isEmailVerified := isEmailVerified u;
     emailVerificationToken :=
       kept (emailVerificationToken u) (emailVerificationToken row);
     emailVerificationExpires :=
       kept (emailVerificationExpires u) (emailVerificationExpires row);
     passwordResetToken := kept (passwordResetToken u) (passwordResetToken row);
     passwordResetExpires :=
       kept (passwordResetExpires u) (passwordResetExpires row);
     lastLoginAt := kept (lastLoginAt u) (lastLoginAt row) |}.

(** [@BeforeInsert() @BeforeUpdate() hashPassword]: whatever the
    [password] field holds is hashed, with 12 rounds. *)
Definition hashPassword (L : Libraries) (salt : string) (u : User) : User :=
  if truthy (password u)
  then set_password (bcrypt_hash L (password u) 12 salt) u
  else u.

(** [@BeforeInsert() @BeforeUpdate() normalizeEmail]. *)
Definition normalizeEmail (u : User) : User :=
  if truthy (email u) then set_email (trim (toLowerCase (email u))) u else u.

(** Both listeners, in their order of declaration. *)
Definition beforeSave (L : Libraries) (salt : string) (u : User) : User :=
  normalizeEmail (hashPassword L salt u).

Definition validatePassword (L : Libraries) (plainPassword : string) (u : User) :
  bool :=
  bcrypt_compare L plainPassword (password u).

(** [generatePasswordResetToken]: [token] is the random text the method
    builds and returns, [salt] the salt of its hash. *)
Definition generatePasswordResetToken (L : Libraries) (now : Z)
           (token salt : string) (u : User) : User * string :=
  (set_passwordReset (Some (bcrypt_hash L token 10 salt)) (Some (now + 3600000)) u,
   token).

Definition generateEmailVerificationToken (L : Libraries) (now : Z)
           (token salt : string) (u : User) : User * string :=
  (set_emailVerification (Some (bcrypt_hash L token 10 salt))
     (Some (now + 86400000)) u,
   token).

End User.

(* ================================================================== *)
(** * Auth orchestrator: services/auth.service.ts *)
(* ================================================================== *)

Module AuthService.
Import JS.

(** The two repositories.  [findOne] and [getOne] return the first row
    of the list that matches: the order of a list stands for the order in
    which the storage engine returns the rows to a query without ORDER BY.
    SQL leaves that order to the engine; here a row is listed at the place
    of its insertion and an update leaves it there.  The only queries that
    can match several rows are the lookups of [resetPassword] and
    [verifyEmail] by expiry: their general properties name the row that
    the lookup returns or assume that no other row matches, and the
    concrete histories write their rows in the order of the list. *)
Record Store := {
  users : list User.User;
  sessions : list Session.Session
}.

(** Everything an operation draws at random or receives from the
    storage engine: generated primary keys, the two session tokens of
    [crypto.randomBytes], the text of a reset or verification token, and
    the salts of the password hash and of the token hash. *)
Record Entropy := {
  e_userId : string;
  e_sessionId : string;
  e_token : string;
  e_refreshToken : string;
  e_rawToken : string;
  e_passwordSalt : string;
  e_tokenSalt : string
}.

Record UserView := {
  v_id : string;
  v_email : string;
  v_username : string;
  v_firstName : string;
  v_lastName : string;
  v_role : string;
  v_isEmailVerified : bool
}.

Record Tokens := {
  t_accessToken : string;
  t_refreshToken : string;
  t_expiresIn : number
}.

(** [AuthResponse] of src/types/auth.ts; the operations that return only
    [{ success, message }] leave the other two fields absent. *)
Record AuthResponse := {
  success : bool;
  message : option string;
  user : option UserView;
  tokens : option Tokens
}.

Record RegisterRequest := {
  reg_email : string;
  reg_username : string;
  reg_password : string;
  reg_firstName : string;
  reg_lastName : string
}.

Record LoginRequest := {
  login_email : string;
  login_password : string;
  rememberMe : bool
}.

Definition failure (msg : string) : AuthResponse :=
  {| success := false; message := Some msg; user := None; tokens := None |}.

Definition succeeded (msg : string) : AuthResponse :=
  {| success := true; message := Some msg; user := None; tokens := None |}.

Definition view (u : User.User) : UserView :=
  {| v_id := User.id u; v_email := User.email u;
     v_username := User.username u; v_firstName := User.firstName u;
     v_lastName := User.lastName u; v_role := User.roleName (User.role u);
     v_isEmailVerified := User.isEmailVerified u |}.

Definition withUser (msg : string) (u : User.User) (t : Tokens) : AuthResponse :=
  {| success := true; message := Some msg; user := Some (view u);
     tokens := Some t |}.

(** ** Storage and exceptions threaded through an operation *)

Definition M (A : Type) : Type := Store -> outcome A * Store.

Definition ret {A : Type} (a : A) : M A := fun st => (Ok a, st).

Definition raise {A : Type} (e : Exn) : M A := fun st => (Throw e, st).

Definition bindM {A B : Type} (m : M A) (k : A -> M B) : M B :=
  fun st =>
    match m st with
    | (Ok a, st') => k a st'
    | (Throw e, st') => (Throw e, st')
    end.

Definition lift {A : Type} (o : outcome A) : M A := fun st => (o, st).

(** [try { body } catch (error) { return handler }]: what the body
    wrote before it threw stays written. *)
Definition tryCatch {A : Type} (body : M A) (handler : A) : Store -> A * Store :=
  fun st =>
    match body st with
    | (Ok a, st') => (a, st')
    | (Throw _, st') => (handler, st')
    end.

Notation "x <- m ;; k" := (bindM m (fun x => k))
  (at level 61, m at next level, right associativity).

(** ** Repository operations *)

Definition findOneUser (p : User.User -> bool) : M (option User.User) :=
  fun st => (Ok (find p (users st)), st).

Definition findOneSession (p : Session.Session -> bool) :
  M (option Session.Session) :=
  fun st => (Ok (find p (sessions st)), st).

(** [userRepository.save] of a new entity: the listeners run, the engine
    assigns the primary key, and the unique indexes on the key, the email
    and the username are enforced. *)
Definition insertUser (L : Libraries) (rnd : Entropy) (u : User.User) :
  M User.User :=
  fun st =>
    let u' := User.set_id (e_userId rnd) (User.beforeSave L (e_passwordSalt rnd) u) in
    if existsb (fun x => (String.eqb (User.id x) (User.id u')
                          || String.eqb (User.email x) (User.email u')
                          || String.eqb (User.username x) (User.username u'))%bool)
         (users st)
    then (Throw QueryFailedError, st)
    else (Ok u', {| users := users st ++ [u']; sessions := sessions st |}).

(** The row that a save of the entity [u] leaves under its key: the
    stored row is loaded again by the key and the columns whose property
    is defined are written over it.  The entities that this service saves
    were loaded from the store, so the row is there. *)
Definition savedRow (st : Store) (u : User.User) : User.User :=
  match find (fun x => String.eqb (User.id x) (User.id u)) (users st) with
  | Some row => User.written row u
  | None => u
  end.

(** [userRepository.save] of a loaded entity: the listeners run, and the
    row with the entity's key is updated; the entity itself is returned.
    The emails written by this service are normalised before the row is
    first stored, so the update leaves the indexed columns as they
    were. *)
Definition updateUser (L : Libraries) (rnd : Entropy) (u : User.User) :
  M User.User :=
  fun st =>
    let u' := User.beforeSave L (e_passwordSalt rnd) u in
    (Ok u',
     {| users := map (fun x => if String.eqb (User.id x) (User.id u')
                               then savedRow st u' else x)
                     (users st);
        sessions := sessions st |}).

(** [sessionRepository.update({ userId, isActive: true }, {...})]. *)
Definition revokeActiveSessions (now : Z) (uid reason by' : string) : M unit :=
  fun st =>
    (Ok tt,
     {| users := users st;
        sessions :=
          map (fun s =>
                 if (String.eqb (Session.userId s) uid && Session.isActive s)%bool
                 then Session.bulkRevoke now reason by' s else s)
              (sessions st) |}).

(** [createSession]: the entity built by [create], [parseUserAgent] when
    a user agent is given, then [save], whose BeforeInsert listener
    [generateTokens] fills the two tokens and the refresh expiry that
    [create] left unset ([expiresAt] is set by [create]). *)
Definition createSession (now : Z) (rnd : Entropy) (u : User.User)
           (ipAddress userAgent : option string) (expirationHours : Z) :
  M Session.Session :=
  fun st =>
    let parsed := truthy_opt userAgent in
    let ua := match userAgent with Some a => a | None => EmptyString end in
    let s :=
      {| Session.id := e_sessionId rnd;
         Session.userId := User.id u;
         Session.token := e_token rnd;
         Session.refreshToken := Some (e_refreshToken rnd);
         Session.expiresAt := now + expirationHours * 60 * 60 * 1000;
         Session.refreshTokenExpiresAt := Some (now + 7 * 24 * 60 * 60 * 1000);
         Session.ipAddress := ipAddress;
         Session.userAgent := if parsed then Some ua else None;
         Session.deviceType := if parsed then Some (Session.deviceOf ua) else None;
         Session.browser := if parsed then Some (Session.browserOf ua) else None;
         Session.os := if parsed then Some (Session.osOf ua) else None;
         Session.isActive := true;
         Session.lastAccessedAt := None;
         Session.revokedAt := None;
         Session.revokedBy := None;
         Session.revokedReason := None |} in
    if existsb (fun x => (String.eqb (Session.id x) (Session.id s)
                          || String.eqb (Session.token x) (Session.token s))%bool)
         (sessions st)
    then (Throw QueryFailedError, st)
    else (Ok s, {| users := users st; sessions := sessions st ++ [s] |}).

Definition generateTokens (L : Libraries) (cfg : JwtConfig) (now : Z)
           (u : User.User) (s : Session.Session) : M Tokens :=
  a <- lift (JWTService.generateAccessToken L cfg now (User.id u) (User.email u)
               (User.roleName (User.role u)) (Session.id s)) ;;
  r <- lift (JWTService.generateRefreshToken L cfg now (User.id u) (Session.id s)) ;;
  ret {| t_accessToken := a; t_refreshToken := r;
         t_expiresIn :=
           JWTService.getAccessTokenExpirationTime (Some (JWT_EXPIRES_IN cfg)) |}.

(** ** The operations *)

Section Operations.
Variable L : Libraries.
Variable cfg : JwtConfig.

Definition normalized (email : string) : string := trim (toLowerCase email).

Definition register_body (now : Z) (rnd : Entropy) (data : RegisterRequest)
           (ipAddress userAgent : option string) : M AuthResponse :=
  existingUser <- findOneUser (fun u =>
      (String.eqb (User.email u) (normalized (reg_email data))
       || String.eqb (User.username u) (reg_username data))%bool) ;;
  match existingUser with
  | Some existingUser =>
      ret (failure
             (if String.eqb (User.email existingUser) (normalized (reg_email data))
              then "Email already registered"
              else "Username already taken"))
  | None =>
      let passwordValidation :=
        PasswordService.validatePassword (reg_password data) in
      if negb (PasswordService.isValid passwordValidation)
      then ret (failure (join ", " (PasswordService.errors passwordValidation)))
      else
        let user :=
          {| User.id := EmptyString;
             User.email := normalized (reg_email data);
             User.username := reg_username data;
             User.password := reg_password data;
             User.firstName := reg_firstName data;
             User.lastName := reg_lastName data;
             User.role := User.CLIENT;
             User.isActive := true;
             User.isEmailVerified := false;
             User.emailVerificationToken := None;
             User.emailVerificationExpires := None;
             User.passwordResetToken := None;
             User.passwordResetExpires := None;
             User.lastLoginAt := None |} in
        let user :=
          fst (User.generateEmailVerificationToken L now (e_rawToken rnd)
                 (e_tokenSalt rnd) user) in
        savedUser <- insertUser L rnd user ;;
        session <- createSession now rnd savedUser ipAddress userAgent 24 ;;
        tokens <- generateTokens L cfg now savedUser session ;;
        ret (withUser
               "Registration successful. Please check your email to verify your account."
               savedUser tokens)
  end.

Definition register (now : Z) (rnd : Entropy) (data : RegisterRequest)
           (ipAddress userAgent : option string) : Store -> AuthResponse * Store :=
  tryCatch (register_body now rnd data ipAddress userAgent)
    (failure "Registration failed. Please try again.").

Definition login_body (now : Z) (rnd : Entropy) (data : LoginRequest)
           (ipAddress userAgent : option string) : M AuthResponse :=
  user <- findOneUser (fun u =>
      String.eqb (User.email u) (normalized (login_email data))) ;;
  match user with
  | None => ret (failure "Invalid email or password")
  | Some user =>
      if negb (User.isActive user) then ret (failure "Invalid email or password")
      else
        let isPasswordValid := User.validatePassword L (login_password data) user in
        if negb isPasswordValid then ret (failure "Invalid email or password")
        else
          let user := User.set_lastLoginAt (Some now) user in
          user <- updateUser L rnd user ;;
          session <- createSession now rnd user ipAddress userAgent
                       (if rememberMe data then 7 * 24 else 24) ;;
          tokens <- generateTokens L cfg now user session ;;
          ret (withUser "Login successful" user tokens)
  end.

Definition login (now : Z) (rnd : Entropy) (data : LoginRequest)
           (ipAddress userAgent : option string) : Store -> AuthResponse * Store :=
  tryCatch (login_body now rnd data ipAddress userAgent)
    (failure "Login failed. Please try again.").

Definition refreshToken_body (now : Z) (token : string) : M AuthResponse :=
  ids <- lift (JWTService.verifyRefreshToken L cfg now token) ;;
  let '(userId, sessionId) := ids in
  user <- findOneUser (fun u =>
      (String.eqb (User.id u) userId && User.isActive u)%bool) ;;
  session <- findOneSession (fun s =>
      (String.eqb (Session.id s) sessionId
       && String.eqb (Session.userId s) userId
       && Session.isActive s)%bool) ;;
  match user, session with
  | Some user, Some session =>
      if negb (Session.canRefresh now session)
      then ret (failure "Invalid or expired refresh token")
      else
        tokens <- generateTokens L cfg now user session ;;
        ret (withUser "Token refreshed successfully" user tokens)
  | _, _ => ret (failure "Invalid or expired refresh token")
  end.

Definition refreshToken (now : Z) (token : string) :
  Store -> AuthResponse * Store :=
  tryCatch (refreshToken_body now token) (failure "Token refresh failed").

Definition forgotPassword_body (now : Z) (rnd : Entropy) (email : string) :
  M AuthResponse :=
  user <- findOneUser (fun u => String.eqb (User.email u) (normalized email)) ;;
  match user with
  | None => ret (succeeded "If the email exists, a password reset link has been sent")
  | Some user =>
      let user :=
        fst (User.generatePasswordResetToken L now (e_rawToken rnd)
               (e_tokenSalt rnd) user) in
      _ <- updateUser L rnd user ;;
      ret (succeeded "If the email exists, a password reset link has been sent")
  end.

Definition forgotPassword (now : Z) (rnd : Entropy) (email : string) :
  Store -> AuthResponse * Store :=
  tryCatch (forgotPassword_body now rnd email)
    (failure "Password reset request failed").

(** [.where('user.passwordResetExpires > :now')]: a NULL expiry does
    not satisfy the comparison. *)
Definition resetPending (now : Z) (u : User.User) : bool :=
  match User.passwordResetExpires u with
  | Some t => t >? now
  | None => false
  end.

Definition resetPassword_body (now : Z) (rnd : Entropy)
           (token newPassword : string) : M AuthResponse :=
  let passwordValidation := PasswordService.validatePassword newPassword in
  if negb (PasswordService.isValid passwordValidation)
  then ret (failure (join ", " (PasswordService.errors passwordValidation)))
  else
    user <- findOneUser (resetPending now) ;;
    match user with
    | None => ret (failure "Invalid or expired reset token")
    | Some user =>
        match User.passwordResetToken user with
        | None => ret (failure "Invalid or expired reset token")
        | Some stored =>
            if negb (truthy stored)
            then ret (failure "Invalid or expired reset token")
            else
              let isTokenValid := bcrypt_compare L token stored in
              if negb isTokenValid
              then ret (failure "Invalid or expired reset token")
              else
                let user := User.set_password newPassword user in
                (* both properties are set to undefined *)
                let user := User.set_passwordReset None None user in
                _ <- updateUser L rnd user ;;
                _ <- revokeActiveSessions now (User.id user) "Password reset" "user" ;;
                ret (succeeded "Password reset successfully")
        end
    end.

Definition resetPassword (now : Z) (rnd : Entropy) (token newPassword : string) :
  Store -> AuthResponse * Store :=
  tryCatch (resetPassword_body now rnd token newPassword)
    (failure "Password reset failed").

End Operations.

End AuthService.

(* ================================================================== *)
(** * Reference points of the specification *)
(* ================================================================== *)

Module Rules.
Import JS PasswordService.

(** The rules of [validateStrength] as the specification lists them:
    each is a test that a password violates the rule, with the message
    reported for it. *)
Definition rules : list ((string -> bool) * string) :=
  [ (fun p => Nat.ltb (String.length p) 8, msg_short);
    (fun p => Nat.ltb 128 (String.length p), msg_long);
    (fun p => negb (existsChar isUpperAZ p), msg_upper);
    (fun p => negb (existsChar isLowerAZ p), msg_lower);
    (fun p => negb (existsChar isDigit p), msg_digit);
    (fun p => negb (existsChar isSpecial p), msg_special);
    (fun p => arrayIncludes commonPasswords (toLowerCase p), msg_common);
    (fun p => sequentialPattern (toLowerCase p), msg_sequential) ].

(** The messages of all the rules a password violates. *)
Definition violatedRules (p : string) : list string :=
  map snd (filter (fun r => fst r p) rules).

End Rules.

Module Conditions.
Import AuthService.

(** The ways a refresh request is at fault, each with the message the
    service answers.  A token whose verification by the library throws
    (bad signature, malformed, expired) and a token whose discriminator
    is not "refresh" are answered by the handler that wraps the whole
    operation; a token that verifies but whose session is missing,
    inactive or no longer refreshable is answered by the explicit
    check. *)
Inductive RefreshFault (L : Libraries) (cfg : JwtConfig) (now : Z)
          (token : string) (st : Store) : string -> Prop :=
| VerificationThrows (e : Exn) :
    jwt_verify L token (JWT_SECRET cfg) now = Throw e ->
    RefreshFault L cfg now token st "Token refresh failed"
| WrongDiscriminator (payload : JWTPayload) :
    jwt_verify L token (JWT_SECRET cfg) now = Ok (DecodedObject payload) ->
    p_type payload <> Some "refresh" ->
    RefreshFault L cfg now token st "Token refresh failed"
| SessionNotRefreshable (userId sessionId : string) :
    JWTService.verifyRefreshToken L cfg now token = Ok (userId, sessionId) ->
    (forall s, In s (sessions st) ->
               Session.id s = sessionId -> Session.userId s = userId ->
               Session.canRefresh now s = false) ->
    RefreshFault L cfg now token st "Invalid or expired refresh token".

(** The idealised password hash of the specification:
    [verify(p, hash(p))] holds, [verify(p, hash(q))] fails for [p <> q],
    no text is its own hash, and a hash is never the empty text. *)
Record BcryptIdeal (L : Libraries) : Prop := {
  compare_hash : forall p r s, bcrypt_compare L p (bcrypt_hash L p r s) = true;
  compare_only : forall p q r s,
      bcrypt_compare L p (bcrypt_hash L q r s) = true -> p = q;
  hash_differs : forall p r s, bcrypt_hash L p r s <> p;
  hash_nonempty : forall p r s, JS.truthy (bcrypt_hash L p r s) = true
}.

(** What a transition leaves untouched: identity, parties, the time of
    assignment and the session counters. *)
Definition sameRelationship (a a' : CoachTraineeAssignment.Assignment) : Prop :=
  let same {A : Type} (field : CoachTraineeAssignment.Assignment -> A) :=
    field a' = field a in
  same CoachTraineeAssignment.id /\ same CoachTraineeAssignment.coachId /\
  same CoachTraineeAssignment.traineeId /\ same CoachTraineeAssignment.assignedAt /\
  same CoachTraineeAssignment.totalSessions /\
  same CoachTraineeAssignment.completedSessions.

(** The filter of the lookup of a user by email. *)
Definition byEmail (email : string) (u : User.User) : bool :=
  String.eqb (User.email u) (normalized email).

End Conditions.

(** A library instance for concrete runs: the hash of a text is the text
    behind a fixed marker, and a token is its three claims separated by
    dots. *)
Module Demo.
Import JS.

Fixpoint split (sep : ascii) (s : string) : list string :=
  match s with
  | EmptyString => [EmptyString]
  | String c r =>
      if Ascii.eqb c sep then EmptyString :: split sep r
      else match split sep r with
           | [] => [String c EmptyString]
           | x :: xs => String c x :: xs
           end
  end.

Definition hash (data : string) (rounds : Z) (salt : string) : string :=
  "$2b$" ++ data.

Definition compare (data h : string) : bool := String.eqb h ("$2b$" ++ data).

Definition sign (payload : JWTPayload) (secret expiresIn : string) (now : Z) :
  outcome string :=
  let get o := match o with Some x => x | None => EmptyString end in
  Ok (match p_type payload with Some t => t | None => "access" end
      ++ "." ++ get (p_userId payload) ++ "." ++ get (p_sessionId payload)).

Definition verify (token secret : string) (now : Z) : outcome Decoded :=
  match split "." token with
  | [ty; u; s] =>
      if String.eqb ty "refresh" then
        Ok (DecodedObject {| p_userId := Some u; p_email := None; p_role := None;
                             p_sessionId := Some s; p_type := Some "refresh" |})
      else if String.eqb ty "access" then
        Ok (DecodedObject {| p_userId := Some u; p_email := None; p_role := None;
                             p_sessionId := Some s; p_type := None |})
      else Throw JsonWebTokenError
  | _ => Throw JsonWebTokenError
  end.

Definition libraries : Libraries :=
  {| bcrypt_hash := hash; bcrypt_compare := compare;
     jwt_sign := sign; jwt_verify := verify |}.

Definition config : JwtConfig :=
  {| JWT_SECRET := "secret"; JWT_EXPIRES_IN := "1h";
     JWT_REFRESH_EXPIRES_IN := "7d" |}.

Definition entropy (n : string) : AuthService.Entropy :=
  {| AuthService.e_userId := "user-" ++ n;
     AuthService.e_sessionId := "session-" ++ n;
     AuthService.e_token := "token-" ++ n;
     AuthService.e_refreshToken := "refresh-" ++ n;
     AuthService.e_rawToken := "raw-" ++ n;
     AuthService.e_passwordSalt := "salt-" ++ n;
     AuthService.e_tokenSalt := "tsalt-" ++ n |}.

Definition empty : AuthService.Store :=
  {| AuthService.users := []; AuthService.sessions := [] |}.

Definition activeSession (expires : Z) : Session.Session :=
  {| Session.id := "s1"; Session.userId := "u1"; Session.token := "t1";
     Session.refreshToken := Some "r1"; Session.expiresAt := expires;
     Session.refreshTokenExpiresAt := Some expires;
     Session.ipAddress := None; Session.userAgent := None;
     Session.deviceType := None; Session.browser := None; Session.os := None;
     Session.isActive := true; Session.lastAccessedAt := None;
     Session.revokedAt := None; Session.revokedBy := None;
     Session.revokedReason := None |}.

(** A small history: Alice and Bob register, then both ask for a
    password reset, Alice first; the two rows are inserted, and then
    updated, in that order. *)
Definition alice : AuthService.RegisterRequest :=
  {| AuthService.reg_email := " Alice@Example.com";
     AuthService.reg_username := "alice";
     AuthService.reg_password := "Passw0rd!";
     AuthService.reg_firstName := "Alice";
     AuthService.reg_lastName := "A" |}.

Definition bob : AuthService.RegisterRequest :=
  {| AuthService.reg_email := "bob@example.com";
     AuthService.reg_username := "bob";
     AuthService.reg_password := "S3cure#Pass";
     AuthService.reg_firstName := "Bob";
     AuthService.reg_lastName := "B" |}.

Definition aliceRegistered : AuthService.Store :=
  snd (AuthService.register libraries config 1000 (entropy "a") alice
         None None empty).

Definition bothRegistered : AuthService.Store :=
  snd (AuthService.register libraries config 2000 (entropy "b") bob
         None (Some "Mozilla Firefox Mobile") aliceRegistered).

Definition bothAskedReset : AuthService.Store :=
  snd (AuthService.forgotPassword libraries 6000 (entropy "d") "bob@example.com"
         (snd (AuthService.forgotPassword libraries 5000 (entropy "c")
                 "alice@example.com" bothRegistered))).

Definition aliceLogin : AuthService.LoginRequest :=
  {| AuthService.login_email := "alice@example.com";
     AuthService.login_password := "Passw0rd!";
     AuthService.rememberMe := false |}.

(** Draws that select the first character of each class, then the
    characters 1 to 6 for the six free positions of a password of length
    10; every later draw is exactly one half, for which the comparator of
    the shuffle is 0 and a stable sort leaves the array as it is. *)
Definition sequentialDraws (i : nat) : Z :=
  if Nat.ltb i 4 then 0
  else if Nat.leb i 9 then (Z.of_nat (49 + i) * 2 ^ 53) / 88 + 1
  else 2 ^ 52.

(** Every draw exactly one half. *)
Definition halves (i : nat) : Z := 2 ^ 52.

Definition nobody : AuthService.LoginRequest :=
  {| AuthService.login_email := "nobody@example.com";
     AuthService.login_password := "Passw0rd!";
     AuthService.rememberMe := false |}.

Definition aliceWrongPassword : AuthService.LoginRequest :=
  {| AuthService.login_email := "ALICE@example.com ";
     AuthService.login_password := "passw0rd!";
     AuthService.rememberMe := true |}.

End Demo.

(* ================================================================== *)
(** * More of the token service: src/utils/jwt.ts *)
(* ================================================================== *)

Module JWTAccess.
Import JS.

(** [s.split(sep)] for a one-character separator: the pieces between
    the occurrences of [sep], the empty pieces included. *)
Fixpoint split (sep : ascii) (s : string) : list string :=
  match s with
  | EmptyString => [EmptyString]
  | String c r =>
      if Ascii.eqb c sep then EmptyString :: split sep r
      else match split sep r with
           | [] => [String c EmptyString]
           | x :: xs => String c x :: xs
           end
  end.

(** ['userId' in decoded && 'email' in decoded && 'role' in decoded &&
    'sessionId' in decoded]: the four claims are present, whatever they
    hold. *)
Definition hasAccessClaims (p : JWTPayload) : bool :=
  (isSome (p_userId p) && isSome (p_email p) && isSome (p_role p)
   && isSome (p_sessionId p))%bool.

Definition badStructure : Exn := Error "Invalid token payload structure".

(** The [try] block of [verifyAccessToken]. *)
Definition verifyAccessToken_try (L : Libraries) (cfg : JwtConfig) (now : Z)
           (token : string) : outcome JWTPayload :=
  bind (jwt_verify L token (JWT_SECRET cfg) now) (fun decoded =>
    match decoded with
    | DecodedObject payload =>
        if hasAccessClaims payload then Ok payload else Throw badStructure
    | DecodedString _ => Throw badStructure
    end).

(** With its [catch]: the two library errors become [AuthError]s, anything
    else is rethrown as it is. *)
Definition verifyAccessToken (L : Libraries) (cfg : JwtConfig) (now : Z)
           (token : string) : outcome JWTPayload :=
  match verifyAccessToken_try L cfg now token with
  | Ok p => Ok p
  | Throw TokenExpiredError => Throw (AuthError "Token expired" 401 "TOKEN_EXPIRED")
  | Throw JsonWebTokenError => Throw (AuthError "Invalid token" 401 "INVALID_TOKEN")
  | Throw e => Throw e
  end.

(** [extractTokenFromHeader]: [None] is both an absent header and the
    [null] that the function returns. *)
Definition extractTokenFromHeader (authHeader : option string) : option string :=
  match authHeader with
  | None => None
  | Some h =>
      if negb (truthy h) then None
      else
        match split " " h with
        | [scheme; token] => if String.eqb scheme "Bearer" then Some token else None
        | _ => None
        end
  end.

End JWTAccess.

(* ================================================================== *)
(** * More of the Session entity *)
(* ================================================================== *)

Module SessionOps.
Import Session.

Definition set_expiresAt (v : Z) (s : Session) : Session :=
  {| id := id s; userId := userId s; token := token s;
     refreshToken := refreshToken s; expiresAt := v;
     refreshTokenExpiresAt := refreshTokenExpiresAt s;
     ipAddress := ipAddress s; userAgent := userAgent s;
     deviceType := deviceType s; browser := browser s; os := os s;
     isActive := isActive s; lastAccessedAt := lastAccessedAt s;
     revokedAt := revokedAt s; revokedBy := revokedBy s;
     revokedReason := revokedReason s |}.

Definition set_lastAccessedAt (v : option Z) (s : Session) : Session :=
  {| id := id s; userId := userId s; token := token s;
     refreshToken := refreshToken s; expiresAt := expiresAt s;
     refreshTokenExpiresAt := refreshTokenExpiresAt s;
     ipAddress := ipAddress s; userAgent := userAgent s;
     deviceType := deviceType s; browser := browser s; os := os s;
     isActive := isActive s; lastAccessedAt := v;
     revokedAt := revokedAt s; revokedBy := revokedBy s;
     revokedReason := revokedReason s |}.

(** [extend(hours)]: the expiry is replaced, not prolonged, and only
    when the session is valid. *)
Definition extend (now : Z) (hours : Z) (s : Session) : Session :=
  if isValid now s then set_expiresAt (now + hours * 60 * 60 * 1000) s else s.

Definition updateLastAccessed (now : Z) (s : Session) : Session :=
  set_lastAccessedAt (Some now) s.

End SessionOps.

(* ================================================================== *)
(** * More of the assignment entity *)
(* ================================================================== *)

Module AssignmentOps.
Import JS CoachTraineeAssignment.

Definition dayMs : Z := 1000 * 60 * 60 * 24.

(** [get duration]: whole days from assignment to end, [None] (null)
    while the assignment has not ended. *)
Definition duration (a : Assignment) : option Z :=
  match endedAt a with
  | None => None
  | Some e => Some ((e - assignedAt a) / dayMs)
  end.

(** [get daysActive]: up to the end when there is one, else up to now. *)
Definition daysActive (now : Z) (a : Assignment) : Z :=
  let endDate := match endedAt a with Some e => e | None => now end in
  (endDate - assignedAt a) / dayMs.

Definition set_notes (v : option string) (a : Assignment) : Assignment :=
  {| id := id a; coachId := coachId a; traineeId := traineeId a;
     status := status a; assignedAt := assignedAt a; endedAt := endedAt a;
     pausedAt := pausedAt a; resumedAt := resumedAt a; isActive := isActive a;
     notes := v;
     terminationReason := terminationReason a; terminatedBy := terminatedBy a;
     totalSessions := totalSessions a;
     completedSessions := completedSessions a |}.

Definition set_totalSessions (v : Z) (a : Assignment) : Assignment :=
  {| id := id a; coachId := coachId a; traineeId := traineeId a;
     status := status a; assignedAt := assignedAt a; endedAt := endedAt a;
     pausedAt := pausedAt a; resumedAt := resumedAt a; isActive := isActive a;
     notes := notes a;
     terminationReason := terminationReason a; terminatedBy := terminatedBy a;
     totalSessions := v;
     completedSessions := completedSessions a |}.

Definition incrementSessionCount (a : Assignment) : Assignment :=
  set_totalSessions (totalSessions a + 1) a.

(** [addNote(note, author)]; [timestamp] is the text of
    [new Date().toISOString()]. *)
Definition addNote (timestamp note : string) (author : option string)
           (a : Assignment) : Assignment :=
  let noteWithMeta :=
    if truthy_opt author
    then "[" ++ timestamp ++ "] "
         ++ match author with Some x => x | None => EmptyString end
         ++ ": " ++ note
    else "[" ++ timestamp ++ "] " ++ note in
  set_notes (appendNote (notes a) noteWithMeta) a.

(** The four transitions as requests, to run a sequence of them. *)
Inductive Action : Type :=
| Pause (reason pausedBy : option string)
| Resume (reason : option string)
| Complete (reason completedBy : option string)
| Terminate (reason : string) (terminatedBy : option string).

Definition perform (now : Z) (act : Action) (a : Assignment) : outcome Assignment :=
  match act with
  | Pause r b => pause now r b a
  | Resume r => resume now r a
  | Complete r b => complete now r b a
  | Terminate r b => terminate now r b a
  end.

(** A sequence of requests, each at its own time; a request that throws
    leaves the assignment as it was and the next one is tried. *)
Fixpoint performAll (acts : list (Z * Action)) (a : Assignment) : Assignment :=
  match acts with
  | [] => a
  | (now, act) :: rest =>
      match perform now act a with
      | Ok a' => performAll rest a'
      | Throw _ => performAll rest a
      end
  end.

(** The text of the notes, empty when there are none. *)
Definition notesText (a : Assignment) : string :=
  match notes a with Some n => n | None => EmptyString end.

End AssignmentOps.

(* ================================================================== *)
(** * More of the credential service *)
(* ================================================================== *)

Module PasswordLists.
Import JS.

Definition commonCompromisedPasswords : list string :=
  [ "password"; "123456"; "123456789"; "password123"; "admin";
    "qwerty"; "abc123"; "password1"; "letmein"; "welcome";
    "monkey"; "1234567890"; "dragon"; "princess"; "football" ].

Definition isPasswordCompromised (password : string) : bool :=
  arrayIncludes commonCompromisedPasswords (toLowerCase password).

End PasswordLists.

(* ================================================================== *)
(** * More of the auth orchestrator *)
(* ================================================================== *)

Module AuthSessions.
Import JS AuthService.

(** [sessionRepository.save] of a loaded session: the row with its key
    is replaced. *)
Definition updateSession (s : Session.Session) : M Session.Session :=
  fun st =>
    (Ok s,
     {| users := users st;
        sessions :=
          map (fun x => if String.eqb (Session.id x) (Session.id s) then s else x)
              (sessions st) |}).

Definition logout_body (now : Z) (sessionId : string) : M AuthResponse :=
  session <- findOneSession (fun s => String.eqb (Session.id s) sessionId) ;;
  match session with
  | Some session =>
      _ <- updateSession (Session.revoke now (Some "User logout") None session) ;;
      ret (succeeded "Logged out successfully")
  | None => ret (succeeded "Logged out successfully")
  end.

Definition logout (now : Z) (sessionId : string) : Store -> AuthResponse * Store :=
  tryCatch (logout_body now sessionId) (failure "Logout failed").

Definition logoutAll_body (now : Z) (userId : string) : M AuthResponse :=
  _ <- revokeActiveSessions now userId "User logout all sessions" "user" ;;
  ret (succeeded "All sessions logged out successfully").

Definition logoutAll (now : Z) (userId : string) : Store -> AuthResponse * Store :=
  tryCatch (logoutAll_body now userId) (failure "Logout all sessions failed").

Section Operations.
Variable L : Libraries.

Definition changePassword_body (now : Z) (rnd : Entropy) (userId : string)
           (currentPassword newPassword : string) : M AuthResponse :=
  user <- findOneUser (fun u => String.eqb (User.id u) userId) ;;
  match user with
  | None => ret (failure "User not found")
  | Some user =>
      let isCurrentPasswordValid := User.validatePassword L currentPassword user in
      if negb isCurrentPasswordValid
      then ret (failure "Current password is incorrect")
      else
        let passwordValidation := PasswordService.validatePassword newPassword in
        if negb (PasswordService.isValid passwordValidation)
        then ret (failure (join ", " (PasswordService.errors passwordValidation)))
        else
          let user := User.set_password newPassword user in
          _ <- updateUser L rnd user ;;
          _ <- revokeActiveSessions now userId "Password changed" "user" ;;
          ret (succeeded "Password changed successfully")
  end.

Definition changePassword (now : Z) (rnd : Entropy) (userId : string)
           (currentPassword newPassword : string) : Store -> AuthResponse * Store :=
  tryCatch (changePassword_body now rnd userId currentPassword newPassword)
    (failure "Password change failed").

(** [.where('user.emailVerificationExpires > :now')]. *)
Definition verificationPending (now : Z) (u : User.User) : bool :=
  match User.emailVerificationExpires u with
  | Some t => t >? now
  | None => false
  end.

Definition set_isEmailVerified (v : bool) (u : User.User) : User.User :=
  {| User.id := User.id u; User.email := User.email u;
     User.username := User.username u; User.password := User.password u;
     User.firstName := User.firstName u; User.lastName := User.lastName u;
     User.role := User.role u; User.isActive := User.isActive u;
     User.isEmailVerified := v;
     User.emailVerificationToken := User.emailVerificationToken u;
     User.emailVerificationExpires := User.emailVerificationExpires u;
     User.passwordResetToken := User.passwordResetToken u;
     User.passwordResetExpires := User.passwordResetExpires u;
     User.lastLoginAt := User.lastLoginAt u |}.

Definition verifyEmail_body (now : Z) (rnd : Entropy) (token : string) :
  M AuthResponse :=
  user <- findOneUser (verificationPending now) ;;
  match user with
  | None => ret (failure "Invalid or expired verification token")
  | Some user =>
      match User.emailVerificationToken user with
      | None => ret (failure "Invalid or expired verification token")
      | Some stored =>
          if negb (truthy stored)
          then ret (failure "Invalid or expired verification token")
          else
            let isTokenValid := bcrypt_compare L token stored in
            if negb isTokenValid
            then ret (failure "Invalid or expired verification token")
            else
              let user := set_isEmailVerified true user in
              (* both properties are set to undefined *)
              let user := User.set_emailVerification None None user in
              _ <- updateUser L rnd user ;;
              ret (succeeded "Email verified successfully")
      end
  end.

Definition verifyEmail (now : Z) (rnd : Entropy) (token : string) :
  Store -> AuthResponse * Store :=
  tryCatch (verifyEmail_body now rnd token) (failure "Email verification failed").

End Operations.

End AuthSessions.

(* ================================================================== *)
(** * Access control middleware: src/middleware/auth.ts *)
(* ================================================================== *)

Module Middleware.
Import JS AuthService.

(** What a middleware does with a request: it answers with a status and
    a JSON body of an [error] and a [message], or it calls [next()] with
    what it attached to the request.  The message of a thrown error that
    the model does not carry is [None]. *)
Inductive Result : Type :=
| Respond (status : Z) (error : string) (message : option string)
| Next (user : option User.User) (session : option Session.Session).

Definition exnMessage (e : Exn) : option string :=
  match e with
  | AuthError m _ _ => Some m
  | Error m => Some m
  | _ => None
  end.

(** The columns that [authenticate] selects; the others are absent from
    the entity it attaches, which the model shows as empty. *)
Definition selected (u : User.User) : User.User :=
  {| User.id := User.id u; User.email := User.email u;
     User.username := User.username u; User.password := EmptyString;
     User.firstName := User.firstName u; User.lastName := User.lastName u;
     User.role := User.role u; User.isActive := User.isActive u;
     User.isEmailVerified := User.isEmailVerified u;
     User.emailVerificationToken := None;
     User.emailVerificationExpires := None;
     User.passwordResetToken := None;
     User.passwordResetExpires := None;
     User.lastLoginAt := User.lastLoginAt u |}.

Definition idOf (o : option string) : string :=
  match o with Some x => x | None => EmptyString end.

Section WithLibraries.
Variable L : Libraries.
Variable cfg : JwtConfig.

Definition authenticate (now : Z) (authHeader : option string) :
  Store -> Result * Store :=
  fun st =>
    match JWTAccess.extractTokenFromHeader authHeader with
    | None => (Respond 401 "Authentication required" (Some "No token provided"), st)
    | Some token =>
        if negb (truthy token)
        then (Respond 401 "Authentication required" (Some "No token provided"), st)
        else
          match JWTAccess.verifyAccessToken L cfg now token with
          | Throw e => (Respond 401 "Invalid token" (exnMessage e), st)
          | Ok payload =>
              let user :=
                find (fun u => (String.eqb (User.id u) (idOf (p_userId payload))
                                && User.isActive u)%bool) (users st) in
              let session :=
                find (fun s => (String.eqb (Session.id s) (idOf (p_sessionId payload))
                                && String.eqb (Session.userId s)
                                     (idOf (p_userId payload))
                                && Session.isActive s)%bool) (sessions st) in
              match user with
              | None =>
                  (Respond 401 "User not found"
                     (Some "User account may have been disabled or deleted"), st)
              | Some user =>
                  match session with
                  | None =>
                      (Respond 401 "Invalid session"
                         (Some "Session has expired or been revoked"), st)
                  | Some session =>
                      if negb (Session.isValid now session)
                      then (Respond 401 "Invalid session"
                              (Some "Session has expired or been revoked"), st)
                      else
                        let session := SessionOps.updateLastAccessed now session in
                        (Next (Some (selected user)) (Some session),
                         snd (AuthSessions.updateSession session st))
                  end
              end
          end
    end.

(** [optionalAuth]: a token that does not verify is ignored. *)
Definition optionalAuth (now : Z) (authHeader : option string) :
  Store -> Result * Store :=
  fun st =>
    match JWTAccess.extractTokenFromHeader authHeader with
    | None => (Next None None, st)
    | Some token =>
        if negb (truthy token) then (Next None None, st)
        else
          match JWTAccess.verifyAccessToken L cfg now token with
          | Throw _ => (Next None None, st)
          | Ok payload =>
              (Next (find (fun u => (String.eqb (User.id u) (idOf (p_userId payload))
                                     && User.isActive u)%bool) (users st))
                    None, st)
          end
    end.

End WithLibraries.

(** [requireRole(roles)] applied to the request of [user]; a single role
    is the array of that role. *)
Definition role_eqb (a b : User.UserRole) : bool :=
  match a, b with
  | User.ADMIN, User.ADMIN | User.COACH, User.COACH | User.CLIENT, User.CLIENT => true
  | _, _ => false
  end.

Definition requireRole (allowedRoles : list User.UserRole)
           (user : option User.User) (session : option Session.Session) : Result :=
  match user with
  | None => Respond 401 "Authentication required" (Some "User not authenticated")
  | Some u =>
      if negb (existsb (role_eqb (User.role u)) allowedRoles)
      then Respond 403 "Insufficient permissions"
             (Some ("Required role: " ++ join " or " (map User.roleName allowedRoles)))
      else Next user session
  end.

Definition requireAdmin := requireRole [User.ADMIN].
Definition requireCoach := requireRole [User.ADMIN; User.COACH].

Definition requireEmailVerified (user : option User.User)
           (session : option Session.Session) : Result :=
  match user with
  | None => Respond 401 "Authentication required" (Some "User not authenticated")
  | Some u =>
      if negb (User.isEmailVerified u)
      then Respond 403 "Email verification required"
             (Some "Please verify your email address to access this resource")
      else Next user session
  end.

(** The getters [isCoach], [isAdmin] and [isClient] of the User entity. *)
Definition isCoach (u : User.User) : bool :=
  (role_eqb (User.role u) User.COACH || role_eqb (User.role u) User.ADMIN)%bool.
Definition isAdmin (u : User.User) : bool := role_eqb (User.role u) User.ADMIN.
Definition isClient (u : User.User) : bool := role_eqb (User.role u) User.CLIENT.

End Middleware.

(* ================================================================== *)
(** * Further instances for concrete runs *)
(* ================================================================== *)

Module DemoAccess.
Import JS.

(** A token library whose tokens carry the five claims, separated by
    bars: kind, user, session, email, role. *)
Definition sign (payload : JWTPayload) (secret expiresIn : string) (now : Z) :
  outcome string :=
  let get o := match o with Some x => x | None => EmptyString end in
  Ok (join "|" [ match p_type payload with Some t => t | None => "access" end;
                 get (p_userId payload); get (p_sessionId payload);
                 get (p_email payload); get (p_role payload) ]).

Definition verify (token secret : string) (now : Z) : outcome Decoded :=
  match JWTAccess.split "|" token with
  | [ty; u; s; e; r] =>
      if String.eqb ty "refresh" then
        Ok (DecodedObject {| p_userId := Some u; p_email := None; p_role := None;
                             p_sessionId := Some s; p_type := Some "refresh" |})
      else if String.eqb ty "access" then
        Ok (DecodedObject {| p_userId := Some u; p_email := Some e;
                             p_role := Some r; p_sessionId := Some s;
                             p_type := None |})
      else Throw JsonWebTokenError
  | _ => Throw JsonWebTokenError
  end.

Definition libraries : Libraries :=
  {| bcrypt_hash := Demo.hash; bcrypt_compare := Demo.compare;
     jwt_sign := sign; jwt_verify := verify |}.

Definition aliceHeader : option string :=
  Some "Bearer access|user-a|session-a|alice@example.com|client".

Definition loginHeader : option string :=
  Some "Bearer access|user-a|session-l|alice@example.com|client".

(** An assignment that was completed two days after it began. *)
Definition endedSample : CoachTraineeAssignment.Assignment :=
  {| CoachTraineeAssignment.id := "a1";
     CoachTraineeAssignment.coachId := "coach";
     CoachTraineeAssignment.traineeId := "trainee";
     CoachTraineeAssignment.status := CoachTraineeAssignment.COMPLETED;
     CoachTraineeAssignment.assignedAt := 0;
     CoachTraineeAssignment.endedAt := Some 172800000;
     CoachTraineeAssignment.pausedAt := None;
     CoachTraineeAssignment.resumedAt := None;
     CoachTraineeAssignment.isActive := false;
     CoachTraineeAssignment.notes := Some "[COMPLETED] goal reached";
     CoachTraineeAssignment.terminationReason := None;
     CoachTraineeAssignment.terminatedBy := None;
     CoachTraineeAssignment.totalSessions := 10;
     CoachTraineeAssignment.completedSessions := 8 |}.

(** Four requests on an ended assignment. *)
Definition laterRequests : list (Z * AssignmentOps.Action) :=
  [ (1, AssignmentOps.Resume None); (2, AssignmentOps.Pause None None);
    (3, AssignmentOps.Terminate "moved away" None);
    (4, AssignmentOps.Resume None) ].

End DemoAccess.

(** The rows of the users after a save of [u']: the row with its key is
    [u'], the others are as they were. *)
Definition replaced (u' : User.User) (l : list User.User) : list User.User :=
  map (fun x => if String.eqb (User.id x) (User.id u') then u' else x) l.

(* ================================================================== *)
(** * Properties of the Session entity *)
(* ================================================================== *)

Module SessionProps.
Import Session.

(** C6, as stated, fails at the instant of expiry: a session that is
    active, not revoked and whose [expiresAt] equals the current time is
    still reported valid, although [now < expiresAt] does not hold. *)
Lemma isValid_at_expiry_instant :
  isValid 1000 (Demo.activeSession 1000) = true /\
  ~ (isActive (Demo.activeSession 1000) = true /\
     1000 < expiresAt (Demo.activeSession 1000) /\
     revokedAt (Demo.activeSession 1000) = None).
Proof.
  split; [reflexivity|].
  intros (_ & Hlt & _). simpl in Hlt. lia.
Qed.

(** C6 (amended): a session is valid iff it is active, the current time
    is not after [expiresAt], and no revocation time is stored; it can be
    refreshed iff it is active, a refresh expiry is stored and the current
    time is not after it, and no revocation time is stored. *)
Theorem isValid_canRefresh_iff (now : Z) (s : Session) :
  (isValid now s = true <->
     isActive s = true /\ now <= expiresAt s /\ revokedAt s = None) /\
  (canRefresh now s = true <->
     isActive s = true /\
     (exists t, refreshTokenExpiresAt s = Some t /\ now <= t) /\
     revokedAt s = None).
Proof.
  unfold isValid, canRefresh, isExpired, isRefreshTokenExpired.
  rewrite !Bool.andb_true_iff, !Bool.negb_true_iff, Z.gtb_ltb, Z.ltb_ge.
  split.
  - destruct (revokedAt s); simpl; intuition congruence.
  - destruct (refreshTokenExpiresAt s) as [t|], (revokedAt s); simpl;
      rewrite ?Z.gtb_ltb, ?Z.ltb_ge; split;
      try (intros [[? ?] ?]; discriminate);
      try (intros [? [[t' [? ?]] ?]]; discriminate).
    + intros [[Ha Ht] _]. repeat split; auto. exists t. auto.
    + intros [Ha [[t' [Heq Ht]] _]]. injection Heq as <-. auto.
Qed.

End SessionProps.

(* ================================================================== *)
(** * Properties of the assignment state machine *)
(* ================================================================== *)

Module AssignmentProps.
Import CoachTraineeAssignment.

Lemma status_eqb_eq (a b : AssignmentStatus) : status_eqb a b = true <-> a = b.
Proof. destruct a, b; simpl; split; congruence. Qed.

(** C7: each transition succeeds exactly from its legal source states
    and then sets the target status, its timestamp and the isActive flag;
    from every other state it throws the error that names the states it
    is legal from, and returns no assignment. *)
Theorem transitions_guarded (now : Z) (reason by' : option string)
        (why : string) (a : Assignment) :
  match pause now reason by' a with
  | Ok a' => status a = ACTIVE /\ status a' = PAUSED /\
             pausedAt a' = Some now /\ isActive a' = false /\
             Conditions.sameRelationship a a'
  | Throw e => status a <> ACTIVE /\ e = Error "Can only pause active assignments"
  end /\
  match resume now reason a with
  | Ok a' => status a = PAUSED /\ status a' = ACTIVE /\
             resumedAt a' = Some now /\ isActive a' = true /\
             Conditions.sameRelationship a a'
  | Throw e => status a <> PAUSED /\ e = Error "Can only resume paused assignments"
  end /\
  match complete now reason by' a with
  | Ok a' => (status a = ACTIVE \/ status a = PAUSED) /\ status a' = COMPLETED /\
             isCompleted a' = true /\ endedAt a' = Some now /\
             isActive a' = false /\ terminatedBy a' = by' /\
             Conditions.sameRelationship a a'
  | Throw e => status a <> ACTIVE /\ status a <> PAUSED /\
               e = Error "Can only complete active or paused assignments"
  end /\
  match terminate now why by' a with
  | Ok a' => status a <> TERMINATED /\ status a' = TERMINATED /\
             endedAt a' = Some now /\ isActive a' = false /\
             terminationReason a' = Some why /\ terminatedBy a' = by' /\
             Conditions.sameRelationship a a'
  | Throw e => status a = TERMINATED /\ e = Error "Assignment is already terminated"
  end.
Proof.
  unfold pause, resume, complete, terminate, Conditions.sameRelationship, isCompleted.
  destruct (status a) eqn:Hs; simpl;
    repeat split; try reflexivity; try discriminate; auto.
Qed.

End AssignmentProps.

(* ================================================================== *)
(** * Properties of the credential service *)
(* ================================================================== *)

Module PasswordProps.
Import JS PasswordService Rules.

(** C8, as stated, fails on the empty password: it is shorter than 8
    characters and lacks every character class, yet the only error
    returned is the one of the guard that returns early. *)
Lemma validatePassword_empty_short_circuits :
  Nat.ltb (String.length "") 8 = true /\
  negb (existsChar isUpperAZ "") = true /\
  errors (validatePassword "") = [msg_required] /\
  ~ In msg_short (errors (validatePassword "")) /\
  ~ In msg_upper (errors (validatePassword "")).
Proof.
  repeat split; try reflexivity;
    simpl; intros [H|[]]; discriminate.
Qed.

Lemma pushIf_app (c : bool) (m : string) (l : list string) :
  pushIf c m l = (l ++ (if c then [m] else []))%list.
Proof. destruct c; simpl; [reflexivity | now rewrite app_nil_r]. Qed.

(** The errors of a non-empty password, rule by rule. *)
Lemma validatePassword_nonempty (c : ascii) (r : string) :
  errors (validatePassword (String c r)) = violatedRules (String c r).
Proof.
  unfold validatePassword. cbn [truthy negb].
  cbv beta zeta. cbn [isValid errors].
  unfold violatedRules, rules. rewrite !pushIf_app. cbn [filter map fst snd app].
  set (p := String c r).
  destruct (Nat.ltb (String.length p) 8), (Nat.ltb 128 (String.length p)),
    (negb (existsChar isUpperAZ p)), (negb (existsChar isLowerAZ p)),
    (negb (existsChar isDigit p)), (negb (existsChar isSpecial p)),
    (arrayIncludes commonPasswords (toLowerCase p)),
    (sequentialPattern (toLowerCase p)); reflexivity.
Qed.

Lemma isValid_no_errors (password : string) :
  isValid (validatePassword password) = true <->
  errors (validatePassword password) = [].
Proof.
  destruct password as [|c r]; [simpl; split; discriminate|].
  unfold validatePassword. cbn [truthy negb]. cbv beta zeta. cbn [isValid errors].
  rewrite Nat.eqb_eq. apply length_zero_iff_nil.
Qed.

(** [isValid] of a non-empty password as the conjunction of the eight
    tests. *)
Lemma isValid_nonempty (c : ascii) (r : string) :
  let p := String c r in
  isValid (validatePassword p) =
  (negb (Nat.ltb (String.length p) 8) && negb (Nat.ltb 128 (String.length p))
   && existsChar isUpperAZ p && existsChar isLowerAZ p
   && existsChar isDigit p && existsChar isSpecial p
   && negb (arrayIncludes commonPasswords (toLowerCase p))
   && negb (sequentialPattern (toLowerCase p)))%bool.
Proof.
  intros p. unfold validatePassword. fold p. cbn [p truthy negb].
  cbv beta zeta. cbn [isValid errors]. fold p.
  destruct (Nat.ltb (String.length p) 8), (Nat.ltb 128 (String.length p)),
    (existsChar isUpperAZ p), (existsChar isLowerAZ p),
    (existsChar isDigit p), (existsChar isSpecial p),
    (arrayIncludes commonPasswords (toLowerCase p)),
    (sequentialPattern (toLowerCase p)); reflexivity.
Qed.

(** C8 (amended): [validatePassword] is total; [isValid] holds exactly
    when the list of errors is empty; for a non-empty password the list
    is the messages of all the violated rules, in the order of the rules;
    for the empty password it is the single message of the guard. *)
Theorem validatePassword_accumulates (password : string) :
  (isValid (validatePassword password) = true <->
     errors (validatePassword password) = []) /\
  errors (validatePassword password) =
    match password with
    | EmptyString => [msg_required]
    | String _ _ => violatedRules password
    end.
Proof.
  split; [apply isValid_no_errors|].
  destruct password as [|c r]; [reflexivity | apply validatePassword_nonempty].
Qed.

Example short_has_four_errors :
  errors (validatePassword "short") = [msg_short; msg_upper; msg_digit; msg_special].
Proof. reflexivity. Qed.

(** ** The generator *)

Lemma randomIndex_lt (k : Z) (n : nat) : (0 < n)%nat -> (randomIndex k n < n)%nat.
Proof.
  intros Hn. unfold randomIndex.
  assert (H : 0 <= (k mod 2 ^ 53) * Z.of_nat n / 2 ^ 53 < Z.of_nat n).
  { pose proof (Z.mod_pos_bound k (2 ^ 53) ltac:(lia)) as Hk.
    split.
    - apply Z.div_pos; [nia | lia].
    - apply Z.div_lt_upper_bound; [lia | nia]. }
  lia.
Qed.

Lemma get_everyChar (p : ascii -> bool) (s : string) (i : nat) :
  everyChar p s = true -> (i < String.length s)%nat ->
  exists c, String.get i s = Some c /\ p c = true.
Proof.
  revert i. induction s as [|a s IH]; intros i Hall Hi; simpl in Hi; [lia|].
  cbn [everyChar] in Hall. apply Bool.andb_true_iff in Hall as [Ha Hs].
  destruct i as [|i]; simpl.
  - exists a. auto.
  - apply IH; [exact Hs | lia].
Qed.

(** A draw from a non-empty alphabet is one character of it. *)
Lemma pick_everyChar (p : ascii -> bool) (chars : string) (k : Z) :
  everyChar p chars = true -> (0 < String.length chars)%nat ->
  exists c, pick chars k = String c EmptyString /\ p c = true.
Proof.
  intros Hall Hlen. unfold pick, charAt.
  destruct (get_everyChar p chars (randomIndex k (String.length chars)) Hall
              (randomIndex_lt k _ Hlen)) as (c & -> & Hc).
  exists c. auto.
Qed.

Lemma length_append (a b : string) :
  String.length (a ++ b) = (String.length a + String.length b)%nat.
Proof. induction a; simpl; auto. Qed.

Lemma append_assoc (a b c : string) : ((a ++ b) ++ c = a ++ (b ++ c))%string.
Proof. induction a; simpl; congruence. Qed.

Lemma fillRest_appends (n : nat) (rand : nat -> Z) (i : nat) (password : string) :
  exists rest,
    fillRest n rand i password = password ++ rest /\ String.length rest = n.
Proof.
  revert i password. induction n as [|n IH]; intros i password; simpl.
  - exists EmptyString. split; [|reflexivity].
    induction password; simpl; congruence.
  - destruct (IH (S i) (password ++ pick allChars (rand i))) as (rest & -> & Hlen).
    destruct (pick_everyChar (fun _ => true) allChars (rand i)
                eq_refl ltac:(vm_compute; lia)) as (c & Hc & _).
    exists (pick allChars (rand i) ++ rest). split.
    + apply append_assoc.
    + rewrite Hc. simpl. now rewrite Hlen.
Qed.

Lemma insertRandom_perm (rand : nat -> Z) (x : ascii) (l : list ascii) (i : nat) :
  Permutation (fst (insertRandom rand i x l)) (x :: l).
Proof.
  revert i. induction l as [|y r IH]; intros i; simpl; [apply Permutation_refl|].
  destruct (randomSign (rand i)); try apply Permutation_refl.
  specialize (IH (S i)). destruct (insertRandom rand (S i) x r) as [r' j].
  simpl in *.
  eapply Permutation_trans; [apply perm_skip, IH | apply perm_swap].
Qed.

(** The shuffle returns a permutation of its argument, whatever the
    draws are. *)
Lemma sortRandom_perm (rand : nat -> Z) (l : list ascii) (i : nat) :
  Permutation (fst (sortRandom rand i l)) l.
Proof.
  induction l as [|x r IH]; simpl; [apply Permutation_refl|].
  destruct (sortRandom rand i r) as [s j]. simpl in IH.
  eapply Permutation_trans; [apply insertRandom_perm | apply perm_skip, IH].
Qed.

Lemma existsChar_existsb (p : ascii -> bool) (s : string) :
  existsChar p s = existsb p (list_ascii_of_string s).
Proof. induction s; simpl; congruence. Qed.

Lemma length_list_ascii (s : string) :
  String.length s = List.length (list_ascii_of_string s).
Proof. induction s; simpl; congruence. Qed.

Lemma existsb_perm (p : ascii -> bool) (l l' : list ascii) :
  Permutation l l' -> existsb p l = existsb p l'.
Proof.
  intros H. induction H; simpl; try congruence.
  destruct (p x), (p y); reflexivity.
Qed.

Lemma lowerChar_special (c : ascii) : isSpecial (lowerChar c) = isSpecial c.
Proof. destruct c as [[] [] [] [] [] [] [] []]; reflexivity. Qed.

Lemma existsChar_special_lower (s : string) :
  existsChar isSpecial (toLowerCase s) = existsChar isSpecial s.
Proof. induction s; simpl; [reflexivity | now rewrite lowerChar_special, IHs]. Qed.

(** No password of the deny-list contains special characters, so a
    password that does is not on the list. *)
Lemma special_not_common (s : string) :
  existsChar isSpecial s = true ->
  arrayIncludes commonPasswords (toLowerCase s) = false.
Proof.
  intros H. rewrite <- existsChar_special_lower in H.
  unfold arrayIncludes. apply Bool.not_true_is_false. intros Hin.
  apply existsb_exists in Hin as (c & Hc & Heq).
  apply String.eqb_eq in Heq. rewrite Heq in H.
  unfold commonPasswords in Hc. simpl in Hc.
  repeat (destruct Hc as [<- | Hc]; [vm_compute in H; discriminate|]).
  exact Hc.
Qed.

(** C9, as stated, fails twice: a requested length of 3 gives a password
    of 4 characters, and a password of the requested length 10 can come
    out with the run 123456 in it, which the validator rejects. *)
Lemma generateRandomPassword_misses :
  String.length (generateRandomPassword 3 Demo.halves) = 4%nat /\
  String.length (generateRandomPassword 3 Demo.halves) <> 3%nat /\
  generateRandomPassword 10 Demo.sequentialDraws = "aA0!123456" /\
  isValid (validatePassword (generateRandomPassword 10 Demo.sequentialDraws)) = false.
Proof. vm_compute. repeat split; congruence. Qed.

(** The password before the shuffle: one character of each class, then
    [length - 4] more. *)
Lemma unshuffled_shape (length : Z) (rand : nat -> Z) :
  exists c1 c2 c3 c4 rest,
    fillRest (Z.to_nat (length - 4)) rand 4%nat
      ((((EmptyString ++ pick lowercase (rand 0%nat)) ++ pick uppercase (rand 1%nat))
          ++ pick numbers (rand 2%nat)) ++ pick symbols (rand 3%nat))%string
    = String c1 (String c2 (String c3 (String c4 rest))) /\
    isLowerAZ c1 = true /\ isUpperAZ c2 = true /\ isDigit c3 = true /\
    isSpecial c4 = true /\ String.length rest = Z.to_nat (length - 4).
Proof.
  destruct (pick_everyChar isLowerAZ lowercase (rand 0%nat) eq_refl
              ltac:(vm_compute; lia)) as (c1 & -> & H1).
  destruct (pick_everyChar isUpperAZ uppercase (rand 1%nat) eq_refl
              ltac:(vm_compute; lia)) as (c2 & -> & H2).
  destruct (pick_everyChar isDigit numbers (rand 2%nat) eq_refl
              ltac:(vm_compute; lia)) as (c3 & -> & H3).
  destruct (pick_everyChar isSpecial symbols (rand 3%nat) eq_refl
              ltac:(vm_compute; lia)) as (c4 & -> & H4).
  cbn [append].
  destruct (fillRest_appends (Z.to_nat (length - 4)) rand 4
              (String c1 (String c2 (String c3 (String c4 EmptyString)))))
    as (rest & -> & Hlen).
  exists c1, c2, c3, c4, rest. cbn [append]. repeat split; auto.
Qed.

(** C9 (amended): the generated password has [max 4 length] characters,
    so the requested length exactly when that is at least 4; it always
    holds a lowercase letter, an uppercase letter, a digit and a symbol;
    and the validator accepts it exactly when the requested length is
    between 8 and 128 and the result holds none of the sequential runs. *)
Theorem generateRandomPassword_shape (length : Z) (rand : nat -> Z) :
  let password := generateRandomPassword length rand in
  Z.of_nat (String.length password) = Z.max 4 length /\
  existsChar isLowerAZ password = true /\
  existsChar isUpperAZ password = true /\
  existsChar isDigit password = true /\
  existsChar isSpecial password = true /\
  isValid (validatePassword password) =
    ((8 <=? length) && (length <=? 128)
     && negb (sequentialPattern (toLowerCase password)))%bool.
Proof.
  intros password.
  destruct (unshuffled_shape length rand)
    as (c1 & c2 & c3 & c4 & rest & Hpre & H1 & H2 & H3 & H4 & Hrest).
  assert (Hperm : Permutation (list_ascii_of_string password)
                    (c1 :: c2 :: c3 :: c4 :: list_ascii_of_string rest)).
  { unfold password, generateRandomPassword. cbv zeta.
    rewrite Hpre, list_ascii_of_string_of_list_ascii.
    apply sortRandom_perm. }
  assert (Hlen : Z.of_nat (String.length password) = Z.max 4 length).
  { rewrite length_list_ascii, (Permutation_length Hperm). simpl.
    rewrite <- length_list_ascii, Hrest. lia. }
  assert (Hex : forall p c, In c [c1; c2; c3; c4] -> p c = true ->
                            existsChar p password = true).
  { intros p c Hin Hp. rewrite existsChar_existsb, (existsb_perm p _ _ Hperm).
    apply existsb_exists. exists c. split; [|exact Hp].
    simpl in Hin |- *. tauto. }
  assert (Hl : existsChar isLowerAZ password = true)
    by (apply (Hex _ c1); simpl; auto).
  assert (Hu : existsChar isUpperAZ password = true)
    by (apply (Hex _ c2); simpl; auto).
  assert (Hd : existsChar isDigit password = true)
    by (apply (Hex _ c3); simpl; auto).
  assert (Hs : existsChar isSpecial password = true)
    by (apply (Hex _ c4); simpl; auto).
  repeat split; auto.
  destruct password as [|c r] eqn:Hpw; [simpl in Hlen; lia|].
  rewrite isValid_nonempty. cbv zeta.
  rewrite Hl, Hu, Hd, Hs, (special_not_common _ Hs).
  set (n := String.length (String c r)) in *.
  assert (Hshort : negb (Nat.ltb n 8) = (8 <=? length)).
  { destruct (Nat.ltb_spec n 8), (Z.leb_spec 8 length); simpl; auto; lia. }
  assert (Hlong : negb (Nat.ltb 128 n) = (length <=? 128)).
  { destruct (Nat.ltb_spec 128 n), (Z.leb_spec length 128); simpl; auto; lia. }
  rewrite Hshort, Hlong.
  destruct (8 <=? length), (length <=? 128),
    (sequentialPattern (toLowerCase (String c r))); reflexivity.
Qed.

End PasswordProps.

(* ================================================================== *)
(** * Properties of the token service *)
(* ================================================================== *)

Module TokenProps.
Import JS JWTService.

(** C10, as stated, fails on an unparseable value: for the configured
    text "abc" the result is NaN, not the default 3600. *)
Lemma expiration_of_unparseable_is_not_default :
  getAccessTokenExpirationTime (Some "abc") = NaN /\
  getAccessTokenExpirationTime (Some "abc") <> Num 3600.
Proof. split; [reflexivity | discriminate]. Qed.

Example two_hours : getAccessTokenExpirationTime (Some "2h") = Num 7200.
Proof. reflexivity. Qed.

Example hex_prefix : getAccessTokenExpirationTime (Some "0x10m") = Num 960.
Proof. reflexivity. Qed.

Lemma endsWithChar_snoc (c c' : ascii) (s : string) :
  endsWithChar c (s ++ String c' EmptyString) = Ascii.eqb c' c.
Proof.
  induction s as [|a s IH]; [reflexivity|].
  destruct s; simpl in *; exact IH.
Qed.

Lemma sliceInit_snoc (c : ascii) (s : string) :
  sliceInit (s ++ String c EmptyString) = s.
Proof.
  induction s as [|a s IH]; [reflexivity|].
  destruct s; simpl in *; [reflexivity | now rewrite IH].
Qed.

Lemma parseDigits_uint (d : Decimal.uint) (acc : nat) :
  parseDigits 10 (Some (Z.of_nat acc)) (NilEmpty.string_of_uint d) =
  Some (Z.of_nat (Nat.of_uint_acc d acc)).
Proof.
  revert acc.
  induction d; intros acc; cbn [NilEmpty.string_of_uint parseDigits Nat.of_uint_acc];
    [reflexivity | ..];
    (match goal with
     | |- context [digitValue 10 ?c] =>
         change (digitValue 10 c) with (Some (Z.of_nat (code c) - 48))
     end);
    cbv iota beta; rewrite <- IHd; do 2 f_equal;
    rewrite Nat.tail_mul_spec;
    (match goal with
     | |- context [code ?c] =>
         let v := eval vm_compute in (code c) in change (code c) with v
     end); lia.
Qed.

Lemma parseDigits_of_uint (d : Decimal.uint) :
  d <> Decimal.Nil ->
  parseDigits 10 None (NilEmpty.string_of_uint d) = Some (Z.of_nat (Nat.of_uint d)).
Proof.
  intros Hd. unfold Nat.of_uint.
  destruct d; [congruence | ..];
    cbn [NilEmpty.string_of_uint parseDigits Nat.of_uint_acc];
    (match goal with
     | |- context [digitValue 10 ?c] =>
         change (digitValue 10 c) with (Some (Z.of_nat (code c) - 48))
     end);
    cbv iota beta;
    (match goal with
     | |- parseDigits 10 (Some ?z) _ = Some (Z.of_nat (Nat.of_uint_acc _ ?a)) =>
         change z with (Z.of_nat a)
     end);
    apply parseDigits_uint.
Qed.

Lemma to_little_uint_not_nil (n : nat) (acc : Decimal.uint) :
  acc <> Decimal.Nil -> Nat.to_little_uint n acc <> Decimal.Nil.
Proof.
  revert acc. induction n as [|n IH]; intros acc Hacc; simpl; [exact Hacc|].
  apply IH. destruct acc; simpl; discriminate.
Qed.

Lemma to_uint_not_nil (n : nat) : Nat.to_uint n <> Decimal.Nil.
Proof.
  unfold Nat.to_uint. intros H. apply DecimalFacts.rev_nil_inv in H.
  revert H. apply to_little_uint_not_nil. discriminate.
Qed.

Ltac by_cases_on_ascii c :=
  destruct c as [[] [] [] [] [] [] [] []]; vm_compute;
  intros; repeat split; congruence.

Lemma digit_is_plain (c : ascii) :
  isDigit c = true ->
  isWhite c = false /\ Ascii.eqb c "-" = false /\ Ascii.eqb c "+" = false /\
  Ascii.eqb c "x" = false /\ Ascii.eqb c "X" = false.
Proof. by_cases_on_ascii c. Qed.

Lemma nondigit_value (c : ascii) :
  isDigit c = false -> digitValue 10 c = None /\ Ascii.eqb c "0" = false.
Proof. by_cases_on_ascii c. Qed.

Lemma string_of_uint_digits (d : Decimal.uint) :
  everyChar isDigit (NilEmpty.string_of_uint d) = true.
Proof. induction d; simpl; auto. Qed.

Lemma toNumber_exact (z : Z) : Z.abs z <= 2 ^ 53 -> toNumber z = Num z.
Proof.
  intros H. unfold toNumber. apply Z.leb_le in H. cbv zeta. now rewrite H.
Qed.

(** On a text made of decimal digits only, [parseInt] is the plain
    accumulation of the digits in radix 10, as a Number. *)
Lemma parseInt_digits (s : string) :
  everyChar isDigit s = true ->
  parseInt s =
  match parseDigits 10 None s with Some z => toNumber z | None => NaN end.
Proof.
  destruct s as [|c r]; [reflexivity|].
  cbn [everyChar]. rewrite Bool.andb_true_iff. intros [Hc Hr].
  destruct (digit_is_plain c Hc) as (Hw & Hm & Hp & _).
  unfold parseInt. cbn [trimStart]. rewrite Hw, Hm, Hp.
  assert (Hradix :
    match String c r with
    | String c0 (String x r0) =>
        if (Ascii.eqb c0 "0" && (Ascii.eqb x "x" || Ascii.eqb x "X"))%bool
        then (16, r0) else (10, String c r)
    | _ => (10, String c r)
    end = (10, String c r)).
  { destruct r as [|x r']; [reflexivity|].
    cbn [everyChar] in Hr. apply Bool.andb_true_iff in Hr as [Hx _].
    destruct (digit_is_plain x Hx) as (_ & _ & _ & Hx1 & Hx2).
    rewrite Hx1, Hx2, Bool.andb_false_r. reflexivity. }
  rewrite Hradix.
  destruct (parseDigits 10 None (String c r)) as [z|]; [|reflexivity].
  f_equal. apply Z.mul_1_l.
Qed.

(** The digits of [d], leading zeros included, are read as the integer
    they denote. *)
Lemma parseInt_uint (d : Decimal.uint) :
  d <> Decimal.Nil ->
  parseInt (NilEmpty.string_of_uint d) = toNumber (Z.of_nat (Nat.of_uint d)).
Proof.
  intros Hd.
  rewrite parseInt_digits by apply string_of_uint_digits.
  now rewrite parseDigits_of_uint.
Qed.

Lemma parseInt_decimal (n : nat) : parseInt (decimal n) = toNumber (Z.of_nat n).
Proof.
  unfold decimal. rewrite parseInt_uint by apply to_uint_not_nil.
  now rewrite DecimalNat.Unsigned.of_to.
Qed.

Lemma mul_exact (z k : Z) :
  0 <= z -> 0 < k -> z * k <= 2 ^ 53 -> mul (toNumber z) k = Num (z * k).
Proof.
  intros Hz Hk Hb.
  assert (z <= z * k) by nia.
  rewrite (toNumber_exact z) by (rewrite Z.abs_eq; lia).
  cbn [mul]. apply toNumber_exact. rewrite Z.abs_eq; nia.
Qed.

Lemma existsChar_trimStart (p : ascii -> bool) (s : string) :
  existsChar p s = false -> existsChar p (trimStart s) = false.
Proof.
  induction s as [|c r IH]; [reflexivity|].
  cbn [existsChar trimStart]. intros H.
  destruct (isWhite c); [|exact H].
  apply IH. apply Bool.orb_false_iff in H. tauto.
Qed.

Lemma existsChar_sliceInit (p : ascii -> bool) (s : string) :
  existsChar p s = false -> existsChar p (sliceInit s) = false.
Proof.
  induction s as [|c r IH]; [reflexivity|].
  intros H. cbn [existsChar] in H. apply Bool.orb_false_iff in H as [Hc Hr].
  destruct r as [|c' r']; [reflexivity|].
  change (sliceInit (String c (String c' r')))
    with (String c (sliceInit (String c' r'))).
  cbn [existsChar]. rewrite Hc, IH by exact Hr. reflexivity.
Qed.

(** A text without any decimal digit has no integer for [parseInt]. *)
Lemma parseInt_no_digit (s : string) :
  existsChar isDigit s = false -> parseInt s = NaN.
Proof.
  intros H. apply existsChar_trimStart in H.
  unfold parseInt. set (t := trimStart s) in *. clearbody t.
  assert (Hsign : exists sg t',
    match t with
    | String c r =>
        if Ascii.eqb c "-" then (-1, r)
        else if Ascii.eqb c "+" then (1, r) else (1, t)
    | EmptyString => (1, t)
    end = (sg, t') /\ existsChar isDigit t' = false).
  { destruct t as [|c r]; [exists 1, EmptyString; auto|].
    cbn [existsChar] in H. pose proof H as H'.
    apply Bool.orb_false_iff in H' as [_ Hr].
    destruct (Ascii.eqb c "-"); [exists (-1), r; auto|].
    destruct (Ascii.eqb c "+"); [exists 1, r; auto|].
    exists 1, (String c r). auto. }
  destruct Hsign as (sg & t' & -> & Ht').
  assert (Hradix :
    match t' with
    | String c (String x r) =>
        if (Ascii.eqb c "0" && (Ascii.eqb x "x" || Ascii.eqb x "X"))%bool
        then (16, r) else (10, t')
    | _ => (10, t')
    end = (10, t')).
  { destruct t' as [|c [|x r]]; try reflexivity.
    cbn [existsChar] in Ht'. apply Bool.orb_false_iff in Ht' as [Hc _].
    destruct (nondigit_value c Hc) as [_ ->]. reflexivity. }
  rewrite Hradix.
  destruct t' as [|c r]; [reflexivity|].
  cbn [existsChar] in Ht'. apply Bool.orb_false_iff in Ht' as [Hc _].
  cbn [parseDigits]. destruct (nondigit_value c Hc) as [-> _]. reflexivity.
Qed.

(** C10 (amended): for a configured value made of one or more decimal
    digits, leading zeros included, and one of the suffixes h, m, d, s, the
    lifetime is the integer [n] that the digits denote, read as a
    JavaScript number and multiplied as one by 3600, 60, 86400 or 1; it is
    exactly [n] hours, minutes, days or seconds in seconds whenever that
    number of seconds is at most [2^53], and a rounded double beyond, as
    for 9007199254740993 seconds.  For a configured text with no digit at
    all the result is NaN, and a value that is not a string gives 3600. *)
Theorem accessTokenExpirationTime_values (d : Decimal.uint) (s : string) :
  d <> Decimal.Nil ->
  existsChar isDigit s = false ->
  let digits := NilEmpty.string_of_uint d in
  let n := Z.of_nat (Nat.of_uint d) in
  getAccessTokenExpirationTime (Some (digits ++ "h")) = mul (toNumber n) 3600 /\
  getAccessTokenExpirationTime (Some (digits ++ "m")) = mul (toNumber n) 60 /\
  getAccessTokenExpirationTime (Some (digits ++ "d")) = mul (toNumber n) 86400 /\
  getAccessTokenExpirationTime (Some (digits ++ "s")) = toNumber n /\
  (n * 3600 <= 2 ^ 53 ->
   getAccessTokenExpirationTime (Some (digits ++ "h")) = Num (n * 3600)) /\
  (n * 60 <= 2 ^ 53 ->
   getAccessTokenExpirationTime (Some (digits ++ "m")) = Num (n * 60)) /\
  (n * 86400 <= 2 ^ 53 ->
   getAccessTokenExpirationTime (Some (digits ++ "d")) = Num (n * 86400)) /\
  (n <= 2 ^ 53 ->
   getAccessTokenExpirationTime (Some (digits ++ "s")) = Num n) /\
  getAccessTokenExpirationTime (Some "9007199254740993s") = Num 9007199254740992 /\
  getAccessTokenExpirationTime (Some s) = NaN /\
  getAccessTokenExpirationTime None = Num 3600.
Proof.
  intros Hd Hs digits n.
  assert (Hn : 0 <= n) by apply Nat2Z.is_nonneg.
  assert (Hh : getAccessTokenExpirationTime (Some (digits ++ "h"))
               = mul (toNumber n) 3600).
  { unfold getAccessTokenExpirationTime.
    rewrite endsWithChar_snoc, sliceInit_snoc. cbn [Ascii.eqb Bool.eqb].
    unfold digits. now rewrite parseInt_uint. }
  assert (Hm : getAccessTokenExpirationTime (Some (digits ++ "m"))
               = mul (toNumber n) 60).
  { unfold getAccessTokenExpirationTime.
    rewrite !endsWithChar_snoc, sliceInit_snoc. cbn [Ascii.eqb Bool.eqb].
    unfold digits. now rewrite parseInt_uint. }
  assert (Hdd : getAccessTokenExpirationTime (Some (digits ++ "d"))
                = mul (toNumber n) 86400).
  { unfold getAccessTokenExpirationTime.
    rewrite !endsWithChar_snoc, sliceInit_snoc. cbn [Ascii.eqb Bool.eqb].
    unfold digits. now rewrite parseInt_uint. }
  assert (Hss : getAccessTokenExpirationTime (Some (digits ++ "s")) = toNumber n).
  { unfold getAccessTokenExpirationTime.
    rewrite !endsWithChar_snoc, sliceInit_snoc. cbn [Ascii.eqb Bool.eqb].
    unfold digits. now rewrite parseInt_uint. }
  split; [exact Hh|]. split; [exact Hm|]. split; [exact Hdd|].
  split; [exact Hss|].
  split; [intros Hb; rewrite Hh; apply mul_exact; lia|].
  split; [intros Hb; rewrite Hm; apply mul_exact; lia|].
  split; [intros Hb; rewrite Hdd; apply mul_exact; lia|].
  split; [intros Hb; rewrite Hss; apply toNumber_exact; rewrite Z.abs_eq; lia|].
  split; [vm_compute; reflexivity|].
  split; [|reflexivity].
  - unfold getAccessTokenExpirationTime.
    pose proof (parseInt_no_digit _ (existsChar_sliceInit _ _ Hs)) as Hslice.
    rewrite Hslice, (parseInt_no_digit _ Hs).
    repeat match goal with |- context [if ?b then _ else _] => destruct b end;
      reflexivity.
Qed.

Lemma accessTokenExpirationTime_values_witness :
  getAccessTokenExpirationTime (Some "2h") = Num 7200 /\
  getAccessTokenExpirationTime (Some "007m") = Num 420 /\
  getAccessTokenExpirationTime (Some "one hour") = NaN.
Proof.
  pose proof (accessTokenExpirationTime_values (Decimal.D2 Decimal.Nil) "one hour")
    as H2.
  pose proof (accessTokenExpirationTime_values
                (Decimal.D0 (Decimal.D0 (Decimal.D7 Decimal.Nil))) "one hour")
    as H7.
  destruct H2 as (_ & _ & _ & _ & Hh & _ & _ & _ & _ & Hnan & _);
    [discriminate | reflexivity |].
  destruct H7 as (_ & _ & _ & _ & _ & Hm & _); [discriminate | reflexivity |].
  split; [apply Hh; vm_compute; discriminate|].
  split; [apply Hm; vm_compute; discriminate | exact Hnan].
Defined.

End TokenProps.

(* ================================================================== *)
(** * Normalisation of emails *)
(* ================================================================== *)

Module StringProps.
Import JS.

Lemma lowerChar_idem (c : ascii) : lowerChar (lowerChar c) = lowerChar c.
Proof. destruct c as [[] [] [] [] [] [] [] []]; reflexivity. Qed.

Lemma isWhite_lowerChar (c : ascii) : isWhite (lowerChar c) = isWhite c.
Proof. destruct c as [[] [] [] [] [] [] [] []]; reflexivity. Qed.

Lemma toLowerCase_idem (s : string) : toLowerCase (toLowerCase s) = toLowerCase s.
Proof. induction s; simpl; [reflexivity | now rewrite lowerChar_idem, IHs]. Qed.

Lemma toLowerCase_trimStart (s : string) :
  toLowerCase (trimStart s) = trimStart (toLowerCase s).
Proof.
  induction s as [|c r IH]; [reflexivity|].
  cbn [trimStart toLowerCase]. rewrite isWhite_lowerChar.
  destruct (isWhite c); [exact IH | reflexivity].
Qed.

Lemma toLowerCase_trimEnd (s : string) :
  toLowerCase (trimEnd s) = trimEnd (toLowerCase s).
Proof.
  induction s as [|c r IH]; [reflexivity|].
  cbn [trimEnd toLowerCase]. rewrite <- IH, isWhite_lowerChar.
  destruct (trimEnd r); cbn [toLowerCase]; [destruct (isWhite c)|]; reflexivity.
Qed.

Lemma trimEnd_idem (s : string) : trimEnd (trimEnd s) = trimEnd s.
Proof.
  induction s as [|c r IH]; [reflexivity|].
  cbn [trimEnd]. destruct (trimEnd r) as [|c' r'] eqn:Hr.
  - destruct (isWhite c) eqn:Hc; [reflexivity|].
    cbn [trimEnd]. now rewrite Hc.
  - cbn [trimEnd] in *. rewrite IH. reflexivity.
Qed.

Lemma trimStart_headClean (s : string) : headClean (trimStart s).
Proof.
  induction s as [|c r IH]; [exact I|].
  cbn [trimStart]. destruct (isWhite c) eqn:Hc; [exact IH | exact Hc].
Qed.

Lemma trimStart_fixed (s : string) : headClean s -> trimStart s = s.
Proof. destruct s as [|c r]; [reflexivity|]. simpl. now intros ->. Qed.

Lemma trimEnd_headClean (s : string) : headClean s -> headClean (trimEnd s).
Proof.
  destruct s as [|c r]; [exact (fun H => H)|].
  cbn [trimEnd headClean]. intros Hc.
  destruct (trimEnd r); [rewrite Hc|]; exact Hc.
Qed.

Lemma trim_idem (s : string) : trim (trim s) = trim s.
Proof.
  unfold trim.
  rewrite (trimStart_fixed (trimEnd (trimStart s))).
  - apply trimEnd_idem.
  - apply trimEnd_headClean, trimStart_headClean.
Qed.

(** The normalisation of an email is idempotent: a stored email is
    left as it is by the listener that runs on every save. *)
Lemma normalized_idem (email : string) :
  AuthService.normalized (AuthService.normalized email)
  = AuthService.normalized email.
Proof.
  unfold AuthService.normalized, trim.
  rewrite toLowerCase_trimEnd, toLowerCase_trimStart, toLowerCase_idem.
  apply trim_idem.
Qed.

End StringProps.

(* ================================================================== *)
(** * Properties of the auth orchestrator *)
(* ================================================================== *)

Module AuthProps.
Import JS AuthService.

Lemma find_all_false {A : Type} (f : A -> bool) (l : list A) :
  (forall x, In x l -> f x = false) -> find f l = None.
Proof.
  induction l as [|a l IH]; intros H; simpl; [reflexivity|].
  rewrite (H a (or_introl eq_refl)). apply IH. intros x Hx. apply H. now right.
Qed.

Section WithLibraries.
Variable L : Libraries.
Variable cfg : JwtConfig.

(** *** login *)

Lemma login_unknown_email (now : Z) (rnd : Entropy) (data : LoginRequest)
      (ip ua : option string) (st : Store) :
  (forall u, In u (users st) -> User.email u <> normalized (login_email data)) ->
  login L cfg now rnd data ip ua st = (failure "Invalid email or password", st).
Proof.
  intros Hnone. unfold login, tryCatch, login_body, bindM, findOneUser.
  rewrite find_all_false; [reflexivity|].
  intros u Hu. apply String.eqb_neq. auto.
Qed.

Lemma login_wrong_password (now : Z) (rnd : Entropy) (data : LoginRequest)
      (ip ua : option string) (st : Store) :
  (forall u, In u (users st) -> User.email u = normalized (login_email data) ->
             User.validatePassword L (login_password data) u = false) ->
  login L cfg now rnd data ip ua st = (failure "Invalid email or password", st).
Proof.
  intros Hwrong. unfold login, tryCatch, login_body, bindM, findOneUser.
  destruct (find _ (users st)) as [u|] eqn:Hfind; [|reflexivity].
  apply find_some in Hfind as [Hin Heq]. apply String.eqb_eq in Heq.
  destruct (User.isActive u); [|reflexivity].
  cbn [negb]. rewrite (Hwrong u Hin Heq). reflexivity.
Qed.

(** C5: in one and the same state, a login with an email that no user
    has and a login with the email of an existing user and a password
    that does not verify return the same response, success=false with
    "Invalid email or password", and both leave the state as it was. *)
Theorem login_hides_account_existence
        (now now' : Z) (rnd rnd' : Entropy) (ip ip' ua ua' : option string)
        (st : Store) (unknown known : LoginRequest) :
  (forall u, In u (users st) ->
             User.email u <> normalized (login_email unknown)) ->
  (exists u, In u (users st) /\
             User.email u = normalized (login_email known)) ->
  (forall u, In u (users st) ->
             User.email u = normalized (login_email known) ->
             User.validatePassword L (login_password known) u = false) ->
  login L cfg now rnd unknown ip ua st
    = (failure "Invalid email or password", st) /\
  login L cfg now' rnd' known ip' ua' st
    = (failure "Invalid email or password", st) /\
  fst (login L cfg now rnd unknown ip ua st)
    = fst (login L cfg now' rnd' known ip' ua' st).
Proof.
  intros Hunknown _ Hwrong.
  rewrite (login_unknown_email _ _ _ _ _ _ Hunknown).
  rewrite (login_wrong_password _ _ _ _ _ _ Hwrong).
  auto.
Qed.

(** *** register *)

(** C3 (amended): when the normalised email of the request belongs to
    an existing user, register fails, writes nothing, and reports
    "Email already registered" or "Username already taken"; it reports
    the email whenever every user holding the requested username also
    holds the requested email. *)
Theorem register_email_collision
        (now : Z) (rnd : Entropy) (data : RegisterRequest)
        (ip ua : option string) (st : Store) :
  (exists u, In u (users st) /\
             User.email u = normalized (reg_email data)) ->
  let '(response, st') := register L cfg now rnd data ip ua st in
  st' = st /\ success response = false /\
  user response = None /\ tokens response = None /\
  (message response = Some "Email already registered" \/
   message response = Some "Username already taken") /\
  ((forall v, In v (users st) -> User.username v = reg_username data ->
              User.email v = normalized (reg_email data)) ->
   message response = Some "Email already registered").
Proof.
  intros (u & Hin & Hemail).
  unfold register, tryCatch, register_body, bindM, findOneUser.
  destruct (find _ (users st)) as [x|] eqn:Hfind.
  - apply find_some in Hfind as [Hx Hmatch]. cbn [ret failure].
    repeat split; try reflexivity.
    + cbn [message]. destruct (String.eqb _ _); auto.
    + intros Hsame. cbn [message].
      apply Bool.orb_true_iff in Hmatch as [Hm|Hm].
      * now rewrite Hm.
      * apply String.eqb_eq in Hm.
        rewrite (proj2 (String.eqb_eq _ _) (Hsame x Hx Hm)). reflexivity.
  - exfalso. pose proof (find_none _ _ Hfind u Hin) as Hno. cbv beta in Hno.
    rewrite Hemail, String.eqb_refl in Hno. discriminate.
Qed.

(** *** refreshToken *)

Lemma verifyRefreshToken_rethrows (now : Z) (token : string) (e : Exn) :
  JWTService.verifyRefreshToken_try L cfg now token = Throw e ->
  exists e', JWTService.verifyRefreshToken L cfg now token = Throw e'.
Proof.
  intros H. unfold JWTService.verifyRefreshToken. rewrite H.
  destruct e; eauto.
Qed.

Lemma refreshToken_when_verification_throws (now : Z) (token : string)
      (st : Store) (e : Exn) :
  JWTService.verifyRefreshToken L cfg now token = Throw e ->
  refreshToken L cfg now token st = (failure "Token refresh failed", st).
Proof.
  intros H. unfold refreshToken, tryCatch, refreshToken_body, bindM, lift.
  rewrite H. reflexivity.
Qed.

(** C1 (amended): a refresh request at fault is answered with
    success=false and nothing is written; the message is
    "Token refresh failed" when the library rejects the token or its
    discriminator is not "refresh", and "Invalid or expired refresh
    token" when the referenced session is missing, inactive or past its
    refresh expiry. *)
Theorem refreshToken_faults (now : Z) (token : string) (st : Store)
        (msg : string) :
  Conditions.RefreshFault L cfg now token st msg ->
  refreshToken L cfg now token st = (failure msg, st).
Proof.
  intros [e He | payload Hp Hty | userId sessionId Hok Hsess].
  - destruct (verifyRefreshToken_rethrows now token e) as [e' He'].
    { unfold JWTService.verifyRefreshToken_try. now rewrite He. }
    eapply refreshToken_when_verification_throws; eauto.
  - destruct (verifyRefreshToken_rethrows now token JWTService.invalidRefresh)
      as [e' He'].
    { unfold JWTService.verifyRefreshToken_try. rewrite Hp. cbn [bind].
      destruct (p_type payload) as [t|] eqn:Ht; cbn [eqb_opt negb].
      - destruct (String.eqb_spec t "refresh"); [subst; congruence | reflexivity].
      - reflexivity. }
    eapply refreshToken_when_verification_throws; eauto.
  - unfold refreshToken, tryCatch, refreshToken_body, bindM, lift,
      findOneUser, findOneSession.
    rewrite Hok.
    destruct (find _ (users st)) as [u|]; [|reflexivity].
    destruct (find _ (sessions st)) as [s|] eqn:Hfind; [|reflexivity].
    apply find_some in Hfind as [Hin Hmatch].
    apply Bool.andb_true_iff in Hmatch as [Hmatch _].
    apply Bool.andb_true_iff in Hmatch as [Hid Huid].
    apply String.eqb_eq in Hid, Huid.
    rewrite (Hsess s Hin Hid Huid). reflexivity.
Qed.

(** *** Saving a loaded user *)

Lemma beforeSave_keeps (salt : string) (u : User.User) :
  let u' := User.beforeSave L salt u in
  User.id u' = User.id u /\ User.isActive u' = User.isActive u /\
  User.username u' = User.username u /\
  User.passwordResetToken u' = User.passwordResetToken u /\
  User.passwordResetExpires u' = User.passwordResetExpires u /\
  User.password u' =
    (if truthy (User.password u)
     then bcrypt_hash L (User.password u) 12 salt else User.password u) /\
  User.email u' =
    (if truthy (User.email u)
     then trim (toLowerCase (User.email u)) else User.email u).
Proof.
  unfold User.beforeSave, User.normalizeEmail, User.hashPassword.
  destruct (truthy (User.password u)); cbn;
    destruct (truthy (User.email u)); cbn; repeat split; reflexivity.
Qed.

Lemma find_replaced (P : User.User -> bool) (l : list User.User)
      (u u' : User.User) :
  find P l = Some u -> P u' = true -> User.id u' = User.id u ->
  find P (map (fun x => if String.eqb (User.id x) (User.id u') then u' else x) l)
  = Some u'.
Proof.
  intros Hfind Hp Hid. induction l as [|a l IH]; [discriminate|].
  cbn [map find] in *.
  destruct (String.eqb (User.id a) (User.id u')) eqn:Ha.
  - now rewrite Hp.
  - destruct (P a) eqn:HPa.
    + injection Hfind as ->. rewrite Hid, String.eqb_refl in Ha. discriminate.
    + auto.
Qed.

(** The row that a save leaves: every column but the nullable ones is
    the entity's, and a nullable column is the entity's when the property
    is defined. *)
Lemma savedRow_keeps (st : Store) (u : User.User) :
  let w := savedRow st u in
  User.id w = User.id u /\ User.email w = User.email u /\
  User.username w = User.username u /\ User.password w = User.password u /\
  User.isActive w = User.isActive u /\ User.role w = User.role u /\
  User.isEmailVerified w = User.isEmailVerified u /\
  User.firstName w = User.firstName u /\ User.lastName w = User.lastName u /\
  (forall v, User.lastLoginAt u = Some v -> User.lastLoginAt w = Some v) /\
  (forall v, User.passwordResetToken u = Some v ->
             User.passwordResetToken w = Some v) /\
  (forall v, User.passwordResetExpires u = Some v ->
             User.passwordResetExpires w = Some v) /\
  (forall v, User.emailVerificationToken u = Some v ->
             User.emailVerificationToken w = Some v) /\
  (forall v, User.emailVerificationExpires u = Some v ->
             User.emailVerificationExpires w = Some v).
Proof.
  unfold savedRow.
  destruct (find _ (users st)) as [row|]; cbn;
    repeat split; auto; intros v Hv; rewrite Hv; reflexivity.
Qed.

(** Under a primary key the row that the save loads again is the row
    that the entity was loaded from. *)
Lemma find_by_key (l : list User.User) (u : User.User) :
  In u l -> (forall x, In x l -> User.id x = User.id u -> x = u) ->
  find (fun x => String.eqb (User.id x) (User.id u)) l = Some u.
Proof.
  intros Hin Hkey.
  destruct (find _ l) as [x|] eqn:Hf.
  - apply find_some in Hf as [Hx Heq]. apply String.eqb_eq in Heq.
    now rewrite (Hkey x Hx Heq).
  - pose proof (find_none _ _ Hf u Hin) as Hno. cbv beta in Hno.
    rewrite String.eqb_refl in Hno. discriminate.
Qed.

(** Distinct keys make a primary key. *)
Lemma nodup_keys (l : list User.User) :
  NoDup (map User.id l) ->
  forall x y, In x l -> In y l -> User.id x = User.id y -> x = y.
Proof.
  induction l as [|a l IH]; intros Hnd x y Hx Hy Hid; [destruct Hx|].
  cbn [map] in Hnd. inversion Hnd as [|? ? Hnotin Hnd']; subst.
  destruct Hx as [<-|Hx], Hy as [<-|Hy].
  - reflexivity.
  - exfalso. apply Hnotin. rewrite Hid. now apply in_map.
  - exfalso. apply Hnotin. rewrite <- Hid. now apply in_map.
  - now apply IH.
Qed.

Lemma updateUser_users (rnd : Entropy) (u : User.User) (st : Store) :
  let u' := User.beforeSave L (e_passwordSalt rnd) u in
  snd (updateUser L rnd u st)
  = {| users := replaced (savedRow st u') (users st); sessions := sessions st |}.
Proof.
  intros u'. unfold updateUser, replaced. cbn [snd]. fold u'.
  destruct (savedRow_keeps st u') as (Hid & _). now rewrite Hid.
Qed.

(** *** What a successful login writes to the user row *)

(** The users after a login that passes the password check: the row
    of the user is updated from the entity as the listeners leave it,
    whether or not the session and the tokens are then created. *)
Lemma login_users (now : Z) (rnd : Entropy) (data : LoginRequest)
      (ip ua : option string) (st : Store) (u : User.User) :
  find (Conditions.byEmail (login_email data)) (users st) = Some u ->
  User.isActive u = true ->
  User.validatePassword L (login_password data) u = true ->
  let u' := User.beforeSave L (e_passwordSalt rnd)
              (User.set_lastLoginAt (Some now) u) in
  users (snd (login L cfg now rnd data ip ua st)) =
  replaced (savedRow st u') (users st).
Proof.
  intros Hfind Hact Hpw u'.
  unfold login, tryCatch, login_body, bindM, findOneUser.
  unfold Conditions.byEmail in Hfind. rewrite Hfind, Hact. cbn [negb].
  rewrite Hpw. cbn [negb].
  pose proof (updateUser_users rnd (User.set_lastLoginAt (Some now) u) st) as Hup.
  cbv zeta in Hup. fold u' in Hup.
  destruct (updateUser L rnd (User.set_lastLoginAt (Some now) u) st)
    as [[saved|e] st1] eqn:Hu; [|discriminate Hu].
  cbn [snd] in Hup. subst st1.
  unfold createSession. cbn [users sessions].
  match goal with |- context [existsb ?f ?l] => destruct (existsb f l) end;
    [reflexivity|].
  unfold generateTokens, bindM, lift, ret.
  destruct (JWTService.generateAccessToken _ _ _ _ _ _ _); [|reflexivity].
  destruct (JWTService.generateRefreshToken _ _ _ _ _); reflexivity.
Qed.

(** A login re-hashes the stored hash: for a user whose stored
    password is the hash of [p], one login with [p] leaves the hash of
    that hash in the row, against which [p] no longer verifies, and
    every later login with [p] is refused. *)
Lemma login_rehashes_password (now : Z) (rnd : Entropy) (data : LoginRequest)
      (ip ua : option string) (st : Store) (u : User.User) (r : Z) (s : string) :
  Conditions.BcryptIdeal L ->
  find (Conditions.byEmail (login_email data)) (users st) = Some u ->
  User.isActive u = true ->
  User.password u = bcrypt_hash L (login_password data) r s ->
  let st' := snd (login L cfg now rnd data ip ua st) in
  exists u',
    find (Conditions.byEmail (login_email data)) (users st') = Some u' /\
    User.password u' = bcrypt_hash L (User.password u) 12 (e_passwordSalt rnd) /\
    User.validatePassword L (login_password data) u' = false /\
    forall now' rnd' ip' ua',
      login L cfg now' rnd' data ip' ua' st'
      = (failure "Invalid email or password", st').
Proof.
  intros ideal Hfind Hact Hstored st'.
  assert (Hpw : User.validatePassword L (login_password data) u = true).
  { unfold User.validatePassword. rewrite Hstored. apply (Conditions.compare_hash L ideal). }
  pose proof (login_users now rnd data ip ua st u Hfind Hact Hpw) as Husers.
  cbv zeta in Husers. fold st' in Husers.
  set (v := User.beforeSave L (e_passwordSalt rnd)
              (User.set_lastLoginAt (Some now) u)) in *.
  destruct (beforeSave_keeps (e_passwordSalt rnd) (User.set_lastLoginAt (Some now) u))
    as (Hid & Hact' & _ & _ & _ & Hpass & Hemail).
  fold v in Hid, Hact', Hpass, Hemail. cbn in Hid, Hact', Hpass, Hemail.
  destruct (savedRow_keeps st v) as (Wid & Wemail & _ & Wpass & Wact & _).
  set (u' := savedRow st v) in *.
  pose proof Hfind as Hin. apply find_some in Hin as [_ Hmatch].
  unfold Conditions.byEmail in Hmatch. apply String.eqb_eq in Hmatch.
  assert (Hemail' : User.email u' = normalized (login_email data)).
  { rewrite Wemail, Hemail, Hmatch.
    destruct (truthy (normalized (login_email data))); [|reflexivity].
    apply StringProps.normalized_idem. }
  assert (Hpass' : User.password u'
                   = bcrypt_hash L (User.password u) 12 (e_passwordSalt rnd)).
  { rewrite Wpass, Hpass, Hstored, (Conditions.hash_nonempty L ideal). reflexivity. }
  assert (Hwrong : User.validatePassword L (login_password data) u' = false).
  { unfold User.validatePassword. rewrite Hpass', Hstored.
    apply Bool.not_true_is_false. intros Hc.
    apply (Conditions.compare_only L ideal) in Hc.
    symmetry in Hc. exact (Conditions.hash_differs L ideal _ _ _ Hc). }
  assert (Hfind' : find (Conditions.byEmail (login_email data)) (users st') = Some u').
  { rewrite Husers. apply (find_replaced _ _ u u' Hfind); [|congruence].
    unfold Conditions.byEmail. rewrite Hemail'. apply String.eqb_refl. }
  exists u'. repeat split; auto.
  intros now' rnd' ip' ua'.
  unfold login, tryCatch, login_body, bindM, findOneUser.
  unfold Conditions.byEmail in Hfind'. rewrite Hfind', Wact, Hact', Hact. cbn [negb].
  rewrite Hwrong. reflexivity.
Qed.

(** *** resetPassword *)


(** When the user that the lookup returns holds another token than the
    one presented, the reset is refused and nothing is written, whoever
    else holds the presented token. *)
Lemma resetPassword_other_holder_first (now : Z) (rnd : Entropy)
      (token newPassword stored : string) (st : Store) (u : User.User) :
  PasswordService.isValid (PasswordService.validatePassword newPassword) = true ->
  find (resetPending now) (users st) = Some u ->
  User.passwordResetToken u = Some stored ->
  bcrypt_compare L token stored = false ->
  resetPassword L now rnd token newPassword st
  = (failure "Invalid or expired reset token", st).
Proof.
  intros Hvalid Hfind Hstored Hcmp.
  unfold resetPassword, tryCatch, resetPassword_body.
  rewrite Hvalid. cbn [negb]. unfold bindM, findOneUser.
  rewrite Hfind, Hstored, Hcmp.
  destruct (truthy stored); reflexivity.
Qed.

End WithLibraries.

(** ** Concrete runs *)

Lemma demo_ideal : Conditions.BcryptIdeal Demo.libraries.
Proof.
  split; cbn; unfold Demo.hash, Demo.compare; intros.
  - apply String.eqb_refl.
  - apply String.eqb_eq in H. congruence.
  - intros Heq. apply (f_equal String.length) in Heq. simpl in Heq. lia.
  - reflexivity.
Qed.

Lemma login_hides_account_existence_witness :
  login Demo.libraries Demo.config 3000 (Demo.entropy "l") Demo.nobody None None
    Demo.bothRegistered
  = (failure "Invalid email or password", Demo.bothRegistered) /\
  login Demo.libraries Demo.config 4000 (Demo.entropy "m") Demo.aliceWrongPassword
    None None Demo.bothRegistered
  = (failure "Invalid email or password", Demo.bothRegistered).
Proof.
  pose proof (login_hides_account_existence Demo.libraries Demo.config
                3000 4000 (Demo.entropy "l") (Demo.entropy "m")
                None None None None Demo.bothRegistered
                Demo.nobody Demo.aliceWrongPassword) as H.
  destruct H as (H1 & H2 & _).
  - intros u [<-|[<-|[]]]; vm_compute; discriminate.
  - eexists. split; [left; reflexivity | reflexivity].
  - intros u [<-|[<-|[]]]; vm_compute; intros; congruence.
  - split; [exact H1 | exact H2].
Defined.

(** C3, as stated, fails when the requested username belongs to a user
    that the lookup returns before the holder of the email: Bob's email
    is registered, the username alice is Alice's, Alice is stored first,
    and the message names the username. *)
Lemma register_reports_username_first :
  let data := {| reg_email := "bob@example.com"; reg_username := "alice";
                 reg_password := "An0ther!Pass"; reg_firstName := "Eve";
                 reg_lastName := "E" |} in
  existsb (fun u => String.eqb (User.email u) (normalized (reg_email data)))
    (users Demo.bothRegistered) = true /\
  register Demo.libraries Demo.config 3000 (Demo.entropy "e") data None None
    Demo.bothRegistered
  = (failure "Username already taken", Demo.bothRegistered) /\
  failure "Username already taken" <> failure "Email already registered".
Proof. vm_compute. repeat split; congruence. Qed.

Lemma register_email_collision_witness :
  let data := {| reg_email := "Bob@Example.com"; reg_username := "robert";
                 reg_password := "An0ther!Pass"; reg_firstName := "Bob";
                 reg_lastName := "B" |} in
  register Demo.libraries Demo.config 3000 (Demo.entropy "e") data None None
    Demo.bothRegistered
  = (failure "Email already registered", Demo.bothRegistered).
Proof.
  intros data.
  pose proof (register_email_collision Demo.libraries Demo.config 3000
                (Demo.entropy "e") data None None Demo.bothRegistered) as H.
  destruct (register Demo.libraries Demo.config 3000 (Demo.entropy "e") data
              None None Demo.bothRegistered) as [response st'].
  destruct H as (Hst & Hs & Hu & Ht & _ & Hm).
  - eexists. split; [right; left; reflexivity | reflexivity].
  - specialize (Hm ltac:(intros v [<-|[<-|[]]]; vm_compute; intros; congruence)).
    destruct response as [sc m us tk]. cbn in *. subst. reflexivity.
Defined.

(** C1, as stated, fails for a token that the library rejects and for a
    token without the refresh discriminator: both are answered with
    "Token refresh failed", not with "Invalid or expired refresh token". *)
Lemma refreshToken_rejected_token_message :
  jwt_verify Demo.libraries "garbage" (JWT_SECRET Demo.config) 3000
  = Throw JsonWebTokenError /\
  refreshToken Demo.libraries Demo.config 3000 "garbage" Demo.aliceRegistered
  = (failure "Token refresh failed", Demo.aliceRegistered) /\
  refreshToken Demo.libraries Demo.config 3000 "access.user-a.session-a"
    Demo.aliceRegistered
  = (failure "Token refresh failed", Demo.aliceRegistered) /\
  failure "Token refresh failed" <> failure "Invalid or expired refresh token".
Proof. vm_compute. repeat split; congruence. Qed.

Example refreshToken_succeeds :
  success (fst (refreshToken Demo.libraries Demo.config 3000
                  "refresh.user-a.session-a" Demo.aliceRegistered)) = true.
Proof. reflexivity. Qed.

Lemma refreshToken_faults_witness :
  refreshToken Demo.libraries Demo.config 700000000 "refresh.user-a.session-a"
    Demo.aliceRegistered
  = (failure "Invalid or expired refresh token", Demo.aliceRegistered) /\
  refreshToken Demo.libraries Demo.config 3000 "garbage" Demo.aliceRegistered
  = (failure "Token refresh failed", Demo.aliceRegistered).
Proof.
  split.
  - apply (refreshToken_faults Demo.libraries Demo.config).
    apply (Conditions.SessionNotRefreshable _ _ _ _ _ "user-a" "session-a").
    + reflexivity.
    + intros s [<-|[]] _ _. reflexivity.
  - apply (refreshToken_faults Demo.libraries Demo.config).
    apply (Conditions.VerificationThrows _ _ _ _ _ JsonWebTokenError).
    reflexivity.
Defined.

(** C2 at a failing input: Alice and Bob both hold a reset token that
    has not expired, Alice is stored first.  Bob presents his own token
    and a strong new password; the lookup returns Alice, Bob's token does
    not match her hash, and the reset is refused with nothing written. *)
Theorem resetPassword_refuses_second_holder :
  let st := Demo.bothAskedReset in
  existsb (fun u =>
             (String.eqb (User.id u) "user-b" && resetPending 7000 u
              && match User.passwordResetToken u with
                 | Some h => bcrypt_compare Demo.libraries "raw-d" h
                 | None => false
                 end)%bool) (users st) = true /\
  PasswordService.isValid (PasswordService.validatePassword "N3w!Secret") = true /\
  resetPassword Demo.libraries 7000 (Demo.entropy "e") "raw-d" "N3w!Secret" st
  = (failure "Invalid or expired reset token", st) /\
  existsb (fun x => (String.eqb (Session.userId x) "user-b"
                     && Session.isActive x)%bool) (sessions st) = true.
Proof. vm_compute. repeat split; reflexivity. Qed.

Example resetPassword_first_holder_run :
  fst (resetPassword Demo.libraries 7000 (Demo.entropy "e") "raw-c" "N3w!Secret"
         Demo.bothAskedReset)
  = succeeded "Password reset successfully".
Proof. reflexivity. Qed.

(** C4 at a failing input: Alice registers with a password and logs
    in with it; the save of that login hashes the stored hash again, and
    the next login with the same password is refused. *)
Theorem second_login_refused :
  let first := login Demo.libraries Demo.config 3000 (Demo.entropy "l")
                 Demo.aliceLogin None None Demo.aliceRegistered in
  let second := login Demo.libraries Demo.config 4000 (Demo.entropy "m")
                  Demo.aliceLogin None None (snd first) in
  success (fst first) = true /\
  map User.password (users Demo.aliceRegistered)
  = [bcrypt_hash Demo.libraries "Passw0rd!" 12 "salt-a"] /\
  map User.password (users (snd first))
  = [bcrypt_hash Demo.libraries
       (bcrypt_hash Demo.libraries "Passw0rd!" 12 "salt-a") 12 "salt-l"] /\
  map (User.validatePassword Demo.libraries "Passw0rd!") (users (snd first))
  = [false] /\
  fst second = failure "Invalid email or password".
Proof. vm_compute. repeat split; reflexivity. Qed.

Example login_rehashes_password_run :
  exists u',
    find (Conditions.byEmail (login_email Demo.aliceLogin))
      (users (snd (login Demo.libraries Demo.config 3000 (Demo.entropy "l")
                     Demo.aliceLogin None None Demo.aliceRegistered)))
    = Some u' /\
    User.validatePassword Demo.libraries "Passw0rd!" u' = false.
Proof.
  pose proof (fun u =>
                login_rehashes_password Demo.libraries Demo.config 3000
                  (Demo.entropy "l") Demo.aliceLogin None None
                  Demo.aliceRegistered u 12 "salt-a" demo_ideal) as H.
  edestruct H as (u' & Hf & _ & Hw & _);
    [reflexivity | reflexivity | reflexivity |].
  exists u'. split; assumption.
Qed.

End AuthProps.


(* ================================================================== *)
(** * Bearer headers and the two kinds of token *)
(* ================================================================== *)

Module AccessTokenProps.
Import JS JWTAccess.

Lemma split_not_nil (sep : ascii) (s : string) : split sep s <> [].
Proof.
  destruct s as [|c r]; simpl; [discriminate|].
  destruct (Ascii.eqb c sep); [discriminate|].
  destruct (split sep r); discriminate.
Qed.

Lemma split_one (sep : ascii) (s b : string) :
  split sep s = [b] -> s = b /\ existsChar (Ascii.eqb sep) s = false.
Proof.
  revert b. induction s as [|c r IH]; intros b H; simpl in H.
  - injection H as <-. auto.
  - destruct (Ascii.eqb c sep) eqn:Hc.
    + injection H as _ H. now apply split_not_nil in H.
    + destruct (split sep r) as [|x xs] eqn:Hr; [now apply split_not_nil in Hr|].
      injection H as <- ->. destruct (IH x eq_refl) as [-> Hx].
      split; [reflexivity|]. cbn [existsChar].
      rewrite Ascii.eqb_sym, Hc. exact Hx.
Qed.

Lemma split_without_sep (sep : ascii) (s : string) :
  existsChar (Ascii.eqb sep) s = false -> split sep s = [s].
Proof.
  induction s as [|c r IH]; [reflexivity|].
  cbn [existsChar split]. intros H. apply Bool.orb_false_iff in H as [Hc Hr].
  rewrite Ascii.eqb_sym, Hc, (IH Hr). reflexivity.
Qed.

Lemma split_two (sep : ascii) (s a b : string) :
  split sep s = [a; b] ->
  s = a ++ String sep b /\
  existsChar (Ascii.eqb sep) a = false /\ existsChar (Ascii.eqb sep) b = false.
Proof.
  revert a. induction s as [|c r IH]; intros a H; simpl in H; [discriminate|].
  destruct (Ascii.eqb c sep) eqn:Hc.
  - injection H as <- H. apply Ascii.eqb_eq in Hc. subst c.
    destruct (split_one _ _ _ H) as [-> Hb]. auto.
  - destruct (split sep r) as [|x xs] eqn:Hr; [discriminate|].
    injection H as <- ->. destruct (IH x eq_refl) as (-> & Hx & Hb).
    repeat split; auto. cbn [existsChar]. rewrite Ascii.eqb_sym, Hc. exact Hx.
Qed.

Lemma split_app (sep : ascii) (a b : string) :
  existsChar (Ascii.eqb sep) a = false ->
  split sep (a ++ String sep b) = a :: split sep b.
Proof.
  induction a as [|c r IH]; cbn [existsChar append split]; intros H.
  - now rewrite Ascii.eqb_refl.
  - apply Bool.orb_false_iff in H as [Hc Hr].
    rewrite Ascii.eqb_sym, Hc, (IH Hr). reflexivity.
Qed.

(** X1: [extractTokenFromHeader] returns a token exactly for a header
    that is the word Bearer, one space, and a token without any space;
    the token it returns is that one (possibly empty), and every other
    header, and an absent one, gives null. *)
Theorem extractTokenFromHeader_bearer (header token : string) :
  (extractTokenFromHeader (Some header) = Some token <->
   header = "Bearer " ++ token /\ existsChar (Ascii.eqb " ") token = false) /\
  extractTokenFromHeader None = None.
Proof.
  split; [|reflexivity]. unfold extractTokenFromHeader. split.
  - destruct (truthy header); cbn [negb]; [|discriminate].
    destruct (split " " header) as [|a [|b [|c l]]] eqn:Hs; try discriminate.
    destruct (String.eqb_spec a "Bearer") as [->|]; [|discriminate].
    intros H. injection H as <-.
    destruct (split_two _ _ _ _ Hs) as (-> & _ & Hb). auto.
  - intros [-> Hb]. cbn [append truthy negb].
    change (String "B" (String "e" (String "a" (String "r" (String "e"
             (String "r" (String " " token)))))))
      with ("Bearer" ++ String " " token).
    rewrite split_app by reflexivity.
    rewrite (split_without_sep _ _ Hb). reflexivity.
Qed.

(** X2: a verified token is an access token or a refresh token, never
    both.  A payload as [generateAccessToken] signs it (the four claims,
    no discriminator) passes [verifyAccessToken] and is refused by
    [verifyRefreshToken] with INVALID_REFRESH_TOKEN; a payload as
    [generateRefreshToken] signs it (discriminator refresh, no email) is
    refused by [verifyAccessToken] with the plain error "Invalid token
    payload structure". *)
Theorem token_kinds_are_distinct (L : Libraries) (cfg : JwtConfig) (now : Z)
        (token : string) (payload : JWTPayload) :
  jwt_verify L token (JWT_SECRET cfg) now = Ok (DecodedObject payload) ->
  (p_type payload = None /\ hasAccessClaims payload = true) \/
  (p_type payload = Some "refresh" /\ p_email payload = None) ->
  match verifyAccessToken L cfg now token,
        JWTService.verifyRefreshToken L cfg now token with
  | Ok p, Throw e =>
      p = payload /\ p_type payload = None /\ e = JWTService.invalidRefresh
  | Throw e, _ => p_type payload = Some "refresh" /\ e = badStructure
  | Ok _, Ok _ => False
  end.
Proof.
  intros Hv Hshape.
  unfold verifyAccessToken, verifyAccessToken_try, JWTService.verifyRefreshToken,
    JWTService.verifyRefreshToken_try.
  rewrite Hv. cbn [bind].
  destruct Hshape as [[Hty Hclaims] | [Hty Hemail]].
  - rewrite Hclaims, Hty. cbn. auto.
  - assert (Hc : hasAccessClaims payload = false).
    { unfold hasAccessClaims. rewrite Hemail. cbn.
      now rewrite Bool.andb_false_r. }
    rewrite Hc. cbn. auto.
Qed.

Lemma token_kinds_are_distinct_witness :
  match verifyAccessToken Demo.libraries Demo.config 3000 "refresh.user-a.session-a",
        JWTService.verifyRefreshToken Demo.libraries Demo.config 3000
          "refresh.user-a.session-a" with
  | Ok p, Throw e => False
  | Throw e, Ok ids => e = badStructure /\ ids = ("user-a", "session-a")
  | _, _ => False
  end.
Proof.
  pose proof (token_kinds_are_distinct Demo.libraries Demo.config 3000
                "refresh.user-a.session-a"
                {| p_userId := Some "user-a"; p_email := None; p_role := None;
                   p_sessionId := Some "session-a"; p_type := Some "refresh" |}
                eq_refl (or_intror (conj eq_refl eq_refl))) as H.
  cbv in H |- *. destruct H as [_ H]. split; [exact H | reflexivity].
Defined.

End AccessTokenProps.

(* ================================================================== *)
(** * Revocation and extension of a session *)
(* ================================================================== *)

Module SessionLifeProps.
Import Session SessionOps.

(** X3: revocation is final.  A revoked session is invalid and cannot be
    refreshed at any time, [extend] leaves it as it is, and it records the
    time of the call, the actor (system when none is given) and the reason
    (Session revoked when none is given). *)
Theorem revoke_is_final (now t hours : Z) (reason by' : option string)
        (s : Session) :
  let r := revoke now reason by' s in
  isValid t r = false /\ canRefresh t r = false /\ extend t hours r = r /\
  isActive r = false /\ revokedAt r = Some now /\
  revokedBy r = Some (orDefault by' "system") /\
  revokedReason r = Some (orDefault reason "Session revoked") /\
  revoke now None None s = revoke now (Some EmptyString) (Some EmptyString) s.
Proof.
  cbv zeta. unfold extend, isValid, canRefresh. cbn. repeat split.
Qed.

(** X4: [extend] acts only on a session that is valid now; it then
    replaces the expiry by now plus the given hours, even when that is
    earlier than the expiry the session had, and the session is valid at
    exactly the times up to the new expiry.  A session that is not valid
    now is returned unchanged. *)
Theorem extend_replaces_expiry (now hours : Z) (s : Session) :
  if isValid now s
  then expiresAt (extend now hours s) = now + hours * 3600000 /\
       forall t, isValid t (extend now hours s) = (t <=? now + hours * 3600000)
  else extend now hours s = s.
Proof.
  unfold extend. destruct (isValid now s) eqn:Hv; [|reflexivity].
  unfold isValid in *. cbn.
  apply Bool.andb_true_iff in Hv as [Hv Hr].
  apply Bool.andb_true_iff in Hv as [Ha _].
  rewrite Ha, Hr. split; [lia|].
  intros t. unfold isExpired. cbn. rewrite Bool.andb_true_r.
  rewrite Z.gtb_ltb.
  destruct (Z.ltb_spec (now + hours * 60 * 60 * 1000) t),
           (Z.leb_spec t (now + hours * 3600000)); simpl; auto; lia.
Qed.

End SessionLifeProps.

(* ================================================================== *)
(** * Notes, terminal states and durations of an assignment *)
(* ================================================================== *)

Module AssignmentLifeProps.
Import JS CoachTraineeAssignment AssignmentOps.

Lemma startsWith_append (a b : string) : startsWith a (a ++ b) = true.
Proof.
  induction a as [|c r IH]; [destruct b; reflexivity|].
  cbn [append startsWith]. now rewrite Ascii.eqb_refl, IH.
Qed.

Lemma startsWith_nil (s : string) : startsWith EmptyString s = true.
Proof. destruct s; reflexivity. Qed.

Lemma appendNote_extends (n : option string) (entry : string) :
  startsWith (match n with Some x => x | None => EmptyString end)
    (match appendNote n entry with Some x => x | None => EmptyString end) = true.
Proof.
  unfold appendNote. destruct n as [[|c r]|]; cbn [truthy_opt truthy];
    try apply startsWith_nil.
  apply startsWith_append.
Qed.

Lemma startsWith_refl (s : string) : startsWith s s = true.
Proof. induction s; cbn; [reflexivity | now rewrite Ascii.eqb_refl]. Qed.

Lemma noteIfReason_extends (n : option string) (tag : string)
      (reason : option string) :
  startsWith (match n with Some x => x | None => EmptyString end)
    (match noteIfReason n tag reason with Some x => x | None => EmptyString end)
  = true.
Proof.
  unfold noteIfReason. destruct reason as [r|]; [|apply startsWith_refl].
  destruct (truthy r); [apply appendNote_extends | apply startsWith_refl].
Qed.

(** X6: the notes are append-only.  After a transition that succeeds,
    and after [addNote], the text of the notes begins with the text they
    held before. *)
Theorem notes_are_append_only (now : Z) (act : Action) (timestamp note : string)
        (author : option string) (a : Assignment) :
  match perform now act a with
  | Ok a' => startsWith (notesText a) (notesText a') = true
  | Throw _ => True
  end /\
  startsWith (notesText a) (notesText (addNote timestamp note author a)) = true.
Proof.
  unfold notesText. split.
  - destruct act; cbn [perform];
      unfold pause, resume, complete, terminate;
      match goal with |- context [if ?b then _ else _] => destruct b end;
      cbn [notes]; auto using noteIfReason_extends, appendNote_extends.
  - unfold addNote, set_notes. cbn [notes]. apply appendNote_extends.
Qed.

(** X7: an ended assignment is never active again.  From completed or
    terminated, whatever transitions are requested afterwards, the status
    stays completed or terminated; a terminated assignment does not change
    at all, and the only transition that a completed one accepts is
    terminate. *)
Theorem ended_is_never_reactivated (acts : list (Z * Action)) (a : Assignment) :
  status a = COMPLETED \/ status a = TERMINATED ->
  let a' := performAll acts a in
  (status a' = COMPLETED \/ status a' = TERMINATED) /\
  (status a = TERMINATED -> a' = a) /\
  (forall now act a1, status a = COMPLETED -> perform now act a = Ok a1 ->
                      exists r b, act = Terminate r b /\ status a1 = TERMINATED).
Proof.
  intros Hs. cbv zeta. split; [|split].
  - revert a Hs. induction acts as [|[now act] rest IH]; intros a Hs; [exact Hs|].
    cbn [performAll].
    destruct (perform now act a) as [a1|e] eqn:Hp; [|auto].
    apply IH.
    destruct act; cbn [perform] in Hp;
      unfold pause, resume, complete, terminate in Hp;
      destruct Hs as [Hs|Hs]; rewrite Hs in Hp; cbn in Hp;
      try discriminate; injection Hp as <-; cbn; auto.
  - intros Ht. induction acts as [|[now act] rest IH]; [reflexivity|].
    cbn [performAll].
    assert (Hp : exists e, perform now act a = Throw e).
    { destruct act; cbn [perform]; unfold pause, resume, complete, terminate;
        rewrite Ht; cbn; eauto. }
    destruct Hp as [e ->]. exact IH.
  - intros now act a1 Hc Hp.
    destruct act; cbn [perform] in Hp;
      unfold pause, resume, complete, terminate in Hp;
      rewrite Hc in Hp; cbn in Hp; try discriminate.
    injection Hp as <-. eauto.
Qed.

Lemma ended_is_never_reactivated_witness :
  status (performAll DemoAccess.laterRequests DemoAccess.endedSample) = TERMINATED.
Proof.
  destruct (ended_is_never_reactivated DemoAccess.laterRequests
              DemoAccess.endedSample (or_introl eq_refl)) as ([H|H] & _ & _);
    [vm_compute in H; discriminate | exact H].
Defined.

(** X8: the duration is null while the assignment has not ended; once
    it has ended the days active no longer depend on the current time and
    equal the duration; and a complete or a terminate at [now] fixes both
    at the whole days from the assignment to [now]. *)
Theorem duration_is_fixed_at_the_end (now t : Z) (reason : string)
        (why by' : option string) (a : Assignment) :
  (duration a = None <-> endedAt a = None) /\
  daysActive t a =
    match duration a with
    | Some d => d
    | None => (t - assignedAt a) / 86400000
    end /\
  match terminate now reason by' a with
  | Ok a' => duration a' = Some ((now - assignedAt a) / 86400000) /\
             daysActive t a' = (now - assignedAt a) / 86400000
  | Throw _ => True
  end /\
  match complete now why by' a with
  | Ok a' => duration a' = Some ((now - assignedAt a) / 86400000) /\
             daysActive t a' = (now - assignedAt a) / 86400000
  | Throw _ => True
  end.
Proof.
  unfold duration, daysActive, terminate, complete.
  change dayMs with 86400000.
  repeat split.
  - destruct (endedAt a); [discriminate | reflexivity].
  - destruct (endedAt a); [discriminate | reflexivity].
  - destruct (endedAt a); reflexivity.
  - destruct (status_eqb (status a) TERMINATED); cbn; auto.
  - destruct (negb _); cbn; auto.
Qed.

(** X29: the flag follows the status.  Every transition that succeeds
    leaves [isActive] true exactly when the status is active, so an
    assignment that starts with the two in step keeps them in step through
    any sequence of requests; and from active, a pause followed by a resume
    succeeds and gives an active assignment that remembers both times. *)
Theorem flag_follows_status (acts : list (Z * Action)) (a : Assignment)
        (now now' : Z) (reason reason' by' : option string) :
  isActive a = status_eqb (status a) ACTIVE ->
  isActive (performAll acts a) = status_eqb (status (performAll acts a)) ACTIVE /\
  (status a = ACTIVE ->
   exists a1 a2,
     pause now reason by' a = Ok a1 /\ resume now' reason' a1 = Ok a2 /\
     status a2 = ACTIVE /\ isActive a2 = true /\
     pausedAt a2 = Some now /\ resumedAt a2 = Some now').
Proof.
  intros Hflag. split.
  - revert a Hflag. induction acts as [|[t act] rest IH]; intros a Hflag;
      [exact Hflag|].
    cbn [performAll].
    destruct (perform t act a) as [a1|e] eqn:Hp; [|auto].
    apply IH.
    destruct act; cbn [perform] in Hp;
      unfold pause, resume, complete, terminate in Hp;
      match type of Hp with
      | (if ?b then _ else _) = _ => destruct b; [discriminate|]
      | _ => idtac
      end;
      injection Hp as <-; reflexivity.
  - intros Hs. unfold pause, resume. rewrite Hs. cbn.
    eexists _, _. repeat split.
Qed.

Lemma flag_follows_status_witness :
  isActive (performAll DemoAccess.laterRequests DemoAccess.endedSample) = false.
Proof.
  destruct (flag_follows_status DemoAccess.laterRequests DemoAccess.endedSample
              0 0 None None None eq_refl) as [H _].
  rewrite H. reflexivity.
Defined.

End AssignmentLifeProps.

(* ================================================================== *)
(** * The deny-lists of the credential service *)
(* ================================================================== *)

Module PasswordListProps.
Import JS PasswordService PasswordLists.

Lemma isValid_characterised (password : string) :
  isValid (validatePassword password) =
  (Nat.leb 8 (String.length password) && Nat.leb (String.length password) 128
   && existsChar isUpperAZ password && existsChar isLowerAZ password
   && existsChar isDigit password && existsChar isSpecial password
   && negb (sequentialPattern (toLowerCase password)))%bool.
Proof.
  destruct password as [|c r]; [reflexivity|].
  rewrite PasswordProps.isValid_nonempty. cbv zeta.
  set (p := String c r).
  assert (Hs : negb (Nat.ltb (String.length p) 8) = Nat.leb 8 (String.length p)).
  { destruct (Nat.ltb_spec (String.length p) 8), (Nat.leb_spec 8 (String.length p));
      simpl; auto; lia. }
  assert (Hl : negb (Nat.ltb 128 (String.length p)) = Nat.leb (String.length p) 128).
  { destruct (Nat.ltb_spec 128 (String.length p)),
      (Nat.leb_spec (String.length p) 128); simpl; auto; lia. }
  rewrite Hs, Hl.
  destruct (existsChar isSpecial p) eqn:Hsp.
  - rewrite (PasswordProps.special_not_common _ Hsp). cbn [negb].
    now rewrite Bool.andb_true_r.
  - rewrite !Bool.andb_false_r. reflexivity.
Qed.

(** X9: the validator accepts a password exactly when it has 8 to 128
    characters, an uppercase letter, a lowercase letter, a digit and a
    special character, and contains none of the sequential runs.  The
    deny-list of common passwords adds nothing to that: no password with a
    special character is on it. *)
Theorem validatePassword_accepts_iff (password : string) :
  isValid (validatePassword password) =
  (Nat.leb 8 (String.length password) && Nat.leb (String.length password) 128
   && existsChar isUpperAZ password && existsChar isLowerAZ password
   && existsChar isDigit password && existsChar isSpecial password
   && negb (sequentialPattern (toLowerCase password)))%bool.
Proof. apply isValid_characterised. Qed.

(** X10: the error "too common" never comes alone: a password that is
    on the deny-list is also reported as lacking a special character. *)
Theorem too_common_lacks_special (password : string) :
  In msg_common (errors (validatePassword password)) ->
  In msg_special (errors (validatePassword password)).
Proof.
  destruct password as [|c r]; [simpl; intros [H|[]]; discriminate H|].
  rewrite PasswordProps.validatePassword_nonempty.
  unfold Rules.violatedRules, Rules.rules. cbn [filter map fst snd].
  set (p := String c r).
  destruct (existsChar isSpecial p) eqn:Hsp.
  - rewrite (PasswordProps.special_not_common _ Hsp). cbn [negb].
    destruct (Nat.ltb (String.length p) 8), (Nat.ltb 128 (String.length p)),
      (existsChar isUpperAZ p), (existsChar isLowerAZ p), (existsChar isDigit p),
      (sequentialPattern (toLowerCase p));
      intros Hin; vm_compute in Hin;
      repeat (destruct Hin as [Hin|Hin]; [discriminate Hin|]); destruct Hin.
  - intros _. cbn [negb].
    destruct (Nat.ltb (String.length p) 8), (Nat.ltb 128 (String.length p)),
      (existsChar isUpperAZ p), (existsChar isLowerAZ p), (existsChar isDigit p),
      (arrayIncludes commonPasswords (toLowerCase p)),
      (sequentialPattern (toLowerCase p)); simpl; tauto.
Qed.

Lemma too_common_lacks_special_witness :
  In msg_special (errors (validatePassword "Password1")).
Proof.
  apply too_common_lacks_special. vm_compute. tauto.
Defined.

(** X11: the two deny-lists agree with the validator: a password that
    the validator reports as too common is reported compromised, and a
    password that the validator accepts is never reported compromised. *)
Theorem compromised_list_is_consistent (password : string) :
  implb (arrayIncludes commonPasswords (toLowerCase password))
        (isPasswordCompromised password) = true /\
  implb (isValid (validatePassword password))
        (negb (isPasswordCompromised password)) = true.
Proof.
  unfold isPasswordCompromised. split.
  - destruct (arrayIncludes commonPasswords (toLowerCase password)) eqn:H;
      [|reflexivity].
    cbn [implb]. unfold arrayIncludes in *.
    apply existsb_exists in H as (x & Hx & Heq).
    apply existsb_exists. exists x. split; [|exact Heq].
    unfold commonPasswords in Hx. unfold commonCompromisedPasswords.
    simpl in Hx |- *. tauto.
  - rewrite isValid_characterised.
    destruct (existsChar isSpecial password) eqn:Hsp;
      [|now rewrite !Bool.andb_false_r].
    assert (Hno : arrayIncludes commonCompromisedPasswords (toLowerCase password)
                  = false).
    { rewrite <- PasswordProps.existsChar_special_lower in Hsp.
      unfold arrayIncludes. apply Bool.not_true_is_false. intros Hin.
      apply existsb_exists in Hin as (x & Hx & Heq).
      apply String.eqb_eq in Heq. rewrite Heq in Hsp.
      unfold commonCompromisedPasswords in Hx. simpl in Hx.
      repeat (destruct Hx as [<- | Hx]; [vm_compute in Hsp; discriminate|]).
      exact Hx. }
    rewrite Hno. cbn [negb]. apply Bool.implb_true_r.
Qed.

End PasswordListProps.

(* ================================================================== *)
(** * Sessions under the auth orchestrator *)
(* ================================================================== *)

Module AuthSessionProps.
Import JS AuthService AuthSessions.

Section WithLibraries.
Variable L : Libraries.
Variable cfg : JwtConfig.

(** X12: [refreshToken] never writes: whatever the token and the
    outcome, the users and the sessions are as they were; in particular
    a refresh does not move [expiresAt], so a session that has expired
    stays expired. *)
Theorem refreshToken_never_writes (now : Z) (token : string) (st : Store) :
  snd (refreshToken L cfg now token st) = st.
Proof.
  unfold refreshToken, tryCatch, refreshToken_body, bindM, lift,
    findOneUser, findOneSession.
  destruct (JWTService.verifyRefreshToken L cfg now token) as [[uid sid]|e];
    [|reflexivity].
  destruct (find _ (users st)) as [u|]; [|reflexivity].
  destruct (find _ (sessions st)) as [s|]; [|reflexivity].
  destruct (Session.canRefresh now s); [|reflexivity].
  cbn [negb]. unfold generateTokens, bindM, lift, ret.
  destruct (JWTService.generateAccessToken _ _ _ _ _ _ _); [|reflexivity].
  destruct (JWTService.generateRefreshToken _ _ _ _ _); reflexivity.
Qed.

(** X13: a refresh succeeds only for a token that verifies as a refresh
    token, whose user is stored and active, and whose session is stored
    for that user, active and refreshable now; the new pair of tokens is
    issued for that same session. *)
Theorem refreshToken_success_is_sound (now : Z) (token : string) (st : Store) :
  success (fst (refreshToken L cfg now token st)) = true ->
  exists uid sid u s a r,
    JWTService.verifyRefreshToken L cfg now token = Ok (uid, sid) /\
    In u (users st) /\ User.id u = uid /\ User.isActive u = true /\
    In s (sessions st) /\ Session.id s = sid /\ Session.userId s = uid /\
    Session.canRefresh now s = true /\
    JWTService.generateAccessToken L cfg now uid (User.email u)
      (User.roleName (User.role u)) sid = Ok a /\
    JWTService.generateRefreshToken L cfg now uid sid = Ok r /\
    fst (refreshToken L cfg now token st) =
      withUser "Token refreshed successfully" u
        {| t_accessToken := a; t_refreshToken := r;
           t_expiresIn :=
             JWTService.getAccessTokenExpirationTime (Some (JWT_EXPIRES_IN cfg)) |}.
Proof.
  unfold refreshToken, tryCatch, refreshToken_body, bindM, lift,
    findOneUser, findOneSession.
  destruct (JWTService.verifyRefreshToken L cfg now token) as [[uid sid]|e];
    [|discriminate].
  destruct (find _ (users st)) as [u|] eqn:Hu; [|discriminate].
  destruct (find _ (sessions st)) as [s|] eqn:Hs; [|discriminate].
  destruct (Session.canRefresh now s) eqn:Hc; [|discriminate].
  cbn [negb]. unfold generateTokens, bindM, lift, ret.
  apply find_some in Hu as [Hu Hup]. apply find_some in Hs as [Hs Hsp].
  apply Bool.andb_true_iff in Hup as [Hid Hact]. apply String.eqb_eq in Hid.
  apply Bool.andb_true_iff in Hsp as [Hsp _].
  apply Bool.andb_true_iff in Hsp as [Hsid Hsuid].
  apply String.eqb_eq in Hsid, Hsuid.
  rewrite Hid, Hsid.
  destruct (JWTService.generateAccessToken _ _ _ _ _ _ _) as [a|] eqn:Ha;
    [|discriminate].
  destruct (JWTService.generateRefreshToken _ _ _ _ _) as [r|] eqn:Hr;
    [|discriminate].
  intros _. exists uid, sid, u, s, a, r. cbn [fst]. repeat split; auto.
Qed.

Lemma logout_spec (now : Z) (sessionId : string) (st : Store) :
  let '(response, st') := logout now sessionId st in
  response = succeeded "Logged out successfully" /\
  users st' = users st /\
  (forall x, In x (sessions st') -> Session.id x = sessionId ->
             Session.isActive x = false /\
             Session.revokedReason x = Some "User logout" /\
             Session.revokedBy x = Some "system" /\
             Session.revokedAt x = Some now) /\
  (forall x, In x (sessions st') -> Session.id x <> sessionId ->
             In x (sessions st)) /\
  (forall x, In x (sessions st) -> Session.id x <> sessionId ->
             In x (sessions st')) /\
  ((forall x, In x (sessions st) -> Session.id x <> sessionId) -> st' = st).
Proof.
  unfold logout, tryCatch, logout_body, bindM, findOneSession, updateSession, ret.
  destruct (find _ (sessions st)) as [s0|] eqn:Hfind.
  - apply find_some in Hfind as [Hin Hid]. apply String.eqb_eq in Hid.
    cbn [users sessions].
    change (Session.id (Session.revoke now (Some "User logout") None s0))
      with (Session.id s0). rewrite Hid.
    split; [reflexivity|]. split; [reflexivity|].
    split; [|split; [|split]].
    + intros x Hx Hx'. apply in_map_iff in Hx as (y & Hy & _).
      destruct (String.eqb_spec (Session.id y) sessionId); subst x;
        [repeat split | contradiction].
    + intros x Hx Hne. apply in_map_iff in Hx as (y & Hy & Hyin).
      destruct (String.eqb_spec (Session.id y) sessionId); subst x;
        [now cbn in Hne | exact Hyin].
    + intros x Hx Hne. apply in_map_iff. exists x. split; [|exact Hx].
      destruct (String.eqb_spec (Session.id x) sessionId);
        [contradiction | reflexivity].
    + intros Hnone. exfalso. exact (Hnone s0 Hin Hid).
  - assert (Hno : forall x, In x (sessions st) -> Session.id x <> sessionId).
    { intros x Hx Hid. pose proof (find_none _ _ Hfind x Hx) as Hno.
      cbv beta in Hno. rewrite Hid, String.eqb_refl in Hno. discriminate. }
    split; [reflexivity|]. split; [reflexivity|].
    split; [|split; [|split]]; auto.
    intros x Hx Hid. exfalso. exact (Hno x Hx Hid).
Qed.

(** X14: as long as the storage answers, [logout] answers success
    whether or not the session exists.  No row is added or deleted; a
    session with the given id stays in the store, as the revoked form of
    the row that the lookup found (inactive, revoked now, with the reason
    "User logout" and the actor system), whoever owns it and even if it
    was revoked before; every other session and every user is left as it
    was, and when no session has that id nothing is written. *)
Theorem logout_revokes_by_id (now : Z) (sessionId : string) (st : Store) :
  let '(response, st') := logout now sessionId st in
  response = succeeded "Logged out successfully" /\
  users st' = users st /\
  List.length (sessions st') = List.length (sessions st) /\
  (forall x, In x (sessions st') -> Session.id x = sessionId ->
             Session.isActive x = false /\
             Session.revokedReason x = Some "User logout" /\
             Session.revokedBy x = Some "system" /\
             Session.revokedAt x = Some now /\
             exists y, In y (sessions st) /\ Session.id y = sessionId /\
                       x = Session.revoke now (Some "User logout") None y) /\
  (forall y, In y (sessions st) -> Session.id y = sessionId ->
             exists x, In x (sessions st') /\ Session.id x = sessionId) /\
  (forall x, Session.id x <> sessionId ->
             (In x (sessions st') <-> In x (sessions st))) /\
  ((forall x, In x (sessions st) -> Session.id x <> sessionId) -> st' = st).
Proof.
  unfold logout, tryCatch, logout_body, bindM, findOneSession, updateSession, ret.
  destruct (find _ (sessions st)) as [s0|] eqn:Hfind.
  - apply find_some in Hfind as [Hin Hid]. apply String.eqb_eq in Hid.
    cbn [users sessions].
    change (Session.id (Session.revoke now (Some "User logout") None s0))
      with (Session.id s0). rewrite Hid.
    split; [reflexivity|]. split; [reflexivity|].
    split; [apply length_map|].
    split; [|split; [|split]].
    + intros x Hx Hx'. apply in_map_iff in Hx as (y & Hy & _).
      destruct (String.eqb_spec (Session.id y) sessionId); subst x;
        [|contradiction].
      split; [reflexivity|]. split; [reflexivity|]. split; [reflexivity|].
      split; [reflexivity|]. exists s0. auto.
    + intros y Hy Hyid.
      exists (Session.revoke now (Some "User logout") None s0). split; [|exact Hid].
      apply in_map_iff. exists y. split; [|exact Hy].
      now rewrite Hyid, String.eqb_refl.
    + intros x Hne. split.
      * intros Hx. apply in_map_iff in Hx as (y & Hy & Hyin).
        destruct (String.eqb_spec (Session.id y) sessionId); subst x;
          [now cbn in Hne | exact Hyin].
      * intros Hx. apply in_map_iff. exists x. split; [|exact Hx].
        destruct (String.eqb_spec (Session.id x) sessionId);
          [contradiction | reflexivity].
    + intros Hnone. exfalso. exact (Hnone s0 Hin Hid).
  - assert (Hno : forall x, In x (sessions st) -> Session.id x <> sessionId).
    { intros x Hx Hid. pose proof (find_none _ _ Hfind x Hx) as Hno.
      cbv beta in Hno. rewrite Hid, String.eqb_refl in Hno. discriminate. }
    split; [reflexivity|]. split; [reflexivity|]. split; [reflexivity|].
    split; [|split; [|split]].
    + intros x Hx Hid. exfalso. exact (Hno x Hx Hid).
    + intros y Hy Hid. exfalso. exact (Hno y Hy Hid).
    + intros x _. reflexivity.
    + reflexivity.
Qed.

(** The bulk revocation leaves no session of the user active, keeps
    every other row, and finds nothing to do when it is run again. *)
Lemma revokeActiveSessions_spec (now : Z) (uid reason by' : string) (st : Store) :
  let st' := snd (revokeActiveSessions now uid reason by' st) in
  users st' = users st /\
  (forall x, In x (sessions st') -> Session.userId x = uid ->
             Session.isActive x = false) /\
  (forall x, In x (sessions st) ->
             Session.userId x <> uid \/ Session.isActive x = false ->
             In x (sessions st')) /\
  (forall x, In x (sessions st') -> Session.userId x <> uid -> In x (sessions st)) /\
  (forall now' reason' by'', snd (revokeActiveSessions now' uid reason' by'' st') = st').
Proof.
  cbv zeta. unfold revokeActiveSessions. cbn [snd users sessions].
  split; [reflexivity|]. split; [|split; [|split]].
  - intros x Hx Hu. apply in_map_iff in Hx as (y & Hy & _).
    destruct (String.eqb_spec (Session.userId y) uid) as [Hy'|Hy'];
      cbn [andb] in Hy.
    + destruct (Session.isActive y) eqn:Ha; subst x; [reflexivity | exact Ha].
    + subst x. contradiction.
  - intros x Hx Hcond. apply in_map_iff. exists x. split; [|exact Hx].
    destruct Hcond as [Hne|Hin].
    + destruct (String.eqb_spec (Session.userId x) uid); [contradiction|reflexivity].
    + rewrite Hin, Bool.andb_false_r. reflexivity.
  - intros x Hx Hne. apply in_map_iff in Hx as (y & Hy & Hyin).
    destruct (String.eqb_spec (Session.userId y) uid) as [Hy'|Hy'];
      cbn [andb] in Hy.
    + destruct (Session.isActive y); subst x; [now cbn in Hne | exact Hyin].
    + subst x. exact Hyin.
  - intros now' reason' by''. f_equal. rewrite map_map. apply map_ext.
    intros y.
    destruct (String.eqb_spec (Session.userId y) uid) as [Hy'|Hy'];
      cbn [andb].
    + destruct (Session.isActive y) eqn:Ha; cbn.
      * now rewrite Bool.andb_false_r.
      * now rewrite Ha, Bool.andb_false_r.
    + destruct (String.eqb_spec (Session.userId y) uid); [contradiction|reflexivity].
Qed.

(** X15: as long as the storage answers, [logoutAll] answers success;
    afterwards no session of
    the user is active, the sessions of other users and the sessions that
    were already inactive are untouched (their revocation data is not
    overwritten), the users are untouched, and a second call changes
    nothing. *)
Theorem logoutAll_revokes_every_active_session (now : Z) (userId : string)
        (st : Store) :
  let '(response, st') := logoutAll now userId st in
  response = succeeded "All sessions logged out successfully" /\
  users st' = users st /\
  (forall x, In x (sessions st') -> Session.userId x = userId ->
             Session.isActive x = false) /\
  (forall x, In x (sessions st) ->
             Session.userId x <> userId \/ Session.isActive x = false ->
             In x (sessions st')) /\
  (forall now', logoutAll now' userId st' = (response, st')).
Proof.
  pose proof (revokeActiveSessions_spec now userId "User logout all sessions"
                "user" st) as (Hu & Hoff & Hkeep & _ & Hidem).
  unfold logoutAll, tryCatch, logoutAll_body, bindM, ret.
  destruct (revokeActiveSessions now userId "User logout all sessions" "user" st)
    as [[[]|e] st'] eqn:Hr; [|discriminate Hr].
  cbn [snd] in *. repeat split; auto.
  intros now'.
  specialize (Hidem now' "User logout all sessions" "user").
  destruct (revokeActiveSessions now' userId "User logout all sessions" "user" st')
    as [[[]|e] st''] eqn:Hr'; [|discriminate Hr'].
  cbn [snd] in Hidem. now subst st''.
Qed.

(** X16: a change of password, a reset or an email verification that
    does not succeed writes nothing at all. *)
Theorem failed_credential_operations_write_nothing
        (now : Z) (rnd : Entropy) (userId current new token : string) (st : Store) :
  (success (fst (changePassword L now rnd userId current new st)) = true \/
   snd (changePassword L now rnd userId current new st) = st) /\
  (success (fst (resetPassword L now rnd token new st)) = true \/
   snd (resetPassword L now rnd token new st) = st) /\
  (success (fst (verifyEmail L now rnd token st)) = true \/
   snd (verifyEmail L now rnd token st) = st).
Proof.
  split; [|split].
  - unfold changePassword, tryCatch, changePassword_body, bindM, findOneUser.
    destruct (find _ (users st)) as [u|]; [|now right].
    destruct (User.validatePassword L current u); [|now right].
    destruct (PasswordService.isValid _); [|now right].
    now left.
  - unfold resetPassword, tryCatch, resetPassword_body.
    destruct (PasswordService.isValid _); [|now right].
    cbn [negb]. unfold bindM, findOneUser.
    destruct (find _ (users st)) as [u|]; [|now right].
    destruct (User.passwordResetToken u) as [h|]; [|now right].
    destruct (truthy h); [|now right].
    destruct (bcrypt_compare L token h); [|now right].
    now left.
  - unfold verifyEmail, tryCatch, verifyEmail_body, bindM, findOneUser.
    destruct (find _ (users st)) as [u|]; [|now right].
    destruct (User.emailVerificationToken u) as [h|]; [|now right].
    destruct (truthy h); [|now right].
    destruct (bcrypt_compare L token h); [|now right].
    now left.
Qed.


(** What a login that succeeds did, in full. *)
Lemma login_success_facts (now : Z) (rnd : Entropy)
      (data : LoginRequest) (ip ua : option string) (st : Store) :
  success (fst (login L cfg now rnd data ip ua st)) = true ->
  exists u s tk,
    let u' := User.beforeSave L (e_passwordSalt rnd)
                (User.set_lastLoginAt (Some now) u) in
    find (Conditions.byEmail (login_email data)) (users st) = Some u /\
    User.isActive u = true /\
    User.validatePassword L (login_password data) u = true /\
    login L cfg now rnd data ip ua st
    = (withUser "Login successful" u' tk,
       {| users := replaced (savedRow st u') (users st);
          sessions := (sessions st ++ [s])%list |}) /\
    Session.id s = e_sessionId rnd /\ Session.userId s = User.id u /\
    Session.isActive s = true /\ Session.revokedAt s = None /\
    Session.expiresAt s
    = now + (if rememberMe data then 168 else 24) * 3600000 /\
    Session.refreshTokenExpiresAt s = Some (now + 604800000) /\
    (forall x, In x (sessions st) -> Session.id x <> e_sessionId rnd).
Proof.
  unfold login, tryCatch, login_body, bindM, findOneUser, Conditions.byEmail.
  destruct (find _ (users st)) as [u|] eqn:Hfind; [|discriminate].
  destruct (User.isActive u) eqn:Hact; [|discriminate].
  destruct (User.validatePassword L (login_password data) u) eqn:Hpw; [|discriminate].
  cbn [negb].
  pose proof (AuthProps.updateUser_users L rnd
                (User.set_lastLoginAt (Some now) u) st) as Hup.
  cbv zeta in Hup.
  set (u' := User.beforeSave L (e_passwordSalt rnd)
               (User.set_lastLoginAt (Some now) u)) in *.
  assert (Hret : fst (updateUser L rnd (User.set_lastLoginAt (Some now) u) st)
                 = Ok u') by reflexivity.
  destruct (updateUser L rnd (User.set_lastLoginAt (Some now) u) st)
    as [[saved|e] st1]; [|discriminate Hret].
  cbn [fst snd] in Hret, Hup. injection Hret as ->. subst st1.
  unfold createSession. cbn [users sessions].
  assert (Hid : User.id u' = User.id u).
  { apply (AuthProps.beforeSave_keeps L (e_passwordSalt rnd)
             (User.set_lastLoginAt (Some now) u)). }
  match goal with |- context [existsb ?f ?l] => destruct (existsb f l) eqn:Hex end;
    [discriminate|].
  unfold generateTokens, bindM, lift, ret.
  destruct (JWTService.generateAccessToken _ _ _ _ _ _ _); [|discriminate].
  destruct (JWTService.generateRefreshToken _ _ _ _ _); [|discriminate].
  intros _. eexists u, _, _. cbv zeta. fold u'.
  split; [reflexivity|]. split; [exact Hact|]. split; [exact Hpw|].
  split; [reflexivity|].
  cbn [Session.id Session.userId Session.isActive Session.revokedAt
       Session.expiresAt Session.refreshTokenExpiresAt].
  repeat split; auto.
  - destruct (rememberMe data); lia.
  - intros x Hx Heq.
    apply Bool.not_true_iff_false in Hex. apply Hex.
    apply existsb_exists. exists x. split; [exact Hx|].
    cbn [sessions Session.id]. rewrite Heq, String.eqb_refl. reflexivity.
Qed.

(** X5: a login that succeeds found an active user whose password
    verified; it stamps the time of the login on the user and adds one
    session for that user, which is valid at exactly the times up to now
    plus 24 hours, or plus 7 days with rememberMe, and refreshable at
    exactly the times up to now plus 7 days. *)
Theorem login_success_creates_session (now : Z) (rnd : Entropy)
        (data : LoginRequest) (ip ua : option string) (st : Store) :
  success (fst (login L cfg now rnd data ip ua st)) = true ->
  let '(response, st') := login L cfg now rnd data ip ua st in
  exists u u' s,
    In u (users st) /\ User.email u = normalized (login_email data) /\
    User.isActive u = true /\
    User.validatePassword L (login_password data) u = true /\
    In u' (users st') /\ User.id u' = User.id u /\
    User.lastLoginAt u' = Some now /\
    sessions st' = (sessions st ++ [s])%list /\
    Session.id s = e_sessionId rnd /\ Session.userId s = User.id u /\
    Session.expiresAt s
    = now + (if rememberMe data then 168 else 24) * 3600000 /\
    (forall t, Session.isValid t s = (t <=? Session.expiresAt s)) /\
    (forall t, Session.canRefresh t s = (t <=? now + 604800000)) /\
    message response = Some "Login successful".
Proof.
  intros Hok.
  destruct (login_success_facts now rnd data ip ua st Hok)
    as (u & s & tk & Hfind & Hact & Hpw & -> & Hsid & Hsu & Hsa & Hsr & Hexp
        & Href & _).
  apply find_some in Hfind as [Hin Hemail].
  unfold Conditions.byEmail in Hemail. apply String.eqb_eq in Hemail.
  set (u' := User.beforeSave L (e_passwordSalt rnd)
               (User.set_lastLoginAt (Some now) u)).
  assert (Hid : User.id u' = User.id u).
  { apply (AuthProps.beforeSave_keeps L (e_passwordSalt rnd)
             (User.set_lastLoginAt (Some now) u)). }
  assert (Hlast : User.lastLoginAt u' = Some now).
  { unfold u', User.beforeSave, User.normalizeEmail, User.hashPassword.
    destruct (truthy (User.password (User.set_lastLoginAt (Some now) u))); cbn;
      destruct (truthy (User.email u)); reflexivity. }
  destruct (AuthProps.savedRow_keeps st u')
    as (Wid & _ & _ & _ & _ & _ & _ & _ & _ & Wlast & _).
  exists u, (savedRow st u'), s. cbn [users sessions message withUser].
  split; [exact Hin|]. split; [exact Hemail|]. split; [exact Hact|].
  split; [exact Hpw|]. split.
  { unfold replaced. apply in_map_iff. exists u. split; [|exact Hin].
    rewrite Wid, Hid, String.eqb_refl. reflexivity. }
  split; [congruence|]. split; [exact (Wlast _ Hlast)|].
  split; [reflexivity|]. split; [exact Hsid|]. split; [exact Hsu|].
  split; [exact Hexp|]. split; [|split; [|reflexivity]].
  - intros t. unfold Session.isValid, Session.isExpired.
    rewrite Hsa, Hsr. cbn. rewrite Bool.andb_true_r, Z.gtb_ltb.
    destruct (Z.ltb_spec (Session.expiresAt s) t),
             (Z.leb_spec t (Session.expiresAt s)); simpl; auto; lia.
  - intros t. unfold Session.canRefresh, Session.isRefreshTokenExpired.
    rewrite Hsa, Hsr, Href. cbn. rewrite Bool.andb_true_r, Z.gtb_ltb.
    destruct (Z.ltb_spec (now + 604800000) t),
             (Z.leb_spec t (now + 604800000)); simpl; auto; lia.
Qed.

End WithLibraries.

End AuthSessionProps.

(* ================================================================== *)
(** * Registration, password reset and email verification *)
(* ================================================================== *)

Module AuthCredentialProps.
Import JS AuthService AuthSessions.

Section WithLibraries.
Variable L : Libraries.
Variable cfg : JwtConfig.


(** After a save the key of the saved row is held by that row only. *)
Lemma replaced_key (w : User.User) (l : list User.User) (x : User.User) :
  In x (replaced w l) -> User.id x = User.id w -> x = w.
Proof.
  unfold replaced. intros Hx Hid. apply in_map_iff in Hx as (y & Hy & _).
  destruct (String.eqb_spec (User.id y) (User.id w)) as [Heq|Hne];
    [now subst x | subst x; contradiction].
Qed.

(** A save leaves the rows under other keys as they were. *)
Lemma replaced_others (w : User.User) (l : list User.User) (x : User.User) :
  User.id x <> User.id w -> (In x (replaced w l) <-> In x l).
Proof.
  unfold replaced. intros Hne. split.
  - intros Hx. apply in_map_iff in Hx as (y & Hy & Hyin).
    destruct (String.eqb_spec (User.id y) (User.id w));
      subst x; [contradiction | exact Hyin].
  - intros Hx. apply in_map_iff. exists x. split; [|exact Hx].
    destruct (String.eqb_spec (User.id x) (User.id w));
      [contradiction | reflexivity].
Qed.

(** The store after a [forgotPassword] for the email of a stored user. *)
Lemma forgotPassword_store (now : Z) (rnd : Entropy) (email : string)
      (st : Store) (u : User.User) :
  find (Conditions.byEmail email) (users st) = Some u ->
  let u' := User.beforeSave L (e_passwordSalt rnd)
              (User.set_passwordReset
                 (Some (bcrypt_hash L (e_rawToken rnd) 10 (e_tokenSalt rnd)))
                 (Some (now + 3600000)) u) in
  snd (forgotPassword L now rnd email st)
  = {| users := replaced (savedRow st u') (users st); sessions := sessions st |}.
Proof.
  intros Hfind u'. unfold forgotPassword, tryCatch, forgotPassword_body, bindM,
    findOneUser.
  unfold Conditions.byEmail in Hfind. rewrite Hfind.
  cbn [User.generatePasswordResetToken fst].
  pose proof (AuthProps.updateUser_users L rnd
                (User.set_passwordReset
                   (Some (bcrypt_hash L (e_rawToken rnd) 10 (e_tokenSalt rnd)))
                   (Some (now + 3600000)) u) st) as Hup.
  cbv zeta in Hup. fold u' in Hup.
  destruct (updateUser L rnd _ st) as [[x|e] st1] eqn:Hu;
    [|unfold updateUser in Hu; discriminate Hu].
  exact Hup.
Qed.

(** The row that a [forgotPassword] leaves for the user it found. *)
Lemma forgotPassword_row (now : Z) (rnd : Entropy) (st : Store) (u : User.User) :
  let v := User.set_passwordReset
             (Some (bcrypt_hash L (e_rawToken rnd) 10 (e_tokenSalt rnd)))
             (Some (now + 3600000)) u in
  let w := savedRow st (User.beforeSave L (e_passwordSalt rnd) v) in
  User.id w = User.id u /\
  User.passwordResetToken w
  = Some (bcrypt_hash L (e_rawToken rnd) 10 (e_tokenSalt rnd)) /\
  User.passwordResetExpires w = Some (now + 3600000) /\
  User.isActive w = User.isActive u /\
  User.password w =
    (if truthy (User.password u)
     then bcrypt_hash L (User.password u) 12 (e_passwordSalt rnd)
     else User.password u) /\
  User.email w =
    (if truthy (User.email u) then trim (toLowerCase (User.email u))
     else User.email u).
Proof.
  intros v w.
  destruct (AuthProps.beforeSave_keeps L (e_passwordSalt rnd) v)
    as (Hid & Hact & _ & Ht & He & Hpass & Hemail).
  destruct (AuthProps.savedRow_keeps st (User.beforeSave L (e_passwordSalt rnd) v))
    as (Wid & Wemail & _ & Wpass & Wact & _ & _ & _ & _ & _ & Wtok & Wexp & _).
  fold w in Wid, Wemail, Wpass, Wact, Wtok, Wexp.
  cbn in Hid, Hact, Ht, He, Hpass, Hemail.
  split; [congruence|]. split; [exact (Wtok _ Ht)|]. split; [exact (Wexp _ He)|].
  split; [congruence|]. split; [now rewrite Wpass | now rewrite Wemail].
Qed.

(** X18: [forgotPassword] gives the same answer whether or not the
    email belongs to a user.  For an unknown email nothing is written; for
    the email of a stored user, active or not, the row of that user gets
    the hash of a new reset token and an expiry one hour from now, and the
    sessions are untouched. *)
Theorem forgotPassword_is_uniform (now : Z) (rnd : Entropy) (email : string)
        (st : Store) :
  let '(response, st') := forgotPassword L now rnd email st in
  response = succeeded "If the email exists, a password reset link has been sent" /\
  sessions st' = sessions st /\
  match find (Conditions.byEmail email) (users st) with
  | None => st' = st
  | Some u =>
      exists u', users st' = replaced u' (users st) /\
                 User.id u' = User.id u /\
                 User.passwordResetToken u'
                 = Some (bcrypt_hash L (e_rawToken rnd) 10 (e_tokenSalt rnd)) /\
                 User.passwordResetExpires u' = Some (now + 3600000)
  end.
Proof.
  destruct (find (Conditions.byEmail email) (users st)) as [u|] eqn:Hfind.
  - pose proof (forgotPassword_store now rnd email st u Hfind) as Hst.
    cbv zeta in Hst.
    destruct (forgotPassword_row now rnd st u) as (Hid & Ht & He & _).
    assert (Hr : fst (forgotPassword L now rnd email st)
                 = succeeded "If the email exists, a password reset link has been sent").
    { unfold forgotPassword, tryCatch, forgotPassword_body, bindM, findOneUser.
      unfold Conditions.byEmail in Hfind. rewrite Hfind. reflexivity. }
    destruct (forgotPassword L now rnd email st) as [response st'].
    cbn [fst snd] in Hr, Hst. subst st'.
    split; [exact Hr|]. split; [reflexivity|].
    eexists. split; [reflexivity|]. repeat split; assumption.
  - unfold forgotPassword, tryCatch, forgotPassword_body, bindM, findOneUser.
    unfold Conditions.byEmail in Hfind. rewrite Hfind. repeat split.
Qed.



(** X24: a [forgotPassword] for the email of a stored user saves the
    row, and the save hashes the stored password hash again: with the
    idealised hash, the password [p] whose hash was stored no longer
    verifies, and a login with it is refused until the password is reset. *)
Theorem forgotPassword_rehashes_password (now : Z) (rnd : Entropy)
        (data : LoginRequest) (st : Store) (u : User.User) (r : Z) (s : string) :
  Conditions.BcryptIdeal L ->
  find (Conditions.byEmail (login_email data)) (users st) = Some u ->
  User.password u = bcrypt_hash L (login_password data) r s ->
  let st1 := snd (forgotPassword L now rnd (login_email data) st) in
  (exists u1, find (Conditions.byEmail (login_email data)) (users st1) = Some u1 /\
              User.password u1
              = bcrypt_hash L (User.password u) 12 (e_passwordSalt rnd) /\
              User.validatePassword L (login_password data) u1 = false) /\
  forall now' rnd' ip ua,
    login L cfg now' rnd' data ip ua st1
    = (failure "Invalid email or password", st1).
Proof.
  intros ideal Hfind Hstored st1.
  pose proof (forgotPassword_store now rnd (login_email data) st u Hfind) as Hst1.
  cbv zeta in Hst1. fold st1 in Hst1.
  destruct (forgotPassword_row now rnd st u) as (Hid & _ & _ & _ & Hpass & Hemail).
  set (u1 := savedRow st _) in *.
  pose proof Hfind as Hin. apply find_some in Hin as [_ Hmatch].
  unfold Conditions.byEmail in Hmatch. apply String.eqb_eq in Hmatch.
  assert (Hemail1 : User.email u1 = normalized (login_email data)).
  { rewrite Hemail, Hmatch.
    destruct (truthy (normalized (login_email data))); [|reflexivity].
    apply StringProps.normalized_idem. }
  assert (Hpass1 : User.password u1
                   = bcrypt_hash L (User.password u) 12 (e_passwordSalt rnd)).
  { rewrite Hpass, Hstored, (Conditions.hash_nonempty L ideal). reflexivity. }
  assert (Hwrong : User.validatePassword L (login_password data) u1 = false).
  { unfold User.validatePassword. rewrite Hpass1, Hstored.
    apply Bool.not_true_is_false. intros Hc.
    apply (Conditions.compare_only L ideal) in Hc.
    symmetry in Hc. exact (Conditions.hash_differs L ideal _ _ _ Hc). }
  assert (Hfind1 : find (Conditions.byEmail (login_email data)) (users st1)
                   = Some u1).
  { rewrite Hst1. cbn [users]. apply (AuthProps.find_replaced _ _ u u1 Hfind); [|exact Hid].
    unfold Conditions.byEmail. rewrite Hemail1. apply String.eqb_refl. }
  split; [exists u1; auto|].
  intros now' rnd' ip ua.
  unfold login, tryCatch, login_body, bindM, findOneUser.
  unfold Conditions.byEmail in Hfind1. rewrite Hfind1.
  destruct (User.isActive u1); [|reflexivity].
  cbn [negb]. rewrite Hwrong. reflexivity.
Qed.

Lemma beforeSave_keeps_profile (salt : string) (u : User.User) :
  let u' := User.beforeSave L salt u in
  User.role u' = User.role u /\
  User.isEmailVerified u' = User.isEmailVerified u /\
  User.emailVerificationToken u' = User.emailVerificationToken u /\
  User.emailVerificationExpires u' = User.emailVerificationExpires u /\
  User.lastLoginAt u' = User.lastLoginAt u.
Proof.
  unfold User.beforeSave, User.normalizeEmail, User.hashPassword.
  destruct (truthy (User.password u)); cbn;
    destruct (truthy (User.email u)); cbn; repeat split; reflexivity.
Qed.

Lemma register_success_facts (now : Z) (rnd : Entropy) (data : RegisterRequest)
      (ip ua : option string) (st : Store) :
  success (fst (register L cfg now rnd data ip ua st)) = true ->
  let st' := snd (register L cfg now rnd data ip ua st) in
  PasswordService.isValid (PasswordService.validatePassword (reg_password data))
  = true /\
  (forall x, In x (users st) ->
             User.email x <> normalized (reg_email data) /\
             User.username x <> reg_username data) /\
  exists u s,
    users st' = (users st ++ [u])%list /\
    sessions st' = (sessions st ++ [s])%list /\
    User.id u = e_userId rnd /\
    User.email u = normalized (reg_email data) /\
    User.username u = reg_username data /\
    User.password u
    = bcrypt_hash L (reg_password data) 12 (e_passwordSalt rnd) /\
    User.role u = User.CLIENT /\ User.isActive u = true /\
    User.isEmailVerified u = false /\
    User.emailVerificationToken u
    = Some (bcrypt_hash L (e_rawToken rnd) 10 (e_tokenSalt rnd)) /\
    User.emailVerificationExpires u = Some (now + 86400000) /\
    User.passwordResetExpires u = None /\
    Session.userId s = e_userId rnd /\ Session.isValid now s = true.
Proof.
  unfold register, tryCatch, register_body, bindM, findOneUser.
  destruct (find _ (users st)) as [x|] eqn:Hfind; [discriminate|].
  destruct (PasswordService.isValid _) eqn:Hvalid; [|discriminate].
  cbn [negb]. unfold insertUser.
  match goal with |- context [existsb ?f ?l] => destruct (existsb f l) end;
    [discriminate|].
  unfold createSession.
  match goal with |- context [existsb ?f ?l] => destruct (existsb f l) end;
    [discriminate|].
  unfold generateTokens, bindM, lift, ret.
  destruct (JWTService.generateAccessToken _ _ _ _ _ _ _); [|discriminate].
  destruct (JWTService.generateRefreshToken _ _ _ _ _); [|discriminate].
  intros _. cbn [snd users sessions].
  split; [reflexivity|]. split.
  { intros x Hx. pose proof (find_none _ _ Hfind x Hx) as Hno. cbv beta in Hno.
    apply Bool.orb_false_iff in Hno as [He Hu].
    split; [now apply String.eqb_neq | now apply String.eqb_neq]. }
  assert (Hne : truthy (reg_password data) = true).
  { destruct (reg_password data); [discriminate Hvalid | reflexivity]. }
  eexists _, _. split; [reflexivity|]. split; [reflexivity|].
  match goal with
  | |- context [User.beforeSave L ?salt ?v] =>
      destruct (AuthProps.beforeSave_keeps L salt v)
        as (_ & Hact & Huser & _ & Hpre & Hpass & Hemail);
      destruct (beforeSave_keeps_profile salt v) as (Hrole & Hver & Htok & Hexp & _);
      set (u1 := User.beforeSave L salt v) in *
  end.
  cbn in Hact, Huser, Hpre, Hpass, Hemail, Hrole, Hver, Htok, Hexp.
  rewrite Hne in Hpass.
  assert (Hemail' : User.email u1 = normalized (reg_email data)).
  { rewrite Hemail. destruct (truthy (normalized (reg_email data))); [|reflexivity].
    apply StringProps.normalized_idem. }
  change (User.email (User.set_id (e_userId rnd) u1)) with (User.email u1).
  change (User.username (User.set_id (e_userId rnd) u1)) with (User.username u1).
  change (User.password (User.set_id (e_userId rnd) u1)) with (User.password u1).
  change (User.role (User.set_id (e_userId rnd) u1)) with (User.role u1).
  change (User.isActive (User.set_id (e_userId rnd) u1)) with (User.isActive u1).
  change (User.isEmailVerified (User.set_id (e_userId rnd) u1))
    with (User.isEmailVerified u1).
  change (User.emailVerificationToken (User.set_id (e_userId rnd) u1))
    with (User.emailVerificationToken u1).
  change (User.emailVerificationExpires (User.set_id (e_userId rnd) u1))
    with (User.emailVerificationExpires u1).
  change (User.passwordResetExpires (User.set_id (e_userId rnd) u1))
    with (User.passwordResetExpires u1).
  repeat split; auto.
  unfold Session.isValid, Session.isExpired. cbn.
  rewrite Bool.andb_true_r, Z.gtb_ltb.
  apply Bool.negb_true_iff, Z.ltb_ge. lia.
Qed.

(** X21: a registration that succeeds was asked with a password that
    the validator accepts and with an email and a username that no stored
    user had.  It appends exactly one user (the normalised email, the role
    client, active, not verified, the hash of the password, a verification
    token that expires in 24 hours) and one session for that user; nothing
    else changes. *)
Theorem register_success (now : Z) (rnd : Entropy) (data : RegisterRequest)
        (ip ua : option string) (st : Store) :
  success (fst (register L cfg now rnd data ip ua st)) = true ->
  let st' := snd (register L cfg now rnd data ip ua st) in
  PasswordService.isValid (PasswordService.validatePassword (reg_password data))
  = true /\
  (forall x, In x (users st) ->
             User.email x <> normalized (reg_email data) /\
             User.username x <> reg_username data) /\
  exists u s,
    users st' = (users st ++ [u])%list /\
    sessions st' = (sessions st ++ [s])%list /\
    User.id u = e_userId rnd /\
    User.email u = normalized (reg_email data) /\
    User.username u = reg_username data /\
    User.password u
    = bcrypt_hash L (reg_password data) 12 (e_passwordSalt rnd) /\
    User.role u = User.CLIENT /\ User.isActive u = true /\
    User.isEmailVerified u = false /\
    User.emailVerificationToken u
    = Some (bcrypt_hash L (e_rawToken rnd) 10 (e_tokenSalt rnd)) /\
    User.emailVerificationExpires u = Some (now + 86400000) /\
    User.passwordResetExpires u = None /\
    Session.userId s = e_userId rnd /\ Session.isValid now s = true.
Proof. apply register_success_facts. Qed.


(** X23: an email verification with the token of the user that the
    lookup returns marks that user verified; no other user row is added,
    deleted or changed, and the sessions are untouched.  The two
    verification fields are not cleared: the code sets the properties to
    undefined, which the save leaves out of the UPDATE, so the row keeps
    the token hash and the expiry, and the lookup by expiry still matches
    it.  The key of the user is assumed to be a primary key. *)
Theorem verifyEmail_first_holder (now : Z) (rnd : Entropy)
        (token stored : string) (st : Store) (u : User.User) :
  find (verificationPending now) (users st) = Some u ->
  (forall x, In x (users st) -> User.id x = User.id u -> x = u) ->
  User.emailVerificationToken u = Some stored ->
  truthy stored = true ->
  bcrypt_compare L token stored = true ->
  let '(response, st') := verifyEmail L now rnd token st in
  response = succeeded "Email verified successfully" /\
  sessions st' = sessions st /\
  List.length (users st') = List.length (users st) /\
  (exists u', In u' (users st') /\ User.id u' = User.id u /\
              User.isEmailVerified u' = true /\
              User.emailVerificationToken u' = Some stored /\
              User.emailVerificationExpires u' = User.emailVerificationExpires u /\
              verificationPending now u' = true /\
              (forall x, In x (users st') -> User.id x = User.id u -> x = u')) /\
  (forall x, User.id x <> User.id u -> (In x (users st') <-> In x (users st))).
Proof.
  intros Hfind Hkey Hstored Htruthy Hcmp.
  unfold verifyEmail, tryCatch, verifyEmail_body, bindM, findOneUser.
  rewrite Hfind, Hstored, Htruthy. cbn [negb]. rewrite Hcmp. cbn [negb].
  set (v := User.set_emailVerification None None (set_isEmailVerified true u)).
  pose proof (AuthProps.updateUser_users L rnd v st) as Hup. cbv zeta in Hup.
  destruct (AuthProps.beforeSave_keeps L (e_passwordSalt rnd) v) as (Hid & _).
  destruct (beforeSave_keeps_profile (e_passwordSalt rnd) v)
    as (_ & Hver & Htok & Hexp & _).
  set (v' := User.beforeSave L (e_passwordSalt rnd) v) in *.
  cbn in Hid, Hver, Htok, Hexp.
  pose proof Hfind as Hin. apply find_some in Hin as [Hin Hpend].
  assert (Hrow : savedRow st v' = User.written u v').
  { unfold savedRow. rewrite Hid, (AuthProps.find_by_key _ u Hin Hkey). reflexivity. }
  rewrite Hrow in Hup.
  destruct (updateUser L rnd v st) as [[saved|e] st1] eqn:Hu;
    [|unfold updateUser in Hu; discriminate Hu].
  cbn [snd] in Hup. subst st1. unfold ret. cbn [users sessions].
  assert (Hexp' : User.emailVerificationExpires (User.written u v')
                  = User.emailVerificationExpires u).
  { cbn. now rewrite Hexp. }
  assert (Hwid : User.id (User.written u v') = User.id u) by exact Hid.
  split; [reflexivity|]. split; [reflexivity|].
  split; [apply length_map|]. split.
  - exists (User.written u v').
    split.
    { unfold replaced. apply in_map_iff. exists u. split; [|exact Hin].
      rewrite Hwid, String.eqb_refl. reflexivity. }
    split; [exact Hid|]. split; [exact Hver|]. split.
    { cbn. rewrite Htok. exact Hstored. }
    split; [exact Hexp'|]. split.
    { unfold verificationPending in *. rewrite Hexp'. exact Hpend. }
    intros x Hx Hxid. rewrite <- Hwid in Hxid.
    exact (replaced_key _ (users st) x Hx Hxid).
  - intros x Hne. apply replaced_others. congruence.
Qed.

End WithLibraries.

End AuthCredentialProps.

(* ================================================================== *)
(** * Properties of the access control middleware *)
(* ================================================================== *)

Module MiddlewareProps.
Import JS AuthService AuthSessions Middleware.

Section WithLibraries.
Variable L : Libraries.
Variable cfg : JwtConfig.

Lemma verifyAccessToken_claims (now : Z) (token : string) (payload : JWTPayload) :
  JWTAccess.verifyAccessToken L cfg now token = Ok payload ->
  exists uid sid, p_userId payload = Some uid /\ p_sessionId payload = Some sid.
Proof.
  unfold JWTAccess.verifyAccessToken, JWTAccess.verifyAccessToken_try.
  destruct (jwt_verify L token (JWT_SECRET cfg) now) as [[p|x]|e]; cbn [bind].
  - destruct (JWTAccess.hasAccessClaims p) eqn:Hc; [|discriminate].
    intros H. injection H as <-. unfold JWTAccess.hasAccessClaims in Hc.
    destruct (p_userId p), (p_sessionId p), (p_email p), (p_role p);
      try discriminate. eauto.
  - discriminate.
  - destruct e; discriminate.
Qed.

Lemma authenticate_spec (now : Z) (header : option string) (st : Store) :
  match authenticate L cfg now header st with
  | (Respond status _ _, st') => status = 401 /\ st' = st
  | (Next attachedUser attachedSession, st') =>
      exists token payload u s,
        JWTAccess.extractTokenFromHeader header = Some token /\
        JWTAccess.verifyAccessToken L cfg now token = Ok payload /\
        In u (users st) /\ p_userId payload = Some (User.id u) /\
        User.isActive u = true /\
        In s (sessions st) /\ p_sessionId payload = Some (Session.id s) /\
        Session.userId s = User.id u /\ Session.isValid now s = true /\
        attachedUser = Some (selected u) /\
        attachedSession = Some (SessionOps.updateLastAccessed now s) /\
        users st' = users st /\
        sessions st' =
          map (fun x => if String.eqb (Session.id x) (Session.id s)
                        then SessionOps.updateLastAccessed now s else x)
              (sessions st)
  end.
Proof.
  unfold authenticate.
  destruct (JWTAccess.extractTokenFromHeader header) as [token|] eqn:Hx; [|auto].
  destruct (truthy token); cbn [negb]; [|auto].
  destruct (JWTAccess.verifyAccessToken L cfg now token) as [payload|e] eqn:Hv;
    [|auto].
  destruct (verifyAccessToken_claims now token payload Hv) as (uid & sid & Hu & Hs).
  rewrite Hu, Hs. cbn [idOf].
  destruct (find _ (users st)) as [u|] eqn:Hfu; [|auto].
  destruct (find _ (sessions st)) as [s|] eqn:Hfs; [|auto].
  destruct (Session.isValid now s) eqn:Hval; cbn [negb]; [|auto].
  apply find_some in Hfu as [Hinu Hpu]. apply find_some in Hfs as [Hins Hps].
  apply Bool.andb_true_iff in Hpu as [Hid Hact]. apply String.eqb_eq in Hid.
  apply Bool.andb_true_iff in Hps as [Hps _].
  apply Bool.andb_true_iff in Hps as [Hsid Hsuid].
  apply String.eqb_eq in Hsid, Hsuid.
  exists token, payload, u, s. cbn [updateSession snd users sessions].
  repeat split; auto; congruence.
Qed.

(** X25: as long as the storage answers, [authenticate] either answers
    401 and writes nothing, or lets the request through.  It lets it through only for a bearer token that
    verifies as an access token, whose user is stored and active and whose
    session is stored for that user and valid now; it then attaches that
    user (selected columns only) and that session, and the only thing
    written is the time of last access of that session. *)
Theorem authenticate_is_sound (now : Z) (header : option string) (st : Store) :
  match authenticate L cfg now header st with
  | (Respond status _ _, st') => status = 401 /\ st' = st
  | (Next attachedUser attachedSession, st') =>
      exists token payload u s,
        JWTAccess.extractTokenFromHeader header = Some token /\
        JWTAccess.verifyAccessToken L cfg now token = Ok payload /\
        In u (users st) /\ p_userId payload = Some (User.id u) /\
        User.isActive u = true /\
        In s (sessions st) /\ p_sessionId payload = Some (Session.id s) /\
        Session.userId s = User.id u /\ Session.isValid now s = true /\
        attachedUser = Some (selected u) /\
        attachedSession = Some (SessionOps.updateLastAccessed now s) /\
        users st' = users st /\
        sessions st' =
          map (fun x => if String.eqb (Session.id x) (Session.id s)
                        then SessionOps.updateLastAccessed now s else x)
              (sessions st)
  end.
Proof. apply authenticate_spec. Qed.

(** A request is refused whenever every stored session that its token
    names is inactive. *)
Lemma authenticate_needs_active_session (now : Z) (header : option string)
      (token : string) (payload : JWTPayload) (st : Store) :
  JWTAccess.extractTokenFromHeader header = Some token ->
  JWTAccess.verifyAccessToken L cfg now token = Ok payload ->
  (forall s, In s (sessions st) ->
             p_sessionId payload = Some (Session.id s) ->
             p_userId payload = Some (Session.userId s) ->
             Session.isActive s = false) ->
  exists e m, authenticate L cfg now header st = (Respond 401 e m, st).
Proof.
  intros Hx Hv Hoff.
  pose proof (authenticate_spec now header st) as H.
  destruct (authenticate L cfg now header st) as [[status e m|ou os] st'].
  - destruct H as [-> ->]. eauto.
  - exfalso. destruct H as (token' & payload' & u & s & Hx' & Hv' & _ & Hpu & _
                            & Hins & Hps & Hsu & Hval & _).
    rewrite Hx in Hx'. injection Hx' as <-.
    rewrite Hv in Hv'. injection Hv' as <-.
    rewrite <- Hsu in Hpu.
    pose proof (Hoff s Hins Hps Hpu) as Hina.
    unfold Session.isValid in Hval. rewrite Hina in Hval. discriminate.
Qed.

(** X26: revocation defeats the tokens.  After a [logout] of the
    session that an access token names, and after a [logoutAll] of the user
    it names, [authenticate] answers 401 to that token, although the token
    itself still verifies. *)
Theorem revoked_session_is_rejected (now now' : Z) (header : option string)
        (token : string) (payload : JWTPayload) (st : Store) :
  JWTAccess.extractTokenFromHeader header = Some token ->
  JWTAccess.verifyAccessToken L cfg now' token = Ok payload ->
  let st1 := snd (logout now (idOf (p_sessionId payload)) st) in
  let st2 := snd (logoutAll now (idOf (p_userId payload)) st) in
  (exists e m, authenticate L cfg now' header st1 = (Respond 401 e m, st1)) /\
  (exists e m, authenticate L cfg now' header st2 = (Respond 401 e m, st2)).
Proof.
  intros Hx Hv st1 st2. split.
  - apply (authenticate_needs_active_session now' header token payload st1 Hx Hv).
    intros s Hs Hsid _. subst st1.
    pose proof (AuthSessionProps.logout_spec now (idOf (p_sessionId payload)) st) as H.
    destruct (logout now (idOf (p_sessionId payload)) st) as [r st1].
    destruct H as (_ & _ & Hoff & _). cbn [snd] in Hs.
    apply (Hoff s Hs). rewrite Hsid. reflexivity.
  - apply (authenticate_needs_active_session now' header token payload st2 Hx Hv).
    intros s Hs _ Huid. subst st2.
    unfold logoutAll, tryCatch, logoutAll_body, bindM, ret in Hs.
    pose proof (AuthSessionProps.revokeActiveSessions_spec now
                  (idOf (p_userId payload)) "User logout all sessions" "user" st)
      as (_ & Hoff & _).
    destruct (revokeActiveSessions now (idOf (p_userId payload))
                "User logout all sessions" "user" st) as [[[]|e] st2] eqn:Hr;
      [|discriminate Hr].
    cbn [snd] in Hs, Hoff. apply (Hoff s Hs). rewrite Huid. reflexivity.
Qed.

Lemma find_exists {A : Type} (P : A -> bool) (l : list A) (x : A) :
  In x l -> P x = true -> exists y, find P l = Some y /\ P y = true.
Proof.
  intros Hin Hp. destruct (find P l) as [y|] eqn:Hf.
  - exists y. split; [reflexivity|]. now apply find_some in Hf.
  - rewrite (find_none _ _ Hf x Hin) in Hp. discriminate.
Qed.

Lemma find_app_last {A : Type} (P : A -> bool) (l : list A) (x : A) :
  (forall y, In y l -> P y = false) -> P x = true ->
  find P (l ++ [x])%list = Some x.
Proof.
  intros Hno Hp. induction l as [|a l IH]; cbn [app find].
  - now rewrite Hp.
  - rewrite (Hno a (or_introl eq_refl)). apply IH.
    intros y Hy. apply Hno. now right.
Qed.

(** X30: log in, then authenticate.  After a login that succeeded, a
    request that carries a non-empty bearer token which verifies to the id of the
    user logged in and to the id of the session just created passes
    [authenticate] at every time up to the expiry of that session: the user
    and the session are attached and the time of last access is stamped. *)
Theorem login_then_authenticate (now now' : Z) (rnd : Entropy)
        (data : LoginRequest) (ip ua : option string) (st : Store)
        (header : option string) (token : string) (payload : JWTPayload) :
  success (fst (login L cfg now rnd data ip ua st)) = true ->
  JWTAccess.extractTokenFromHeader header = Some token ->
  truthy token = true ->
  JWTAccess.verifyAccessToken L cfg now' token = Ok payload ->
  p_userId payload
  = option_map v_id (user (fst (login L cfg now rnd data ip ua st))) ->
  p_sessionId payload = Some (e_sessionId rnd) ->
  now' <= now + (if rememberMe data then 168 else 24) * 3600000 ->
  exists u s st'',
    authenticate L cfg now' header (snd (login L cfg now rnd data ip ua st))
    = (Next (Some u) (Some s), st'') /\
    User.id u = idOf (p_userId payload) /\
    Session.id s = e_sessionId rnd /\ Session.userId s = User.id u /\
    Session.lastAccessedAt s = Some now'.
Proof.
  intros Hok Hx Ht Hv Huid Hsid Hnow.
  destruct (AuthSessionProps.login_success_facts L cfg now rnd data ip ua st Hok)
    as (u & s & tk & Hfind & Hact & _ & Hlogin & Hs1 & Hs2 & Hs3 & Hs4 & Hs5
        & _ & Hfresh).
  cbv zeta in Hlogin. rewrite Hlogin in Huid |- *. cbn [fst snd] in *.
  set (u' := User.beforeSave L (e_passwordSalt rnd)
               (User.set_lastLoginAt (Some now) u)) in *.
  destruct (AuthProps.beforeSave_keeps L (e_passwordSalt rnd)
              (User.set_lastLoginAt (Some now) u))
    as (Hid & Hact' & _).
  fold u' in Hid, Hact'. cbn in Hid, Hact'.
  destruct (AuthProps.savedRow_keeps st u') as (Wid & _ & _ & _ & Wact & _).
  set (w := savedRow st u') in *.
  cbn [user withUser option_map view v_id] in Huid.
  unfold authenticate. rewrite Hx, Ht, Hv, Huid, Hsid. cbn [negb idOf users sessions].
  apply find_some in Hfind as [Hin _].
  set (P := fun x : User.User =>
              (String.eqb (User.id x) (User.id u') && User.isActive x)%bool).
  destruct (find_exists P (users st) u Hin) as (u0 & Hf0 & Hp0).
  { unfold P. now rewrite Hid, String.eqb_refl, Hact. }
  assert (Hfu : find P (replaced w (users st)) = Some w).
  { apply (AuthProps.find_replaced P (users st) u0 w Hf0).
    - unfold P. now rewrite Wid, String.eqb_refl, Wact, Hact', Hact.
    - unfold P in Hp0. apply Bool.andb_true_iff in Hp0 as [Hp0 _].
      apply String.eqb_eq in Hp0. congruence. }
  rewrite Hfu.
  rewrite (find_app_last _ (sessions st) s).
  - assert (Hval : Session.isValid now' s = true).
    { unfold Session.isValid, Session.isExpired. rewrite Hs3, Hs4, Hs5. cbn.
      rewrite Bool.andb_true_r, Z.gtb_ltb.
      apply Bool.negb_true_iff, Z.ltb_ge. lia. }
    rewrite Hval. cbn [negb].
    eexists _, _, _. split; [reflexivity|]. cbn. repeat split; congruence.
  - intros y Hy. apply Hfresh in Hy. apply String.eqb_neq in Hy.
    now rewrite Hy.
  - now rewrite Hs1, Hs2, Hid, !String.eqb_refl, Hs3.
Qed.

(** X28: [optionalAuth] never refuses and never writes.  It attaches a
    user exactly when the header carries a bearer token, not empty, that
    verifies as an access token and names a stored, active user; the user
    attached is a stored, active user with the id that the token names.
    It does not look at the sessions at all: the outcome is the same
    whatever the sessions are, revoked or not. *)
Theorem optionalAuth_ignores_sessions (now : Z) (header : option string)
        (st : Store) :
  exists attachedUser,
    optionalAuth L cfg now header st = (Next attachedUser None, st) /\
    (forall u, attachedUser = Some u ->
       exists token payload,
         JWTAccess.extractTokenFromHeader header = Some token /\
         truthy token = true /\
         JWTAccess.verifyAccessToken L cfg now token = Ok payload /\
         p_userId payload = Some (User.id u) /\
         In u (users st) /\ User.isActive u = true) /\
    (forall token payload u,
       JWTAccess.extractTokenFromHeader header = Some token ->
       truthy token = true ->
       JWTAccess.verifyAccessToken L cfg now token = Ok payload ->
       In u (users st) -> p_userId payload = Some (User.id u) ->
       User.isActive u = true ->
       exists u', attachedUser = Some u' /\ User.id u' = User.id u) /\
    (forall others,
        fst (optionalAuth L cfg now header
               {| users := users st; sessions := others |})
        = Next attachedUser None).
Proof.
  unfold optionalAuth.
  destruct (JWTAccess.extractTokenFromHeader header) as [token|].
  2:{ exists None. repeat split; discriminate. }
  destruct (truthy token) eqn:Ht; cbn [negb].
  2:{ exists None. split; [reflexivity|]. split; [discriminate|].
      split; [|reflexivity].
      intros token' payload u Hx Ht'. injection Hx as <-. congruence. }
  destruct (JWTAccess.verifyAccessToken L cfg now token) as [payload|e] eqn:Hv.
  2:{ exists None. split; [reflexivity|]. split; [discriminate|].
      split; [|reflexivity].
      intros token' payload u Hx _ Hv'. injection Hx as <-. congruence. }
  destruct (verifyAccessToken_claims now token payload Hv) as (uid & sid & Hu & _).
  eexists. split; [reflexivity|]. split; [|split; [|reflexivity]].
  - intros u Hf. apply find_some in Hf as [Hin Hp].
    apply Bool.andb_true_iff in Hp as [Hid Hact]. apply String.eqb_eq in Hid.
    exists token, payload. rewrite Hu in Hid |- *. cbn [idOf] in Hid.
    repeat split; auto. congruence.
  - intros token' payload' u Hx _ Hv' Hin Hpu Hact.
    injection Hx as <-. rewrite Hv in Hv'. injection Hv' as <-.
    destruct (find_exists
                (fun x => (String.eqb (User.id x) (idOf (p_userId payload))
                           && User.isActive x)%bool) (users st) u Hin)
      as (u' & Hf & Hp).
    { rewrite Hpu. cbn [idOf]. now rewrite String.eqb_refl, Hact. }
    exists u'. split; [exact Hf|].
    apply Bool.andb_true_iff in Hp as [Hid _]. apply String.eqb_eq in Hid.
    rewrite Hpu in Hid. exact Hid.
Qed.

End WithLibraries.

(** X27: the role gates.  [requireCoach] lets through exactly the users
    for which the getter [isCoach] holds, admins included, and
    [requireAdmin] exactly those for which [isAdmin] holds; the others get
    403 with the list of the roles required, a request without a user gets
    401, and an empty list of roles lets nobody through. *)
Theorem role_gates (u : User.User) (s : option Session.Session)
        (roles : list User.UserRole) :
  requireCoach (Some u) s =
    (if isCoach u then Next (Some u) s
     else Respond 403 "Insufficient permissions"
            (Some "Required role: admin or coach")) /\
  requireAdmin (Some u) s =
    (if isAdmin u then Next (Some u) s
     else Respond 403 "Insufficient permissions" (Some "Required role: admin")) /\
  requireRole roles None s =
    Respond 401 "Authentication required" (Some "User not authenticated") /\
  requireRole [] (Some u) s =
    Respond 403 "Insufficient permissions" (Some "Required role: ") /\
  (isAdmin u = true -> isCoach u = true /\ isClient u = false).
Proof.
  unfold requireCoach, requireAdmin, requireRole, isCoach, isAdmin, isClient.
  destruct (User.role u); cbn; repeat split; auto; discriminate.
Qed.

End MiddlewareProps.


(* ================================================================== *)
(** * Concrete runs of the properties above *)
(* ================================================================== *)

Module Runs.
Import JS AuthService AuthSessions.



(** The keys of the users are distinct in the histories of the runs. *)
Lemma aliceRegistered_keys : NoDup (map User.id (users Demo.aliceRegistered)).
Proof. vm_compute. repeat constructor; cbn; intuition discriminate. Qed.


Lemma refreshToken_success_is_sound_witness :
  exists u s,
    In u (users Demo.aliceRegistered) /\ In s (sessions Demo.aliceRegistered) /\
    Session.userId s = User.id u /\ Session.canRefresh 3000 s = true.
Proof.
  destruct (AuthSessionProps.refreshToken_success_is_sound Demo.libraries
              Demo.config 3000 "refresh.user-a.session-a" Demo.aliceRegistered
              ltac:(vm_compute; reflexivity))
    as (uid & sid & u & s & a & r & _ & Hu & Hid & _ & Hs & _ & Hsu & Hc & _).
  exists u, s. repeat split; auto. congruence.
Defined.


Lemma login_success_creates_session_witness :
  message (fst (login Demo.libraries Demo.config 3000 (Demo.entropy "l")
                  Demo.aliceLogin None None Demo.aliceRegistered))
  = Some "Login successful".
Proof.
  pose proof (AuthSessionProps.login_success_creates_session Demo.libraries
                Demo.config 3000 (Demo.entropy "l") Demo.aliceLogin None None
                Demo.aliceRegistered eq_refl) as H.
  destruct (login Demo.libraries Demo.config 3000 (Demo.entropy "l")
              Demo.aliceLogin None None Demo.aliceRegistered) as [response st'].
  destruct H as (u & u' & s & H). cbn [fst]. apply H.
Defined.



Lemma forgotPassword_rehashes_password_witness :
  login Demo.libraries Demo.config 6000 (Demo.entropy "l") Demo.aliceLogin None None
    (snd (forgotPassword Demo.libraries 5000 (Demo.entropy "c")
            "alice@example.com" Demo.aliceRegistered))
  = (failure "Invalid email or password",
     snd (forgotPassword Demo.libraries 5000 (Demo.entropy "c")
            "alice@example.com" Demo.aliceRegistered)).
Proof.
  pose proof (fun u =>
                AuthCredentialProps.forgotPassword_rehashes_password
                  Demo.libraries Demo.config 5000 (Demo.entropy "c")
                  Demo.aliceLogin Demo.aliceRegistered u 12 "salt-a"
                  AuthProps.demo_ideal) as H.
  edestruct H as [_ Hl]; [reflexivity | reflexivity |].
  apply Hl.
Defined.

Lemma register_success_witness :
  exists u, users Demo.aliceRegistered = [u] /\
            User.email u = "alice@example.com" /\ User.role u = User.CLIENT.
Proof.
  destruct (AuthCredentialProps.register_success Demo.libraries Demo.config 1000
              (Demo.entropy "a") Demo.alice None None Demo.empty eq_refl)
    as (_ & _ & u & s & Hu & _ & _ & He & _ & _ & Hr & _).
  exists u. repeat split; assumption.
Defined.


Lemma verifyEmail_first_holder_witness :
  fst (verifyEmail Demo.libraries 3000 (Demo.entropy "v") "raw-a"
         Demo.aliceRegistered)
  = succeeded "Email verified successfully".
Proof.
  destruct (find (verificationPending 3000) (users Demo.aliceRegistered))
    as [u|] eqn:Hf; [|vm_compute in Hf; discriminate].
  pose proof (find_some _ _ Hf) as [Hin _].
  pose proof Hf as Hu. vm_compute in Hu. injection Hu as Hu.
  pose proof (AuthCredentialProps.verifyEmail_first_holder Demo.libraries 3000
                (Demo.entropy "v") "raw-a" "$2b$raw-a" Demo.aliceRegistered u
                Hf (fun x Hx Hid => AuthProps.nodup_keys _ aliceRegistered_keys x u Hx Hin Hid)
                ltac:(rewrite <- Hu; reflexivity) eq_refl eq_refl) as H.
  destruct (verifyEmail Demo.libraries 3000 (Demo.entropy "v") "raw-a"
              Demo.aliceRegistered) as [response st'].
  destruct H as [Hr _]. exact Hr.
Defined.

Lemma revoked_session_is_rejected_witness :
  (exists e m,
      Middleware.authenticate DemoAccess.libraries Demo.config 4000
        DemoAccess.aliceHeader (snd (logout 3500 "session-a" Demo.bothRegistered))
      = (Middleware.Respond 401 e m,
         snd (logout 3500 "session-a" Demo.bothRegistered))) /\
  fst (Middleware.authenticate DemoAccess.libraries Demo.config 4000
         DemoAccess.aliceHeader Demo.bothRegistered)
  <> Middleware.Respond 401 "Invalid session"
       (Some "Session has expired or been revoked").
Proof.
  split; [|vm_compute; discriminate].
  exact (proj1 (MiddlewareProps.revoked_session_is_rejected DemoAccess.libraries
                  Demo.config 3500 4000 DemoAccess.aliceHeader
                  "access|user-a|session-a|alice@example.com|client"
                  {| p_userId := Some "user-a"; p_email := Some "alice@example.com";
                     p_role := Some "client"; p_sessionId := Some "session-a";
                     p_type := None |}
                  Demo.bothRegistered eq_refl eq_refl)).
Defined.

Lemma login_then_authenticate_witness :
  exists u s st'',
    Middleware.authenticate DemoAccess.libraries Demo.config 5000 DemoAccess.loginHeader
      (snd (login DemoAccess.libraries Demo.config 3000 (Demo.entropy "l")
              Demo.aliceLogin None None Demo.aliceRegistered))
    = (Middleware.Next (Some u) (Some s), st'') /\
    Session.id s = "session-l".
Proof.
  destruct (MiddlewareProps.login_then_authenticate DemoAccess.libraries
              Demo.config 3000 5000 (Demo.entropy "l") Demo.aliceLogin None None
              Demo.aliceRegistered DemoAccess.loginHeader
              "access|user-a|session-l|alice@example.com|client"
              {| p_userId := Some "user-a"; p_email := Some "alice@example.com";
                 p_role := Some "client"; p_sessionId := Some "session-l";
                 p_type := None |}
              ltac:(vm_compute; reflexivity) ltac:(vm_compute; reflexivity)
              eq_refl ltac:(vm_compute; reflexivity)
              ltac:(vm_compute; reflexivity) eq_refl
              ltac:(vm_compute; discriminate))
    as (u & s & st'' & H & _ & Hs & _).
  exists u, s, st''. split; [exact H | exact Hs].
Defined.

Example authenticate_lets_alice_through :
  exists u s st',
    Middleware.authenticate DemoAccess.libraries Demo.config 4000
      DemoAccess.aliceHeader Demo.bothRegistered
    = (Middleware.Next (Some u) (Some s), st') /\
    User.email u = "alice@example.com" /\ User.password u = EmptyString /\
    Session.lastAccessedAt s = Some 4000.
Proof. vm_compute. do 3 eexists. repeat split. Qed.

End Runs.
